(** * Notification center of the AgentSOLVR Electron shell

    A shallow embedding of [src/agentsolvr/electron/notifications.py]
    (class [NotificationCenter] and its helpers) together with the two
    methods of [SystemTrayManager] (system_tray.py) that the center calls.

    Conventions of the embedding:
    - an object is a record, a method is a function that takes the object
      and returns the updated object together with the method's result;
    - [self.logger] is write-only: the records it receives are kept, in
      program order, in a list carried by the object;
    - a user callback is modelled by its outcome (normal return, or an
      [Exception] with its message); the call itself is recorded in the
      center's trace;
    - the background threads (the queue worker, the auto-dismiss timers and
      the do-not-disturb timer) are scheduled by explicit steps, so every
      interleaving of whole method bodies is a run of the model;
    - [time.time()] is passed in by the caller of the model as an integer
      number of microseconds; a creation timestamp is only ever compared,
      so it is an integer as well;
    - the two costs of [show_cost_alert] are binary64 floats. *)

From Stdlib Require Import ZArith List String Ascii Bool Lia Floats.
From Stdlib Require Import Permutation DecimalString.
Import ListNotations.

Open Scope string_scope.
Open Scope Z_scope.

(** ** Python values used by the module *)

(** [str(n)] for an integer. *)
Definition str_of_int (z : Z) : string := NilZero.string_of_int (Z.to_int z).

(** A value of a [Dict[str, Any]] as far as this module looks at it. *)
Inductive PyValue : Type :=
  | PyInt (z : Z)
  | PyFloat (f : float)
  | PyStr (s : string).

(** The outcome of calling a user-supplied callable. *)
Inductive Outcome : Type :=
  | Returned
  | RaisedException (e : string).

(** The exceptions that occur in the module, with their messages. *)
Inductive PyException : Type :=
  | ZeroDivisionError (m : string)
  | ValueError (m : string)
  | TypeError (m : string)
  | IndexError (m : string).

(** [str(e)] for an exception. *)
Definition str_of_exception (e : PyException) : string :=
  match e with
  | ZeroDivisionError m | ValueError m | TypeError m | IndexError m => m
  end.

Module logging.
Inductive level : Type := DEBUG | INFO | WARNING | ERROR.
End logging.

(** What the center emits: records on [self.logger] and calls of the
    dismiss callback [dismiss_callback(notification, reason)]. *)
Inductive Event : Type :=
  | Log (l : logging.level) (m : string)
  | DismissCallbackCalled (notification_id reason : string).

(** ** Ordered dictionaries

    A Python [dict] keeps its keys unique and in insertion order. *)

Section Dict.
Context {V : Type}.

Fixpoint dict_get (k : string) (d : list (string * V)) : option V :=
  match d with
  | [] => None
  | (k', v) :: d' => if String.eqb k k' then Some v else dict_get k d'
  end.

Definition dict_contains (k : string) (d : list (string * V)) : bool :=
  match dict_get k d with Some _ => true | None => false end.

(** [d[k] = v]: replaces in place, or appends a new key. *)
Fixpoint dict_set (k : string) (v : V) (d : list (string * V)) : list (string * V) :=
  match d with
  | [] => [(k, v)]
  | (k', v') :: d' =>
      if String.eqb k k' then (k', v) :: d' else (k', v') :: dict_set k v d'
  end.

(** The dictionary left by [d.pop(k)]. *)
Fixpoint dict_remove (k : string) (d : list (string * V)) : list (string * V) :=
  match d with
  | [] => []
  | (k', v') :: d' =>
      if String.eqb k k' then dict_remove k d' else (k', v') :: dict_remove k d'
  end.

Definition dict_keys (d : list (string * V)) : list string := map fst d.
Definition dict_values (d : list (string * V)) : list V := map snd d.
Definition dict_len (d : list (string * V)) : Z := Z.of_nat (List.length d).
End Dict.

(** ** Enumerations *)

Module NotificationType.
Inductive t : Type :=
  | INFO | SUCCESS | WARNING | ERROR | PROGRESS
  | CLAUDE_ACTIVITY | SYSTEM_STATUS | USER_ACTION_REQUIRED.
End NotificationType.

Module NotificationPriority.
Inductive t : Type := LOW | NORMAL | HIGH | CRITICAL | URGENT.

Definition value (p : t) : Z :=
  match p with
  | LOW => 1 | NORMAL => 2 | HIGH => 3 | CRITICAL => 4 | URGENT => 5
  end.

Definition name (p : t) : string :=
  match p with
  | LOW => "LOW" | NORMAL => "NORMAL" | HIGH => "HIGH"
  | CRITICAL => "CRITICAL" | URGENT => "URGENT"
  end.
End NotificationPriority.

Module TrayIconStatus.
Inductive t : Type := IDLE | ACTIVE | WORKING | ERROR | OFFLINE.

Definition value (s : t) : string :=
  match s with
  | IDLE => "idle" | ACTIVE => "active" | WORKING => "working"
  | ERROR => "error" | OFFLINE => "offline"
  end.
End TrayIconStatus.

(** ** The tray sink (system_tray.py) *)

Module TrayNotification.
Record t : Type := mk {
  title : string;
  body : string;
  icon : option string;
  timeout : Z;
  click_handler : option string
}.
End TrayNotification.

Module SystemTrayManager.
Record t : Type := mk {
  logger : list (logging.level * string);
  is_created : bool;
  current_status : TrayIconStatus.t;
  notification_queue : list TrayNotification.t;
  status_update_handlers : list (TrayIconStatus.t -> string -> Outcome)
}.

Definition log (l : logging.level) (m : string) (tray : t) : t :=
  mk (logger tray ++ [(l, m)]) (is_created tray) (current_status tray)
     (notification_queue tray) (status_update_handlers tray).

(** The loop over [status_update_handlers]: a failing handler is logged. *)
Fixpoint run_handlers (hs : list (TrayIconStatus.t -> string -> Outcome))
    (status : TrayIconStatus.t) (tooltip : string) (tray : t) : t :=
  match hs with
  | [] => tray
  | h :: hs' =>
      let tray' :=
        match h status tooltip with
        | Returned => tray
        | RaisedException e =>
            log logging.ERROR ("Error in status update handler: " ++ e) tray
        end in
      run_handlers hs' status tooltip tray'
  end.

(** [update_status(status, tooltip)]; the center always passes a tooltip. *)
Definition update_status (status : TrayIconStatus.t) (tooltip : string)
    (tray : t) : t :=
  if negb (is_created tray) then
    log logging.WARNING "Cannot update status - tray not created" tray
  else
    let tray1 := mk (logger tray) (is_created tray) status
                    (notification_queue tray) (status_update_handlers tray) in
    let tray2 := log logging.DEBUG
                   ("Updated tray status to " ++ TrayIconStatus.value status) tray1 in
    run_handlers (status_update_handlers tray2) status tooltip tray2.

(** [show_notification(notification)]. *)
Definition show_notification (n : TrayNotification.t) (tray : t) : t :=
  if negb (is_created tray) then
    log logging.WARNING "Cannot show notification - tray not created" tray
  else
    let tray1 := mk (logger tray) (is_created tray) (current_status tray)
                    (notification_queue tray ++ [n]) (status_update_handlers tray) in
    log logging.DEBUG ("Queued notification: " ++ TrayNotification.title n) tray1.
End SystemTrayManager.

(** ** Notifications *)

Module NotificationAction.
Record t : Type := mk {
  id : string;
  label : string;
  action_type : string;
  callback : option string;
  style : string
}.

(** [NotificationAction(id, label, callback=cb)]. *)
Definition make (i l cb : string) : t := mk i l "button" (Some cb) "default".
End NotificationAction.

Module DesktopNotification.
Record t : Type := mk {
  id : string;
  title : string;
  message : string;
  type : NotificationType.t;
  priority : NotificationPriority.t;
  timestamp : Z;
  duration : Z;
  sound : bool;
  badge_count : option Z;
  icon : option string;
  image : option string;
  actions : list NotificationAction.t;
  click_callback : option string;
  dismiss_callback : option (string -> Outcome);
  progress_value : option float;
  progress_text : option string;
  group_id : option string;
  replace_id : option string;
  source : string;
  tags : list string;
  data : list (string * PyValue)
}.

(** The dataclass defaults: only id, title and message are required; the
    timestamp default is the clock reading at construction. *)
Definition default (i ti m : string) (now : Z) : t :=
  mk i ti m NotificationType.INFO NotificationPriority.NORMAL now 5000 true
     None None None [] None None None None None None "system" [] [].

Definition set_id (i : string) (n : t) : t :=
  mk i (title n) (message n) (type n) (priority n) (timestamp n) (duration n)
     (sound n) (badge_count n) (icon n) (image n) (actions n)
     (click_callback n) (dismiss_callback n) (progress_value n)
     (progress_text n) (group_id n) (replace_id n) (source n) (tags n) (data n).

Definition set_actions (a : list NotificationAction.t) (n : t) : t :=
  mk (id n) (title n) (message n) (type n) (priority n) (timestamp n) (duration n)
     (sound n) (badge_count n) (icon n) (image n) a
     (click_callback n) (dismiss_callback n) (progress_value n)
     (progress_text n) (group_id n) (replace_id n) (source n) (tags n) (data n).
End DesktopNotification.

(** ** Python built-ins

    The results of the built-ins that are not computed here: [hash] of a
    string (salted per process), [str.title], [str] of a float,
    [format(v, ".<n>f")], [int] of a float, and the comparison of the
    fields after [id] in the [__eq__] that [@dataclass] generates for
    DesktopNotification. *)

Record Builtins : Type := mkBuiltins {
  py_hash : string -> Z;
  str_title : string -> string;
  float_repr : float -> string;
  format_fixed : nat -> PyValue -> string;
  int_of_float : float -> Z;
  same_other_fields : DesktopNotification.t -> DesktopNotification.t -> bool
}.

(** [a == b] on notifications: the fields are compared in order, [id] first. *)
Definition notification_eq (py : Builtins) (a b : DesktopNotification.t) : bool :=
  String.eqb (DesktopNotification.id a) (DesktopNotification.id b)
  && same_other_fields py a b.

(** ** heapq

    The heap functions behind [queue.PriorityQueue], as CPython implements
    them: the list is permuted in place, one swap at a time, and a
    comparison that raises leaves it as it is at that moment. *)

Module heapq.
Section Heap.
Context {A : Type}.

(** [a < b], or the exception it raises. *)
Variable lt : A -> A -> PyException + bool.

Fixpoint set_item (i : nat) (x : A) (l : list A) : list A :=
  match l, i with
  | [], _ => []
  | _ :: l', O => x :: l'
  | y :: l', S i' => y :: set_item i' x l'
  end.

Definition swap (i j : nat) (l : list A) : list A :=
  match nth_error l i, nth_error l j with
  | Some a, Some b => set_item i b (set_item j a l)
  | _, _ => l
  end.

(** [siftdown(heap, startpos, pos)]: the item at [pos] moves up while it is
    less than its parent; the parent of [pos] is at [(pos - 1) >> 1].
    [fuel] bounds the number of turns of the loop; [pos] turns are never
    all used. *)
Fixpoint siftdown_loop (fuel : nat) (heap : list A) (startpos pos : nat)
    : list A * option PyException :=
  match fuel with
  | O => (heap, None)
  | S fuel' =>
      if (pos <=? startpos)%nat then (heap, None)
      else
        let parentpos := Nat.div2 (pos - 1) in
        match nth_error heap pos, nth_error heap parentpos with
        | Some newitem, Some parent =>
            match lt newitem parent with
            | inl e => (heap, Some e)
            | inr false => (heap, None)
            | inr true => siftdown_loop fuel' (swap parentpos pos heap) startpos parentpos
            end
        | _, _ => (heap, Some (IndexError "index out of range"))
        end
  end.

Definition siftdown (heap : list A) (startpos pos : nat)
    : list A * option PyException :=
  if (List.length heap <=? pos)%nat
  then (heap, Some (IndexError "index out of range"))
  else siftdown_loop pos heap startpos pos.

(** The first loop of [siftup(heap, pos)]: the smaller child moves up until
    a leaf is reached; the result carries the position reached. *)
Fixpoint siftup_loop (fuel : nat) (heap : list A) (endpos pos : nat)
    : list A * nat * option PyException :=
  match fuel with
  | O => (heap, pos, None)
  | S fuel' =>
      if (pos <? Nat.div2 endpos)%nat then
        let childpos := (2 * pos + 1)%nat in
        let chosen :=
          if (childpos + 1 <? endpos)%nat then
            match nth_error heap childpos, nth_error heap (childpos + 1) with
            | Some a, Some b =>
                match lt a b with
                | inl e => inl e
                | inr true => inr childpos
                | inr false => inr (childpos + 1)%nat
                end
            | _, _ => inl (IndexError "index out of range")
            end
          else inr childpos in
        match chosen with
        | inl e => (heap, pos, Some e)
        | inr childpos =>
            siftup_loop fuel' (swap childpos pos heap) endpos childpos
        end
      else (heap, pos, None)
  end.

Definition siftup (heap : list A) (pos : nat) : list A * option PyException :=
  if (List.length heap <=? pos)%nat
  then (heap, Some (IndexError "index out of range"))
  else
    match siftup_loop (List.length heap) heap (List.length heap) pos with
    | (heap', _, Some e) => (heap', Some e)
    | (heap', pos', None) => siftdown heap' pos pos'
    end.

(** [heappush(heap, item)]. *)
Definition heappush (heap : list A) (item : A) : list A * option PyException :=
  siftdown (heap ++ [item]) 0 (List.length heap).

(** [heappop(heap)]: the list that is left and the item returned, or the
    exception raised; the item that was to be returned is then dropped. *)
Definition heappop (heap : list A) : list A * (PyException + A) :=
  match rev heap with
  | [] => ([], inl (IndexError "index out of range"))
  | lastelt :: others =>
      match rev others with
      | [] => ([], inr lastelt)
      | returnitem :: rest =>
          match siftup (lastelt :: rest) 0 with
          | (heap', Some e) => (heap', inl e)
          | (heap', None) => (heap', inr returnitem)
          end
      end
  end.
End Heap.
End heapq.

(** ** The priority queue

    [queue.PriorityQueue]: a heap of entries and the count of unfinished
    tasks.  An entry is the tuple [((100 - priority.value, timestamp),
    notification)].  Python compares two such tuples by their keys,
    lexicographically; when the keys are equal it goes on to the
    notifications, and DesktopNotification defines no order: unless the two
    are equal, the comparison raises TypeError. *)

Module PriorityQueue.
Definition key : Type := (Z * Z)%type.
Definition entry : Type := (key * DesktopNotification.t)%type.

Record t : Type := mk {
  queue : list entry;
  unfinished_tasks : Z
}.

Definition empty : t := mk [] 0.

(** Tuple comparison [a < b] on keys. *)
Definition key_ltb (a b : key) : bool :=
  if negb (fst a =? fst b) then fst a <? fst b else snd a <? snd b.

Definition key_eqb (a b : key) : bool :=
  (fst a =? fst b) && (snd a =? snd b).

(** What [get(timeout=1.0)] does: it raises [queue.Empty], returns an
    entry, or lets the exception of a comparison through. *)
Inductive GetResult : Type :=
  | Empty
  | Got (e : entry) (q : t)
  | GetRaised (x : PyException) (q : t).

Section Queue.
Variable py : Builtins.

(** Tuple comparison [a < b] on entries. *)
Definition entry_lt (a b : entry) : PyException + bool :=
  if negb (key_eqb (fst a) (fst b)) then inr (key_ltb (fst a) (fst b))
  else if notification_eq py (snd a) (snd b) then inr false
  else inl (TypeError
    "'<' not supported between instances of 'DesktopNotification' and 'DesktopNotification'").

(** [put(item)]: the count of unfinished tasks goes up only when the
    push has not raised. *)
Definition put (e : entry) (q : t) : t * option PyException :=
  match heapq.heappush entry_lt (queue q) e with
  | (heap, None) => (mk heap (unfinished_tasks q + 1), None)
  | (heap, Some x) => (mk heap (unfinished_tasks q), Some x)
  end.

Definition get (q : t) : GetResult :=
  match queue q with
  | [] => Empty
  | _ =>
      match heapq.heappop entry_lt (queue q) with
      | (heap, inr e) => Got e (mk heap (unfinished_tasks q))
      | (heap, inl x) => GetRaised x (mk heap (unfinished_tasks q))
      end
  end.
End Queue.

(** [task_done()]: [None] stands for the ValueError of a call too many. *)
Definition task_done (q : t) : option t :=
  if unfinished_tasks q <=? 0 then None
  else Some (mk (queue q) (unfinished_tasks q - 1)).

Definition qsize (q : t) : Z := Z.of_nat (List.length (queue q)).
End PriorityQueue.

(** ** The notification center *)

Module NotificationCenter.

Record Config : Type := mkConfig {
  max_simultaneous : Z;
  queue_size_limit : Z;
  history_limit : Z;
  batch_similar_notifications : bool;
  smart_timing : bool;
  do_not_disturb_hours : option (Z * Z);
  priority_escalation : bool
}.

Record Stats : Type := mkStats {
  total_sent : Z;
  dismissed_count : Z;
  action_clicks : Z;
  claude_notifications : Z;
  system_notifications : Z
}.

(** Where the thread that runs [_process_notification_queue] stands:
    at the head of the loop, holding the entry it has just taken from
    the queue, past the capacity test with the entry it is going to
    display, or returned from the loop. *)
Inductive Worker : Type :=
  | Polling
  | Popped (e : PriorityQueue.entry)
  | Promoting (e : PriorityQueue.entry)
  | Exited.

(** The sleeping daemon threads started by [_display_notification]
    ([auto_dismiss]) and by [set_do_not_disturb] ([disable_dnd]). *)
Inductive TimerThread : Type :=
  | AutoDismiss (notification_id : string)
  | DisableDnd (duration_minutes : Z).

Record t : Type := mk {
  system_tray : SystemTrayManager.t;
  trace : list Event;
  active_notifications : list (string * DesktopNotification.t);
  notification_queue : PriorityQueue.t;
  notification_history : list DesktopNotification.t;
  config : Config;
  is_active : bool;
  do_not_disturb : bool;
  processing_thread : option Worker;
  timer_threads : list TimerThread;
  stats : Stats
}.

Definition set_system_tray (x : SystemTrayManager.t) (c : t) : t :=
  mk x (trace c) (active_notifications c) (notification_queue c)
     (notification_history c) (config c) (is_active c) (do_not_disturb c)
     (processing_thread c) (timer_threads c) (stats c).

Definition set_trace (x : list Event) (c : t) : t :=
  mk (system_tray c) x (active_notifications c) (notification_queue c)
     (notification_history c) (config c) (is_active c) (do_not_disturb c)
     (processing_thread c) (timer_threads c) (stats c).

Definition set_active_notifications (x : list (string * DesktopNotification.t))
    (c : t) : t :=
  mk (system_tray c) (trace c) x (notification_queue c)
     (notification_history c) (config c) (is_active c) (do_not_disturb c)
     (processing_thread c) (timer_threads c) (stats c).

Definition set_notification_queue (x : PriorityQueue.t) (c : t) : t :=
  mk (system_tray c) (trace c) (active_notifications c) x
     (notification_history c) (config c) (is_active c) (do_not_disturb c)
     (processing_thread c) (timer_threads c) (stats c).

Definition set_notification_history (x : list DesktopNotification.t) (c : t) : t :=
  mk (system_tray c) (trace c) (active_notifications c) (notification_queue c)
     x (config c) (is_active c) (do_not_disturb c)
     (processing_thread c) (timer_threads c) (stats c).

Definition set_is_active (x : bool) (c : t) : t :=
  mk (system_tray c) (trace c) (active_notifications c) (notification_queue c)
     (notification_history c) (config c) x (do_not_disturb c)
     (processing_thread c) (timer_threads c) (stats c).

Definition set_do_not_disturb_flag (x : bool) (c : t) : t :=
  mk (system_tray c) (trace c) (active_notifications c) (notification_queue c)
     (notification_history c) (config c) (is_active c) x
     (processing_thread c) (timer_threads c) (stats c).

Definition set_processing_thread (x : option Worker) (c : t) : t :=
  mk (system_tray c) (trace c) (active_notifications c) (notification_queue c)
     (notification_history c) (config c) (is_active c) (do_not_disturb c)
     x (timer_threads c) (stats c).

Definition set_timer_threads (x : list TimerThread) (c : t) : t :=
  mk (system_tray c) (trace c) (active_notifications c) (notification_queue c)
     (notification_history c) (config c) (is_active c) (do_not_disturb c)
     (processing_thread c) x (stats c).

Definition set_stats (x : Stats) (c : t) : t :=
  mk (system_tray c) (trace c) (active_notifications c) (notification_queue c)
     (notification_history c) (config c) (is_active c) (do_not_disturb c)
     (processing_thread c) (timer_threads c) x.

(** [self.logger.<level>(m)]. *)
Definition log (l : logging.level) (m : string) (c : t) : t :=
  set_trace (trace c ++ [Log l m]) c.

Definition is_alive (w : Worker) : bool :=
  match w with Exited => false | _ => true end.

(** [_start_processing()]. *)
Definition _start_processing (c : t) : t :=
  let running :=
    match processing_thread c with
    | Some w => is_alive w
    | None => false
    end in
  if running then c
  else log logging.INFO "Notification center started"
         (set_processing_thread (Some Polling) c).

Definition default_config : Config :=
  mkConfig 3 50 100 true true None true.

(** [NotificationCenter(system_tray)]. *)
Definition init (tray : SystemTrayManager.t) : t :=
  _start_processing
    (mk tray [] [] PriorityQueue.empty [] default_config true false None []
        (mkStats 0 0 0 0 0)).

(** [_dismiss_notification(notification_id, reason)]. *)
Definition _dismiss_notification (notification_id reason : string) (c : t)
    : t * bool :=
  match dict_get notification_id (active_notifications c) with
  | None => (c, false)
  | Some notification =>
      let c1 := set_active_notifications
                  (dict_remove notification_id (active_notifications c)) c in
      let c2 :=
        match DesktopNotification.dismiss_callback notification with
        | Some cb =>
            let c' := set_trace
                        (trace c1 ++ [DismissCallbackCalled
                                        (DesktopNotification.id notification) reason])
                        c1 in
            match cb reason with
            | Returned => c'
            | RaisedException e =>
                log logging.ERROR ("Error in dismiss callback: " ++ e) c'
            end
        | None => c1
        end in
      let st := stats c2 in
      let c3 := set_stats
                  (mkStats (total_sent st) (dismissed_count st + 1)
                     (action_clicks st) (claude_notifications st)
                     (system_notifications st)) c2 in
      (log logging.DEBUG
         ("Dismissed notification " ++ notification_id ++ ": " ++ reason) c3,
       true)
  end.

(** [dismiss_notification(notification_id, reason)]. *)
Definition dismiss_notification (notification_id reason : string) (c : t)
    : t * bool :=
  _dismiss_notification notification_id reason c.

(** The loop of [dismiss_group] over [to_dismiss]. *)
Fixpoint dismiss_each (ids : list string) (reason : string) (c : t) (count : Z)
    : t * Z :=
  match ids with
  | [] => (c, count)
  | notification_id :: ids' =>
      let '(c', ok) := _dismiss_notification notification_id reason c in
      dismiss_each ids' reason c' (if ok then count + 1 else count)
  end.

Definition in_group (group_id : string) (kv : string * DesktopNotification.t)
    : bool :=
  match DesktopNotification.group_id (snd kv) with
  | Some g => String.eqb g group_id
  | None => false
  end.

(** [dismiss_group(group_id)]. *)
Definition dismiss_group (group_id : string) (c : t) : t * Z :=
  let to_dismiss :=
    dict_keys (filter (in_group group_id) (active_notifications c)) in
  dismiss_each to_dismiss "group_dismissed" c 0.

(** [clear_all_notifications()]. *)
Definition clear_all_notifications (c : t) : t * Z :=
  let count := dict_len (active_notifications c) in
  let c' := fst (dismiss_each (dict_keys (active_notifications c))
                   "cleared_all" c 0) in
  (log logging.INFO ("Cleared " ++ str_of_int count ++ " notifications") c',
   count).

(** [set_do_not_disturb(enabled, duration_minutes)]: a duration that is
    neither None nor 0 starts the [disable_dnd] thread. *)
Definition set_do_not_disturb (enabled : bool) (duration_minutes : option Z)
    (c : t) : t :=
  let c1 := set_do_not_disturb_flag enabled c in
  if enabled then
    match duration_minutes with
    | Some d =>
        if negb (d =? 0) then
          let c2 := log logging.INFO
                      ("Do not disturb enabled" ++ " for " ++ str_of_int d
                         ++ " minutes") c1 in
          set_timer_threads (timer_threads c2 ++ [DisableDnd d]) c2
        else log logging.INFO "Do not disturb enabled" c1
    | None => log logging.INFO "Do not disturb enabled" c1
    end
  else log logging.INFO "Do not disturb disabled" c1.

(** [get_active_notifications()]. *)
Definition get_active_notifications (c : t) : list DesktopNotification.t :=
  dict_values (active_notifications c).

(** [get_notification_stats()]: the counters, then active_count,
    queue_size, history_count and the do-not-disturb flag. *)
Definition get_notification_stats (c : t) : Stats * (Z * Z * Z * bool) :=
  (stats c,
   (dict_len (active_notifications c),
    PriorityQueue.qsize (notification_queue c),
    Z.of_nat (List.length (notification_history c)),
    do_not_disturb c)).

(** [stop()]. *)
Definition stop (c : t) : t :=
  log logging.INFO "Notification center stopped" (set_is_active false c).

(** [_display_notification(notification)]. *)
Definition _display_notification (notification : DesktopNotification.t)
    (c : t) : t :=
  let c1 := set_active_notifications
              (dict_set (DesktopNotification.id notification) notification
                 (active_notifications c)) c in
  let appended := (notification_history c1 ++ [notification])%list in
  let history :=
    if Z.of_nat (List.length appended) >? history_limit (config c1)
    then tl appended else appended in
  let c2 := set_notification_history history c1 in
  let tray_notification :=
    TrayNotification.mk (DesktopNotification.title notification)
      (DesktopNotification.message notification) None
      (DesktopNotification.duration notification)
      (DesktopNotification.click_callback notification) in
  let c3 := set_system_tray
              (SystemTrayManager.show_notification tray_notification
                 (system_tray c2)) c2 in
  let st := stats c3 in
  let c4 := set_stats
              (mkStats (total_sent st + 1) (dismissed_count st)
                 (action_clicks st) (claude_notifications st)
                 (system_notifications st)) c3 in
  let c5 :=
    if DesktopNotification.duration notification >? 0
    then set_timer_threads
           (timer_threads c4
              ++ [AutoDismiss (DesktopNotification.id notification)]) c4
    else c4 in
  log logging.INFO
    ("Displayed notification: " ++ DesktopNotification.id notification) c5.

Section Methods.
Variable py : Builtins.

(** The handler of the worker's outer [try]: the exception is logged and
    the loop goes on after a pause. *)
Definition log_queue_error (x : PyException) (c : t) : t :=
  log logging.ERROR
    ("Error processing notification queue: " ++ str_of_exception x) c.

(** One scheduling of the thread that runs [_process_notification_queue]:
    from the loop head to the return of [get]; from there through the
    capacity test (and the re-queueing when the test fails); from there
    through [_display_notification] and [task_done]. *)
Definition worker_step (c : t) : t :=
  match processing_thread c with
  | None | Some Exited => c
  | Some Polling =>
      if negb (is_active c) then set_processing_thread (Some Exited) c
      else
        match PriorityQueue.get py (notification_queue c) with
        | PriorityQueue.Empty => c
        | PriorityQueue.Got e q' =>
            set_processing_thread (Some (Popped e))
              (set_notification_queue q' c)
        | PriorityQueue.GetRaised x q' =>
            log_queue_error x (set_notification_queue q' c)
        end
  | Some (Popped (priority_tuple, notification)) =>
      if dict_len (active_notifications c) >=? max_simultaneous (config c)
      then
        match PriorityQueue.put py (priority_tuple, notification)
                (notification_queue c) with
        | (q', None) =>
            set_processing_thread (Some Polling) (set_notification_queue q' c)
        | (q', Some x) =>
            set_processing_thread (Some Polling)
              (log_queue_error x (set_notification_queue q' c))
        end
      else set_processing_thread (Some (Promoting (priority_tuple, notification))) c
  | Some (Promoting (_, notification)) =>
      let c1 := _display_notification notification c in
      let c2 :=
        match PriorityQueue.task_done (notification_queue c1) with
        | Some q' => set_notification_queue q' c1
        | None =>
            log_queue_error (ValueError "task_done() called too many times") c1
        end in
      set_processing_thread (Some Polling) c2
  end.

(** The [k]-th sleeping timer thread wakes up and runs to its end.  The
    sleeps are not timed: a thread may wake at any step.  [time.sleep] of a
    negative length raises ValueError, which ends [disable_dnd] at once. *)
Definition timer_fire (k : nat) (c : t) : t :=
  match nth_error (timer_threads c) k with
  | None => c
  | Some th =>
      let c1 := set_timer_threads
                  (firstn k (timer_threads c) ++ skipn (S k) (timer_threads c))
                  c in
      match th with
      | AutoDismiss notification_id =>
          fst (_dismiss_notification notification_id "auto_dismissed" c1)
      | DisableDnd duration_minutes =>
          if duration_minutes * 60 <? 0 then c1
          else
            log logging.INFO "Do not disturb automatically disabled"
              (set_do_not_disturb_flag false c1)
      end
  end.

(** [str(v)]. *)
Definition py_str (v : PyValue) : string :=
  match v with
  | PyInt z => str_of_int z
  | PyFloat f => float_repr py f
  | PyStr s => s
  end.

(** [d.get(k, default)]. *)
Definition py_get (k : string) (default : PyValue)
    (d : list (string * PyValue)) : PyValue :=
  match dict_get k d with Some v => v | None => default end.

(** The test of the do-not-disturb gate of [show_notification]. *)
Definition blocked_by_dnd (notification : DesktopNotification.t) (c : t)
    : bool :=
  do_not_disturb c
  && (NotificationPriority.value (DesktopNotification.priority notification)
      <? NotificationPriority.value NotificationPriority.CRITICAL).

(** The notification after the first statement of [show_notification]. *)
Definition with_generated_id (now : Z) (notification : DesktopNotification.t)
    : DesktopNotification.t :=
  if String.eqb (DesktopNotification.id notification) "" then
    DesktopNotification.set_id
      ("notif_" ++ str_of_int (Z.quot now 1000) ++ "_"
         ++ str_of_int (py_hash py (DesktopNotification.title notification)))
      notification
  else notification.

(** The test of the replacement branch of [show_notification]. *)
Definition replaces_active (notification : DesktopNotification.t) (c : t)
    : option string :=
  match DesktopNotification.replace_id notification with
  | Some r =>
      if negb (String.eqb r "") && dict_contains r (active_notifications c)
      then Some r else None
  | None => None
  end.

(** The queue entry built by [show_notification]. *)
Definition queue_entry (notification : DesktopNotification.t)
    : PriorityQueue.entry :=
  ((100 - NotificationPriority.value (DesktopNotification.priority notification),
    DesktopNotification.timestamp notification),
   notification).

(** [show_notification(notification)], called at clock reading [now].  An
    exception raised by [put] goes to the caller, after the replacement
    and without the last log record. *)
Definition show_notification (now : Z) (notification : DesktopNotification.t)
    (c : t) : t * (PyException + string) :=
  let notification := with_generated_id now notification in
  if blocked_by_dnd notification c then
    (log logging.DEBUG
       ("Notification blocked by DND: " ++ DesktopNotification.id notification) c,
     inr (DesktopNotification.id notification))
  else
    let c1 :=
      match replaces_active notification c with
      | Some r => fst (_dismiss_notification r "replaced" c)
      | None => c
      end in
    match PriorityQueue.put py (queue_entry notification) (notification_queue c1) with
    | (q', Some x) => (set_notification_queue q' c1, inl x)
    | (q', None) =>
        (log logging.DEBUG
           ("Queued notification: " ++ DesktopNotification.id notification
              ++ " (priority: "
              ++ NotificationPriority.name (DesktopNotification.priority notification)
              ++ ")") (set_notification_queue q' c1),
         inr (DesktopNotification.id notification))
    end.

(** The notification built by [show_claude_notification]. *)
Definition claude_notification (now : Z) (operation status : string)
    (details : list (string * PyValue)) : DesktopNotification.t :=
  let '(title, message, notif_type, icon) :=
    if String.eqb status "started" then
      ("Claude " ++ str_title py operation,
       "Starting " ++ operation ++ "...",
       NotificationType.CLAUDE_ACTIVITY, "claude_working")
    else if String.eqb status "completed" then
      let tokens := py_get "tokens_used" (PyInt 0) details in
      let cost := py_get "cost_estimate" (PyFloat 0%float) details in
      ("Claude " ++ str_title py operation ++ " Complete",
       "Analysis complete. Tokens: " ++ py_str tokens ++ ", Cost: $"
         ++ format_fixed py 3 cost,
       NotificationType.SUCCESS, "claude_success")
    else if String.eqb status "failed" then
      let error := py_get "error" (PyStr "Unknown error") details in
      ("Claude " ++ str_title py operation ++ " Failed",
       "Operation failed: " ++ py_str error,
       NotificationType.ERROR, "claude_error")
    else
      ("Claude " ++ str_title py operation,
       py_str (py_get "message"
                 (PyStr ("Claude " ++ operation ++ " " ++ status)) details),
       NotificationType.INFO, "claude_info") in
  let notification :=
    DesktopNotification.mk
      ("claude_" ++ operation ++ "_" ++ str_of_int (Z.quot now 1000000))
      title message notif_type NotificationPriority.NORMAL now 5000 true
      None (Some icon) None [] None None None None
      (Some "claude_operations") None "claude" ["claude"; operation] details in
  if String.eqb status "completed" && String.eqb operation "analyze_code" then
    DesktopNotification.set_actions
      [NotificationAction.make "view_results" "View Results" "_view_claude_results";
       NotificationAction.make "run_tests" "Generate Tests" "_generate_tests_action"]
      notification
  else if String.eqb status "failed" then
    DesktopNotification.set_actions
      [NotificationAction.make "retry" "Retry" "_retry_claude_operation";
       NotificationAction.make "view_error" "View Error" "_view_error_details"]
      notification
  else notification.

(** [show_claude_notification(operation, status, details)]. *)
Definition show_claude_notification (now : Z) (operation status : string)
    (details : option (list (string * PyValue))) (c : t)
    : t * (PyException + string) :=
  let details := match details with Some d => d | None => [] end in
  let notification := claude_notification now operation status details in
  let st := stats c in
  let c1 := set_stats
              (mkStats (total_sent st) (dismissed_count st) (action_clicks st)
                 (claude_notifications st + 1) (system_notifications st)) c in
  show_notification now notification c1.

(** [show_progress_notification(operation_id, title, progress, status_text)]. *)
Definition show_progress_notification (now : Z) (operation_id title : string)
    (progress : float) (status_text : string) (c : t)
    : t * (PyException + string) :=
  let notification :=
    DesktopNotification.mk
      ("progress_" ++ operation_id) title status_text
      NotificationType.PROGRESS NotificationPriority.NORMAL now 0 true
      None None None [] None None (Some progress)
      (Some (str_of_int (int_of_float py (PrimFloat.mul progress 100%float)) ++ "%"))
      None (Some ("progress_" ++ operation_id)) "system" [] [] in
  show_notification now notification c.

Definition status_icons : list (string * string) :=
  [("connected", "status_connected");
   ("disconnected", "status_disconnected");
   ("error", "status_error");
   ("warning", "status_warning");
   ("maintenance", "status_maintenance")].

Definition status_types : list (string * NotificationType.t) :=
  [("connected", NotificationType.SUCCESS);
   ("disconnected", NotificationType.WARNING);
   ("error", NotificationType.ERROR);
   ("warning", NotificationType.WARNING);
   ("maintenance", NotificationType.INFO)].

(** The notification built by [show_system_status]. *)
Definition system_status_notification (now : Z) (component status : string)
    (details : option string) : DesktopNotification.t :=
  let default_message := component ++ " is " ++ status in
  DesktopNotification.mk
    ("system_" ++ component ++ "_" ++ status)
    (str_title py component ++ " " ++ str_title py status)
    (match details with
     | Some d => if String.eqb d "" then default_message else d
     | None => default_message
     end)
    (match dict_get status status_types with
     | Some ty => ty
     | None => NotificationType.INFO
     end)
    (if String.eqb status "error" then NotificationPriority.HIGH
     else NotificationPriority.NORMAL)
    now 5000 true None
    (Some (match dict_get status status_icons with
           | Some i => i
           | None => "status_info"
           end))
    None [] None None None None
    (Some ("system_" ++ component)) None "system"
    ["system"; component; status] [].

Definition tray_statuses : list (string * TrayIconStatus.t) :=
  [("connected", TrayIconStatus.ACTIVE);
   ("disconnected", TrayIconStatus.OFFLINE);
   ("error", TrayIconStatus.ERROR)].

(** The tray update of [show_system_status], when it is made. *)
Definition tray_status_update (component status : string)
    : option (TrayIconStatus.t * string) :=
  if String.eqb component "claude" then
    match dict_get status tray_statuses with
    | Some tray_status => Some (tray_status, "Claude: " ++ status)
    | None => None
    end
  else None.

(** [show_system_status(component, status, details)]. *)
Definition show_system_status (now : Z) (component status : string)
    (details : option string) (c : t) : t * (PyException + string) :=
  let notification := system_status_notification now component status details in
  let c1 :=
    match tray_status_update component status with
    | Some (tray_status, tooltip) =>
        set_system_tray
          (SystemTrayManager.update_status tray_status tooltip (system_tray c)) c
    | None => c
    end in
  let st := stats c1 in
  let c2 := set_stats
              (mkStats (total_sent st) (dismissed_count st) (action_clicks st)
                 (claude_notifications st) (system_notifications st + 1)) c1 in
  show_notification now notification c2.

(** [percentage] of [show_cost_alert], for a non-zero threshold. *)
Definition percentage (current_cost threshold : float) : float :=
  PrimFloat.mul (PrimFloat.div current_cost threshold) 100%float.

(** The notification built by [show_cost_alert]. *)
Definition cost_alert_notification (now : Z) (current_cost threshold : float)
    (period : string) : DesktopNotification.t :=
  let percentage := percentage current_cost threshold in
  DesktopNotification.mk
    ("cost_alert_" ++ period)
    "Cost Alert"
    (str_title py period ++ " usage: $" ++ format_fixed py 2 (PyFloat current_cost)
       ++ " (" ++ format_fixed py 1 (PyFloat percentage) ++ "% of $"
       ++ format_fixed py 2 (PyFloat threshold) ++ " limit)")
    (if PrimFloat.leb 80%float percentage then NotificationType.WARNING
     else NotificationType.INFO)
    (if PrimFloat.leb 100%float percentage then NotificationPriority.HIGH
     else NotificationPriority.NORMAL)
    now 5000 true None (Some "cost_warning") None
    [NotificationAction.make "view_usage" "View Usage Details" "_view_usage_details";
     NotificationAction.make "adjust_limits" "Adjust Limits" "_adjust_cost_limits"]
    None None None None
    (Some "cost_monitoring") None "cost_monitor" ["cost"; "alert"; period] [].

(** [show_cost_alert(current_cost, threshold, period)]: the division by
    a zero threshold raises before anything else is done. *)
Definition show_cost_alert (now : Z) (current_cost threshold : float)
    (period : string) (c : t) : t * (PyException + string) :=
  if PrimFloat.eqb threshold 0%float then
    (c, inl (ZeroDivisionError "float division by zero"))
  else
    show_notification now
      (cost_alert_notification now current_cost threshold period) c.

(** ** Runs

    What can happen to a center: a call of a public method by the
    application, a scheduling of one of the center's threads, or an
    action of the rest of the program on the shared tray object. *)
Inductive Op : Type :=
  | ShowNotification (now : Z) (notification : DesktopNotification.t)
  | ShowClaudeNotification (now : Z) (operation status : string)
      (details : option (list (string * PyValue)))
  | ShowProgressNotification (now : Z) (operation_id title : string)
      (progress : float) (status_text : string)
  | ShowSystemStatus (now : Z) (component status : string)
      (details : option string)
  | ShowCostAlert (now : Z) (current_cost threshold : float) (period : string)
  | DismissNotification (notification_id reason : string)
  | DismissGroup (group_id : string)
  | SetDoNotDisturb (enabled : bool) (duration_minutes : option Z)
  | ClearAllNotifications
  | Stop
  | WorkerStep
  | TimerFire (k : nat)
  | TrayAction (f : SystemTrayManager.t -> SystemTrayManager.t).

Definition step (o : Op) (c : t) : t :=
  match o with
  | ShowNotification now n => fst (show_notification now n c)
  | ShowClaudeNotification now operation status details =>
      fst (show_claude_notification now operation status details c)
  | ShowProgressNotification now operation_id title progress status_text =>
      fst (show_progress_notification now operation_id title progress
             status_text c)
  | ShowSystemStatus now component status details =>
      fst (show_system_status now component status details c)
  | ShowCostAlert now current_cost threshold period =>
      fst (show_cost_alert now current_cost threshold period c)
  | DismissNotification notification_id reason =>
      fst (dismiss_notification notification_id reason c)
  | DismissGroup group_id => fst (dismiss_group group_id c)
  | SetDoNotDisturb enabled duration_minutes =>
      set_do_not_disturb enabled duration_minutes c
  | ClearAllNotifications => fst (clear_all_notifications c)
  | Stop => stop c
  | WorkerStep => worker_step c
  | TimerFire k => timer_fire k c
  | TrayAction f => set_system_tray (f (system_tray c)) c
  end.

Definition run (ops : list Op) (c : t) : t :=
  fold_left (fun c o => step o c) ops c.

(** The states of a center constructed on [tray]. *)
Definition reachable (tray : SystemTrayManager.t) (c : t) : Prop :=
  exists ops, c = run ops (init tray).
End Methods.
End NotificationCenter.

(** * Vocabulary of the properties *)

Import NotificationCenter.

(** A tray that has been created and has nothing queued. *)
Definition created_tray : SystemTrayManager.t :=
  SystemTrayManager.mk [] true TrayIconStatus.IDLE [] [].

(** Stand-ins for the Python built-ins, used where a property is
    evaluated on a concrete call. *)
Definition hash0 (s : string) : Z := Z.of_nat (String.length s).
Definition title0 (s : string) : string := s.
Definition repr0 (f : float) : string := "<float>".
Definition fixed0 (n : nat) (v : PyValue) : string := "<fixed>".
Definition int0 (f : float) : Z := 0.
Definition py0 : Builtins :=
  mkBuiltins hash0 title0 repr0 fixed0 int0 (fun _ _ => true).

(** The center without what it has written to its logger and callbacks:
    two centers that agree on it are indistinguishable to every method. *)
Definition silent (c : NotificationCenter.t) : NotificationCenter.t :=
  set_trace [] c.

(** An entry carries the key of its own notification. *)
Definition keyed (e : PriorityQueue.entry) : Prop :=
  fst e = fst (queue_entry (snd e)).

(** The entry the worker thread holds outside the queue, if any. *)
Definition held (c : NotificationCenter.t) : list PriorityQueue.entry :=
  match processing_thread c with
  | Some (Popped e) | Some (Promoting e) => [e]
  | _ => []
  end.

(** [first_before n n']: [n] is not to be delivered after [n']: its priority
    is higher, or equal with a creation timestamp that is not later. *)
Definition first_before (n n' : DesktopNotification.t) : Prop :=
  NotificationPriority.value (DesktopNotification.priority n)
    > NotificationPriority.value (DesktopNotification.priority n')
  \/ (DesktopNotification.priority n = DesktopNotification.priority n'
      /\ DesktopNotification.timestamp n <= DesktopNotification.timestamp n').

(** The number of queued entries that are retrieved before an entry of
    key [k]: the position of such an entry in the queue. *)
Definition ahead_of (k : PriorityQueue.key) (q : PriorityQueue.t) : nat :=
  List.length (filter (fun e => PriorityQueue.key_ltb (fst e) k) (PriorityQueue.queue q)).

(** One failed delivery attempt of the worker: it takes the head of the
    queue and, the active set being full, puts it back. *)
Definition requeue_cycle (py : Builtins) (c : NotificationCenter.t)
    : NotificationCenter.t :=
  worker_step py (worker_step py c).

(** What the center forwards to the tray sink for a notification. *)
Definition tray_projection (n : DesktopNotification.t) : TrayNotification.t :=
  TrayNotification.mk (DesktopNotification.title n) (DesktopNotification.message n)
    None (DesktopNotification.duration n) (DesktopNotification.click_callback n).


(** [not_after a b]: in the key order, [a] does not come after [b]. *)
Definition not_after (a b : PriorityQueue.entry) : Prop :=
  PriorityQueue.key_ltb (fst b) (fst a) = false.

(** The position of the parent of position [j] in a heap. *)
Definition parent (j : nat) : nat := Nat.div2 (j - 1).

(** The heap order: no item comes after one of its children. *)
Definition heap_ordered (l : list PriorityQueue.entry) : Prop :=
  forall j a p, (0 < j)%nat ->
    nth_error l j = Some a -> nth_error l (parent j) = Some p -> not_after p a.

(** The heap order but for the item at [pos], which may have to move up:
    its children are already in order with its parent. *)
Definition ordered_but (pos : nat) (l : list PriorityQueue.entry) : Prop :=
  (forall j a p, (0 < j)%nat -> j <> pos ->
     nth_error l j = Some a -> nth_error l (parent j) = Some p -> not_after p a)
  /\ (forall j a g, (0 < pos)%nat -> (0 < j)%nat -> parent j = pos ->
        nth_error l j = Some a -> nth_error l (parent pos) = Some g ->
        not_after g a).

(** The heap order but for the item at [pos], which may be out of order
    with its parent and with its children. *)
Definition ordered_around (pos : nat) (l : list PriorityQueue.entry) : Prop :=
  (forall j a p, (0 < j)%nat -> j <> pos -> parent j <> pos ->
     nth_error l j = Some a -> nth_error l (parent j) = Some p -> not_after p a)
  /\ (forall j a g, (0 < pos)%nat -> (0 < j)%nat -> parent j = pos ->
        nth_error l j = Some a -> nth_error l (parent pos) = Some g ->
        not_after g a).

(** No two entries have the same (priority, timestamp) key. *)
Definition tie_free (l : list PriorityQueue.entry) : Prop := NoDup (map fst l).

(** A heap of entries with distinct keys. *)
Definition sound_heap (l : list PriorityQueue.entry) : Prop :=
  tie_free l /\ heap_ordered l.

(** [frame c c']: [c'] has the configuration, the worker position and the
    history of [c], it is not running unless [c] is, its active set is what
    is left of that of [c] after removals, and whatever it has queued
    beyond [c] is keyed. *)
Definition frame (c c' : NotificationCenter.t) : Prop :=
  config c' = config c
  /\ processing_thread c' = processing_thread c
  /\ notification_history c' = notification_history c
  /\ (is_active c' = true -> is_active c = true)
  /\ incl (active_notifications c') (active_notifications c)
  /\ (List.length (active_notifications c') <= List.length (active_notifications c))%nat
  /\ (forall e, In e (PriorityQueue.queue (notification_queue c')) ->
        In e (PriorityQueue.queue (notification_queue c)) \/ keyed e).

(** The invariant of the reachable states. *)
Record Inv (c : NotificationCenter.t) : Prop := mkInv {
  inv_config : config c = default_config;
  inv_active : dict_len (active_notifications c) <= max_simultaneous (config c);
  inv_promoting : forall e, processing_thread c = Some (Promoting e) ->
    dict_len (active_notifications c) < max_simultaneous (config c);
  inv_history :
    Z.of_nat (List.length (notification_history c)) <= history_limit (config c);
  inv_keyed : forall e,
    In e (PriorityQueue.queue (notification_queue c) ++ held c) -> keyed e;
  inv_alive : is_active c = true ->
    exists w, processing_thread c = Some w /\ is_alive w = true
}.

(** A center with one persistent notification "a" on display and
    do-not-disturb switched on. *)
Definition busy_quiet_center : NotificationCenter.t :=
  run py0
    [ShowNotification 1
       (DesktopNotification.mk "a" "A" "first" NotificationType.INFO
          NotificationPriority.NORMAL 1 0 true None None None [] None
          (Some (fun _ => Returned)) None None None None "system" [] []);
     WorkerStep; WorkerStep; WorkerStep;
     SetDoNotDisturb true None]
    (init created_tray).

(** A notification of normal priority that is to replace "a". *)
Definition replacement_of_a : DesktopNotification.t :=
  DesktopNotification.mk "b" "B" "second" NotificationType.INFO
    NotificationPriority.NORMAL 2 0 true None None None [] None None None None
    None (Some "a") "system" [] [].


(** A fresh center with do-not-disturb switched on. *)
Definition quiet_center : NotificationCenter.t :=
  run py0 [SetDoNotDisturb true None]
    (init created_tray).

(** A notification with the given id, priority and timestamp, persistent,
    and otherwise as the dataclass defaults make it. *)
Definition plain (i : string) (p : NotificationPriority.t) (ts : Z)
    : DesktopNotification.t :=
  DesktopNotification.mk i i i NotificationType.INFO p ts 0 true None None None
    [] None None None None None None "system" [] [].

(** A center with three notifications queued in the order urgent, low,
    normal, before the worker has run. *)
Definition three_queued : NotificationCenter.t :=
  run py0
    [ShowNotification 1 (plain "u" NotificationPriority.URGENT 1);
     ShowNotification 2 (plain "l" NotificationPriority.LOW 2);
     ShowNotification 3 (plain "n" NotificationPriority.NORMAL 3)]
    (init created_tray).

(** The ids of the queued notifications, in the order of the heap list. *)
Definition queued_ids (c : NotificationCenter.t) : list string :=
  map (fun e : PriorityQueue.entry => DesktopNotification.id (snd e))
    (PriorityQueue.queue (notification_queue c)).

(** The ids of the notifications displayed so far, oldest first. *)
Definition displayed_ids (c : NotificationCenter.t) : list string :=
  map DesktopNotification.id (notification_history c).

(** A center with three notifications queued before the worker has run:
    an urgent one, then two normal ones that carry the same timestamp. *)
Definition tied_queued : NotificationCenter.t :=
  run py0
    [ShowNotification 1 (plain "u" NotificationPriority.URGENT 1);
     ShowNotification 2 (plain "t1" NotificationPriority.NORMAL 2);
     ShowNotification 3 (plain "t2" NotificationPriority.NORMAL 2)]
    (init created_tray).

(** A center with a full active set. *)
Definition full_center : NotificationCenter.t :=
  run py0
    ([ShowNotification 1 (plain "p1" NotificationPriority.NORMAL 1);
      ShowNotification 2 (plain "p2" NotificationPriority.NORMAL 2);
      ShowNotification 3 (plain "p3" NotificationPriority.NORMAL 3)]
       ++ repeat WorkerStep 9)
    (init created_tray).

(** * The rest of the notification module *)

(** ** Action handlers

    The methods that the notifications built by the helpers carry as
    callbacks of their actions. *)

Definition _view_claude_results (notification : DesktopNotification.t)
    (action : NotificationAction.t) (c : NotificationCenter.t)
    : NotificationCenter.t :=
  log logging.INFO "Opening Claude results viewer" c.

Definition _generate_tests_action (notification : DesktopNotification.t)
    (action : NotificationAction.t) (c : NotificationCenter.t)
    : NotificationCenter.t :=
  log logging.INFO "Initiating test generation" c.

(** [operation] is [notification.tags[1]] when there are two tags. *)
Definition _retry_claude_operation (notification : DesktopNotification.t)
    (action : NotificationAction.t) (c : NotificationCenter.t)
    : NotificationCenter.t :=
  let operation :=
    if (1 <? Z.of_nat (List.length (DesktopNotification.tags notification)))
    then nth 1 (DesktopNotification.tags notification) "unknown"
    else "unknown" in
  log logging.INFO ("Retrying Claude operation: " ++ operation) c.

Definition _view_error_details (notification : DesktopNotification.t)
    (action : NotificationAction.t) (c : NotificationCenter.t)
    : NotificationCenter.t :=
  log logging.INFO "Opening error details viewer" c.

Definition _view_usage_details (notification : DesktopNotification.t)
    (action : NotificationAction.t) (c : NotificationCenter.t)
    : NotificationCenter.t :=
  log logging.INFO "Opening usage dashboard" c.

Definition _adjust_cost_limits (notification : DesktopNotification.t)
    (action : NotificationAction.t) (c : NotificationCenter.t)
    : NotificationCenter.t :=
  log logging.INFO "Opening cost limit settings" c.

(** The method an action names as its callback. *)
Definition action_handler (name : string)
    : option (DesktopNotification.t -> NotificationAction.t ->
              NotificationCenter.t -> NotificationCenter.t) :=
  if String.eqb name "_view_claude_results" then Some _view_claude_results
  else if String.eqb name "_generate_tests_action" then Some _generate_tests_action
  else if String.eqb name "_retry_claude_operation" then Some _retry_claude_operation
  else if String.eqb name "_view_error_details" then Some _view_error_details
  else if String.eqb name "_view_usage_details" then Some _view_usage_details
  else if String.eqb name "_adjust_cost_limits" then Some _adjust_cost_limits
  else None.

(** ** The convenience classes

    Each helper object holds the center as [self.nc]; its methods are
    given here as functions of that center. *)

Module ClaudeNotificationHelper.
Section Helper.
Variable py : Builtins.

Definition code_analysis_started (now : Z) (file_name : string)
    (nc : NotificationCenter.t) : NotificationCenter.t * (PyException + string) :=
  show_claude_notification py now "code_analysis" "started"
    (Some [("file_name", PyStr file_name)]) nc.

Definition code_analysis_completed (now : Z) (file_name : string)
    (issues_found tokens_used : Z) (cost : float) (nc : NotificationCenter.t)
    : NotificationCenter.t * (PyException + string) :=
  show_claude_notification py now "code_analysis" "completed"
    (Some [("file_name", PyStr file_name);
           ("issues_found", PyInt issues_found);
           ("tokens_used", PyInt tokens_used);
           ("cost_estimate", PyFloat cost)]) nc.

Definition test_generation_completed (now : Z) (test_count : Z)
    (coverage : float) (nc : NotificationCenter.t)
    : NotificationCenter.t * (PyException + string) :=
  show_claude_notification py now "test_generation" "completed"
    (Some [("test_count", PyInt test_count);
           ("estimated_coverage", PyFloat coverage)]) nc.

Definition refactoring_suggestions_ready (now : Z) (suggestions_count : Z)
    (nc : NotificationCenter.t) : NotificationCenter.t * (PyException + string) :=
  show_claude_notification py now "refactoring" "completed"
    (Some [("suggestions_count", PyInt suggestions_count)]) nc.
End Helper.
End ClaudeNotificationHelper.

Module SystemNotificationHelper.
Section Helper.
Variable py : Builtins.

Definition claude_connected (now : Z) (auth_method : string)
    (nc : NotificationCenter.t) : NotificationCenter.t * (PyException + string) :=
  show_system_status py now "claude" "connected"
    (Some ("Authenticated using " ++ auth_method)) nc.

(** [reason] counts when it is neither None nor empty. *)
Definition claude_disconnected (now : Z) (reason : option string)
    (nc : NotificationCenter.t) : NotificationCenter.t * (PyException + string) :=
  let details :=
    match reason with
    | Some r => if String.eqb r "" then "Connection lost" else "Reason: " ++ r
    | None => "Connection lost"
    end in
  show_system_status py now "claude" "disconnected" (Some details) nc.

Definition offline_mode_enabled (now : Z) (cached_responses : Z)
    (nc : NotificationCenter.t) : NotificationCenter.t * (PyException + string) :=
  show_system_status py now "system" "maintenance"
    (Some ("Offline mode enabled. " ++ str_of_int cached_responses
             ++ " cached responses available.")) nc.

Definition rate_limit_warning (now : Z) (usage_percentage : float)
    (nc : NotificationCenter.t) : NotificationCenter.t * (PyException + string) :=
  show_system_status py now "claude" "warning"
    (Some ("Rate limit at " ++ format_fixed py 1 (PyFloat usage_percentage)
             ++ "% capacity")) nc.
End Helper.
End SystemNotificationHelper.

(** ** Vocabulary of the further properties *)

(** The active set as a dictionary keyed by notification id: the keys are
    distinct and each is the id of its notification. *)
Definition well_keyed (d : list (string * DesktopNotification.t)) : Prop :=
  NoDup (dict_keys d)
  /\ forall k n, In (k, n) d -> DesktopNotification.id n = k.

(** [dismissals c c']: between [c] and [c'] notifications have left the
    active set, each one counted as dismissed, and nothing was displayed. *)
Definition dismissals (c c' : NotificationCenter.t) : Prop :=
  (exists f, active_notifications c' = filter f (active_notifications c))
  /\ total_sent (stats c') = total_sent (stats c)
  /\ (NoDup (dict_keys (active_notifications c)) ->
      dismissed_count (stats c') + dict_len (active_notifications c')
      = dismissed_count (stats c) + dict_len (active_notifications c)).

(** The bookkeeping of the reachable states. *)
Record Accounted (c : NotificationCenter.t) : Prop := mkAccounted {
  acc_keys : well_keyed (active_notifications c);
  acc_dismissed : 0 <= dismissed_count (stats c);
  acc_sent :
    dict_len (active_notifications c) + dismissed_count (stats c)
    <= total_sent (stats c);
  acc_history :
    Z.of_nat (List.length (notification_history c)) <= total_sent (stats c)
}.



(** An operation other than an action of the rest of the program on the
    tray object. *)
Definition not_a_tray_action (o : Op) : bool :=
  match o with TrayAction _ => false | _ => true end.

(** The tray as the center's calls can change it when it is not created:
    the log grows, nothing else. *)
Definition only_logged (t t' : SystemTrayManager.t) : Prop :=
  SystemTrayManager.is_created t' = SystemTrayManager.is_created t
  /\ SystemTrayManager.current_status t' = SystemTrayManager.current_status t
  /\ SystemTrayManager.notification_queue t'
     = SystemTrayManager.notification_queue t
  /\ SystemTrayManager.status_update_handlers t'
     = SystemTrayManager.status_update_handlers t.


(** The message of the TypeError that the comparison of two notifications
    raises. *)
Definition unorderable : string :=
  "'<' not supported between instances of 'DesktopNotification' and 'DesktopNotification'".

(** * The rest of the tray manager (system_tray.py)

    [SystemTrayManager] with its menu: the record of the two methods that
    the notification center calls, extended by the fields the other
    methods use. *)

Module TrayMenuItem.
Unset Elimination Schemes.
Inductive t : Type :=
  mk (id label type : string) (enabled visible checked : bool)
     (submenu : option (list t)) (click_handler : option string).
Set Elimination Schemes.

Definition id (i : t) : string := let 'mk x _ _ _ _ _ _ _ := i in x.
Definition label (i : t) : string := let 'mk _ x _ _ _ _ _ _ := i in x.
Definition type (i : t) : string := let 'mk _ _ x _ _ _ _ _ := i in x.
Definition enabled (i : t) : bool := let 'mk _ _ _ x _ _ _ _ := i in x.
Definition visible (i : t) : bool := let 'mk _ _ _ _ x _ _ _ := i in x.
Definition checked (i : t) : bool := let 'mk _ _ _ _ _ x _ _ := i in x.
Definition submenu (i : t) : option (list t) := let 'mk _ _ _ _ _ _ x _ := i in x.
Definition click_handler (i : t) : option string :=
  let 'mk _ _ _ _ _ _ _ x := i in x.

(** The dataclass defaults: only id and label are required. *)
Definition default (i l : string) : t := mk i l "normal" true true false None None.

Definition set_submenu (s : option (list t)) (i : t) : t :=
  mk (id i) (label i) (type i) (enabled i) (visible i) (checked i) s
     (click_handler i).

(** A keyword argument of [update_menu_item]: a field with its new value,
    or a name that is no field of the dataclass. *)
Inductive Attr : Type :=
  | id_ (v : string)
  | label_ (v : string)
  | type_ (v : string)
  | enabled_ (v : bool)
  | visible_ (v : bool)
  | checked_ (v : bool)
  | submenu_ (v : option (list t))
  | click_handler_ (v : option string)
  | no_field (name : string).

(** [if hasattr(item, key): setattr(item, key, value)]. *)
Definition setattr (a : Attr) (i : t) : t :=
  match a with
  | id_ v => mk v (label i) (type i) (enabled i) (visible i) (checked i)
               (submenu i) (click_handler i)
  | label_ v => mk (id i) v (type i) (enabled i) (visible i) (checked i)
                  (submenu i) (click_handler i)
  | type_ v => mk (id i) (label i) v (enabled i) (visible i) (checked i)
                 (submenu i) (click_handler i)
  | enabled_ v => mk (id i) (label i) (type i) v (visible i) (checked i)
                    (submenu i) (click_handler i)
  | visible_ v => mk (id i) (label i) (type i) (enabled i) v (checked i)
                    (submenu i) (click_handler i)
  | checked_ v => mk (id i) (label i) (type i) (enabled i) (visible i) v
                    (submenu i) (click_handler i)
  | submenu_ v => set_submenu v i
  | click_handler_ v => mk (id i) (label i) (type i) (enabled i) (visible i)
                          (checked i) (submenu i) v
  | no_field _ => i
  end.

(** The loop over [kwargs.items()]. *)
Definition apply_kwargs (kwargs : list Attr) (i : t) : t :=
  fold_left (fun i a => setattr a i) kwargs i.
End TrayMenuItem.

Module SystemTray.

(** The loop [for item in items] of the two searches, given what is done
    at one item: [None] stands for the loop running to its end. *)
Fixpoint first_hit {A : Type} (at_item : A -> list A -> option (list A))
    (items : list A) : option (list A) :=
  match items with
  | [] => None
  | item :: rest =>
      match at_item item rest with
      | Some items' => Some items'
      | None =>
          match first_hit at_item rest with
          | Some rest' => Some (item :: rest')
          | None => None
          end
      end
  end.

(** [update_item] of [update_menu_item] at one item and inside it: the
    item itself is tested first, then its submenu is searched. *)
Fixpoint update_in (item_id : string) (kwargs : list TrayMenuItem.Attr)
    (item : TrayMenuItem.t) {struct item} : option TrayMenuItem.t :=
  match item with
  | TrayMenuItem.mk i l ty e v c sub h =>
      if String.eqb i item_id then Some (TrayMenuItem.apply_kwargs kwargs item)
      else
        match sub with
        | Some items =>
            match first_hit
                    (fun x rest =>
                       match update_in item_id kwargs x with
                       | Some x' => Some (x' :: rest)
                       | None => None
                       end) items with
            | Some items' => Some (TrayMenuItem.mk i l ty e v c (Some items') h)
            | None => None
            end
        | None => None
        end
  end.

(** [update_item(items)]: the list after the update, or [None] for False. *)
Definition update_item (item_id : string) (kwargs : list TrayMenuItem.Attr)
    (items : list TrayMenuItem.t) : option (list TrayMenuItem.t) :=
  first_hit (fun x rest =>
               match update_in item_id kwargs x with
               | Some x' => Some (x' :: rest)
               | None => None
               end) items.

(** [remove_item] of [remove_menu_item] inside one item. *)
Fixpoint remove_in (item_id : string) (item : TrayMenuItem.t) {struct item}
    : option TrayMenuItem.t :=
  match item with
  | TrayMenuItem.mk i l ty e v c sub h =>
      match sub with
      | Some items =>
          match first_hit
                  (fun x rest =>
                     if String.eqb (TrayMenuItem.id x) item_id then Some rest
                     else
                       match remove_in item_id x with
                       | Some x' => Some (x' :: rest)
                       | None => None
                       end) items with
          | Some items' => Some (TrayMenuItem.mk i l ty e v c (Some items') h)
          | None => None
          end
      | None => None
      end
  end.

(** [remove_item(items)]: the list after [items.pop(i)], or [None]. *)
Definition remove_item (item_id : string) (items : list TrayMenuItem.t)
    : option (list TrayMenuItem.t) :=
  first_hit (fun x rest =>
               if String.eqb (TrayMenuItem.id x) item_id then Some rest
               else
                 match remove_in item_id x with
                 | Some x' => Some (x' :: rest)
                 | None => None
                 end) items.

Record t : Type := mk {
  manager : SystemTrayManager.t;
  menu_items : list TrayMenuItem.t;
  click_handlers : list (string * string);
  _notification_thread : bool
}.

Definition set_manager (m : SystemTrayManager.t) (tray : t) : t :=
  mk m (menu_items tray) (click_handlers tray) (_notification_thread tray).

Definition set_menu_items (items : list TrayMenuItem.t) (tray : t) : t :=
  mk (manager tray) items (click_handlers tray) (_notification_thread tray).

Definition log (l : logging.level) (m : string) (tray : t) : t :=
  set_manager (SystemTrayManager.log l m (manager tray)) tray.

(** [SystemTrayManager()]. *)
Definition init : t :=
  mk (SystemTrayManager.mk [] false TrayIconStatus.IDLE [] []) [] [] false.

(** [_create_default_menu()]. *)
Definition default_menu : list TrayMenuItem.t :=
  let item := TrayMenuItem.mk in
  let off i l := item i l "normal" false true false None None in
  [ item "show_window" "Show AgentCODR" "normal" true true false None
      (Some "_handle_show_window");
    item "separator1" "" "separator" true true false None None;
    item "agent_status" "Agent Status" "normal" true true false
      (Some [off "agents_idle" "All Agents Idle";
             off "agents_working" "0 Agents Working";
             off "agents_error" "0 Agents with Errors"]) None;
    item "recent_activity" "Recent Activity" "normal" true true false
      (Some [off "no_activity" "No recent activity"]) None;
    item "separator2" "" "separator" true true false None None;
    item "preferences" "Preferences" "normal" true true false None
      (Some "_handle_preferences");
    item "about" "About AgentCODR" "normal" true true false None
      (Some "_handle_about");
    item "separator3" "" "separator" true true false None None;
    item "quit" "Quit AgentCODR" "normal" true true false None
      (Some "_handle_quit") ].

(** [status.value.title()]. *)
Definition status_title (s : TrayIconStatus.t) : string :=
  match s with
  | TrayIconStatus.IDLE => "Idle" | TrayIconStatus.ACTIVE => "Active"
  | TrayIconStatus.WORKING => "Working" | TrayIconStatus.ERROR => "Error"
  | TrayIconStatus.OFFLINE => "Offline"
  end.

(** [update_status(status, tooltip)], with the default tooltip. *)
Definition update_status (status : TrayIconStatus.t) (tooltip : option string)
    (tray : t) : t :=
  let tooltip :=
    match tooltip with
    | Some s => s
    | None => "AgentCODR V4 - " ++ status_title status
    end in
  set_manager (SystemTrayManager.update_status status tooltip (manager tray)) tray.

(** [show_notification(notification)]. *)
Definition show_notification (n : TrayNotification.t) (tray : t) : t :=
  set_manager (SystemTrayManager.show_notification n (manager tray)) tray.

(** [_start_notification_processor()]: the thread never returns, so it
    is started once. *)
Definition _start_notification_processor (tray : t) : t :=
  mk (manager tray) (menu_items tray) (click_handlers tray) true.

Definition set_is_created (b : bool) (m : SystemTrayManager.t)
    : SystemTrayManager.t :=
  SystemTrayManager.mk (SystemTrayManager.logger m) b
    (SystemTrayManager.current_status m)
    (SystemTrayManager.notification_queue m)
    (SystemTrayManager.status_update_handlers m).

(** [create_tray(title)]: nothing in the body of the [try] raises. *)
Definition create_tray (title : string) (tray : t) : t * bool :=
  let t1 := log logging.INFO "Creating system tray icon" tray in
  let t2 := set_menu_items default_menu t1 in
  let t3 := update_status TrayIconStatus.IDLE None t2 in
  let t4 := _start_notification_processor t3 in
  let t5 := set_manager (set_is_created true (manager t4)) t4 in
  (log logging.INFO "System tray created successfully" t5, true).

(** [update_menu_item(item_id, **kwargs)]. *)
Definition update_menu_item (item_id : string)
    (kwargs : list TrayMenuItem.Attr) (tray : t) : t * bool :=
  match update_item item_id kwargs (menu_items tray) with
  | Some items =>
      (log logging.DEBUG ("Updated menu item " ++ item_id)
         (set_menu_items items tray), true)
  | None =>
      (log logging.WARNING ("Menu item " ++ item_id ++ " not found") tray, false)
  end.



(** [remove_menu_item(item_id)]. *)
Definition remove_menu_item (item_id : string) (tray : t) : t * bool :=
  match remove_item item_id (menu_items tray) with
  | Some items =>
      (log logging.DEBUG ("Removed menu item " ++ item_id)
         (set_menu_items items tray), true)
  | None =>
      (log logging.WARNING ("Menu item " ++ item_id ++ " not found") tray, false)
  end.

(** [update_agent_status(active_agents, working_agents, error_agents)]. *)
Definition update_agent_status (active_agents working_agents error_agents : Z)
    (tray : t) : t :=
  let t1 := fst (update_menu_item "agents_idle"
                   [TrayMenuItem.label_
                      (str_of_int (active_agents - working_agents - error_agents)
                         ++ " Agents Idle")] tray) in
  let t2 := fst (update_menu_item "agents_working"
                   [TrayMenuItem.label_
                      (str_of_int working_agents ++ " Agents Working")] t1) in
  let t3 := fst (update_menu_item "agents_error"
                   [TrayMenuItem.label_
                      (str_of_int error_agents ++ " Agents with Errors")] t2) in
  if error_agents >? 0 then
    update_status TrayIconStatus.ERROR
      (Some ("AgentCODR V4 - " ++ str_of_int error_agents ++ " agents have errors"))
      t3
  else if working_agents >? 0 then
    update_status TrayIconStatus.WORKING
      (Some ("AgentCODR V4 - " ++ str_of_int working_agents ++ " agents working"))
      t3
  else
    update_status TrayIconStatus.ACTIVE (Some "AgentCODR V4 - All agents idle") t3.

(** The loop of [add_recent_activity] over the top-level items: the first
    item "recent_activity" whose submenu is not empty gets the new item in
    front and keeps five. *)
Fixpoint insert_activity (activity_item : TrayMenuItem.t)
    (items : list TrayMenuItem.t) : list TrayMenuItem.t :=
  match items with
  | [] => []
  | item :: rest =>
      match TrayMenuItem.submenu item with
      | Some (x :: xs) =>
          if String.eqb (TrayMenuItem.id item) "recent_activity" then
            TrayMenuItem.set_submenu
              (Some (firstn 5 (activity_item :: x :: xs))) item :: rest
          else item :: insert_activity activity_item rest
      | _ => item :: insert_activity activity_item rest
      end
  end.

(** [add_recent_activity(activity, timestamp)]; [clock] is the reading
    [datetime.now().strftime("%H:%M:%S")], used when no timestamp is
    given. *)
Definition add_recent_activity (clock : string) (activity : string)
    (timestamp : option string) (tray : t) : t :=
  let timestamp := match timestamp with Some s => s | None => clock end in
  let t1 := fst (remove_menu_item "no_activity" tray) in
  let activity_item :=
    TrayMenuItem.mk
      ("activity_" ++ str_of_int (Z.of_nat (List.length (menu_items t1))))
      (substring 0 50 (timestamp ++ ": " ++ activity))
      "normal" false true false None None in
  let t2 := set_menu_items (insert_activity activity_item (menu_items t1)) t1 in
  log logging.DEBUG ("Added recent activity: " ++ activity) t2.

(** [register_status_handler(handler)]. *)
Definition register_status_handler
    (handler : TrayIconStatus.t -> string -> Outcome) (tray : t) : t :=
  let m := manager tray in
  set_manager
    (SystemTrayManager.mk (SystemTrayManager.logger m)
       (SystemTrayManager.is_created m) (SystemTrayManager.current_status m)
       (SystemTrayManager.notification_queue m)
       (SystemTrayManager.status_update_handlers m ++ [handler])) tray.

(** [register_click_handler(menu_id, handler)]. *)
Definition register_click_handler (menu_id handler : string) (tray : t) : t :=
  mk (manager tray) (menu_items tray)
     (dict_set menu_id handler (click_handlers tray)) (_notification_thread tray).


(** [destroy()]: the notification thread is left running. *)
Definition destroy (tray : t) : t :=
  if negb (SystemTrayManager.is_created (manager tray)) then tray
  else
    let t1 := log logging.INFO "Destroying system tray" tray in
    let t2 := mk (SystemTrayManager.mk (SystemTrayManager.logger (manager t1))
                    false TrayIconStatus.OFFLINE [] [])
                 [] [] (_notification_thread t1) in
    log logging.INFO "System tray destroyed" t2.
End SystemTray.

(** ** Vocabulary of the properties of the tray *)

(** The ids of a menu, submenus included, in the order of the search. *)
Fixpoint item_ids (item : TrayMenuItem.t) : list string :=
  match item with
  | TrayMenuItem.mk i _ _ _ _ _ sub _ =>
      i :: match sub with
           | Some items => flat_map item_ids items
           | None => []
           end
  end.

Definition menu_ids (items : list TrayMenuItem.t) : list string :=
  flat_map item_ids items.

(** The number of items of a menu, submenus included. *)
Definition menu_size (items : list TrayMenuItem.t) : nat :=
  List.length (menu_ids items).

(** The submenu of the first top-level item with the given id. *)
Fixpoint submenu_of (item_id : string) (items : list TrayMenuItem.t)
    : option (list TrayMenuItem.t) :=
  match items with
  | [] => None
  | item :: rest =>
      if String.eqb (TrayMenuItem.id item) item_id
      then TrayMenuItem.submenu item
      else submenu_of item_id rest
  end.

(** The calls [add_recent_activity(activity, timestamp)] of a list, one
    after the other, each with its clock reading. *)
Definition add_activities (calls : list (string * string * option string))
    (tray : SystemTray.t) : SystemTray.t :=
  fold_left (fun t '(clock, activity, timestamp) =>
               SystemTray.add_recent_activity clock activity timestamp t)
    calls tray.

(** Induction on a menu item, with the property on the items of its
    submenu. *)
Section MenuInduction.
Variable P : TrayMenuItem.t -> Prop.
Hypothesis leaf : forall i l ty e v c h,
  P (TrayMenuItem.mk i l ty e v c None h).
Hypothesis node : forall i l ty e v c items h,
  Forall P items -> P (TrayMenuItem.mk i l ty e v c (Some items) h).

Fixpoint menu_item_ind (item : TrayMenuItem.t) : P item :=
  match item with
  | TrayMenuItem.mk i l ty e v c None h => leaf i l ty e v c h
  | TrayMenuItem.mk i l ty e v c (Some items) h =>
      node i l ty e v c items h
        ((fix all (items : list TrayMenuItem.t) : Forall P items :=
            match items with
            | [] => Forall_nil P
            | x :: rest => Forall_cons x (menu_item_ind x) (all rest)
            end) items)
  end.
End MenuInduction.


(** The default menu once its placeholder "No recent activity" is gone. *)
Definition menu_without_placeholder : list TrayMenuItem.t :=
  match SystemTray.remove_item "no_activity" SystemTray.default_menu with
  | Some items => items
  | None => SystemTray.default_menu
  end.

(** ** Centers and trays on which the further properties are evaluated *)


(** A center with "a" on display that holds for display a second
    notification with the id "a". *)
Definition about_to_overwrite : NotificationCenter.t :=
  run py0
    [ShowNotification 1 (plain "a" NotificationPriority.NORMAL 1);
     WorkerStep; WorkerStep; WorkerStep;
     ShowNotification 2 (plain "a" NotificationPriority.HIGH 2);
     WorkerStep; WorkerStep]
    (init created_tray).

(** A center with the status notification of a connected Claude on
    display. *)
Definition status_center : NotificationCenter.t :=
  run py0
    [ShowSystemStatus 1 "claude" "connected" None;
     WorkerStep; WorkerStep; WorkerStep]
    (init created_tray).


(** A center with a full active set and one notification queued. *)
Definition full_center_with_one_queued : NotificationCenter.t :=
  run py0 [ShowNotification 10 (plain "q" NotificationPriority.NORMAL 10)]
    full_center.

(** A tray on which [create_tray] has not been called. *)
Definition uncreated_tray : SystemTrayManager.t :=
  SystemTrayManager.mk [] false TrayIconStatus.IDLE [] [].

(** The tray manager after [create_tray]. *)
Definition created_manager : SystemTray.t :=
  fst (SystemTray.create_tray "AgentCODR V4" SystemTray.init).



(** * Properties *)

(** ** Dictionaries and the queue *)

Lemma dict_contains_false_get {V : Type} (k : string) (d : list (string * V)) :
  dict_contains k d = false -> dict_get k d = None.
Proof.
  unfold dict_contains. destruct (dict_get k d); [discriminate | reflexivity].
Qed.

Lemma dict_remove_length {V : Type} (k : string) (d : list (string * V)) :
  (List.length (dict_remove k d) <= List.length d)%nat.
Proof.
  induction d as [| [k' v'] d IH]; simpl; [lia |].
  destruct (String.eqb k k'); simpl; lia.
Qed.

Lemma dict_remove_incl {V : Type} (k : string) (d : list (string * V)) :
  incl (dict_remove k d) d.
Proof.
  induction d as [| [k' v'] d IH]; simpl; [apply incl_refl |].
  destruct (String.eqb k k').
  - apply incl_tl, IH.
  - apply incl_cons; [left; reflexivity | apply incl_tl, IH].
Qed.

Lemma dict_get_remove_same {V : Type} (k : string) (d : list (string * V)) :
  dict_get k (dict_remove k d) = None.
Proof.
  induction d as [| [k' v'] d IH]; simpl; [reflexivity |].
  destruct (String.eqb k k') eqn:E; simpl; [exact IH | rewrite E; exact IH].
Qed.

Lemma dict_get_remove_other {V : Type} (k k0 : string) (d : list (string * V)) :
  String.eqb k0 k = false -> dict_get k0 (dict_remove k d) = dict_get k0 d.
Proof.
  intros Hne. induction d as [| [k' v'] d IH]; simpl; [reflexivity |].
  destruct (String.eqb k k') eqn:E; simpl.
  - apply String.eqb_eq in E. subst k'. rewrite Hne. exact IH.
  - destruct (String.eqb k0 k'); [reflexivity | exact IH].
Qed.

Lemma dict_set_length {V : Type} (k : string) (v : V) (d : list (string * V)) :
  (List.length (dict_set k v d) <= S (List.length d))%nat.
Proof.
  induction d as [| [k' v'] d IH]; simpl; [lia |].
  destruct (String.eqb k k'); simpl; lia.
Qed.

Lemma dict_get_set_same {V : Type} (k : string) (v : V) (d : list (string * V)) :
  dict_get k (dict_set k v d) = Some v.
Proof.
  induction d as [| [k' v'] d IH]; simpl.
  - rewrite String.eqb_refl. reflexivity.
  - destruct (String.eqb k k') eqn:E; simpl; rewrite E; [reflexivity | exact IH].
Qed.

(** The key order is a strict total order. *)
Lemma key_ltb_irrefl (a : PriorityQueue.key) : PriorityQueue.key_ltb a a = false.
Proof.
  unfold PriorityQueue.key_ltb. rewrite Z.eqb_refl. simpl. apply Z.ltb_irrefl.
Qed.

Lemma key_ltb_trans (a b c : PriorityQueue.key) :
  PriorityQueue.key_ltb a b = true -> PriorityQueue.key_ltb b c = true ->
  PriorityQueue.key_ltb a c = true.
Proof.
  unfold PriorityQueue.key_ltb. destruct a as [a1 a2], b as [b1 b2], c as [c1 c2].
  simpl.
  destruct (Z.eqb_spec a1 b1), (Z.eqb_spec b1 c1), (Z.eqb_spec a1 c1); simpl;
    rewrite ?Z.ltb_lt; lia.
Qed.

Lemma key_ltb_total (a b : PriorityQueue.key) :
  PriorityQueue.key_ltb a b = false -> PriorityQueue.key_ltb b a = false -> a = b.
Proof.
  unfold PriorityQueue.key_ltb. destruct a as [a1 a2], b as [b1 b2]. simpl.
  destruct (Z.eqb_spec a1 b1), (Z.eqb_spec b1 a1); simpl;
    rewrite ?Z.ltb_ge; intros; try lia; f_equal; lia.
Qed.

Lemma key_ltb_le_trans (a b c : PriorityQueue.key) :
  PriorityQueue.key_ltb b a = false -> PriorityQueue.key_ltb c b = false ->
  PriorityQueue.key_ltb c a = false.
Proof.
  unfold PriorityQueue.key_ltb. destruct a as [a1 a2], b as [b1 b2], c as [c1 c2].
  simpl.
  destruct (Z.eqb_spec b1 a1), (Z.eqb_spec c1 b1), (Z.eqb_spec c1 a1); simpl;
    rewrite ?Z.ltb_ge; lia.
Qed.

(** ** The heap functions permute the list *)

Section HeapPermutes.
Context {A : Type}.
Variable lt : A -> A -> PyException + bool.

Lemma set_item_length (i : nat) (x : A) (l : list A) :
  List.length (heapq.set_item i x l) = List.length l.
Proof.
  revert i. induction l as [| y l IH]; intros [| i]; simpl; auto.
Qed.

Lemma nth_error_set_item (i j : nat) (x : A) (l : list A) :
  nth_error (heapq.set_item i x l) j
  = if (j =? i)%nat then (if (i <? List.length l)%nat then Some x else None)
    else nth_error l j.
Proof.
  revert i j. induction l as [| y l IH]; intros [| i] [| j]; simpl; auto;
    destruct (j =? i)%nat; reflexivity.
Qed.

Lemma set_item_Permutation (i : nat) (x a : A) (l : list A) :
  nth_error l i = Some a ->
  Permutation (a :: heapq.set_item i x l) (x :: l).
Proof.
  revert i. induction l as [| y l IH]; intros [| i]; simpl; try discriminate.
  - intros H. inversion H; subst. apply perm_swap.
  - intros H. rewrite perm_swap. rewrite (IH i H). apply perm_swap.
Qed.

Lemma swap_Permutation (i j : nat) (l : list A) :
  Permutation (heapq.swap i j l) l.
Proof.
  unfold heapq.swap.
  destruct (nth_error l i) as [a |] eqn:Hi; [| reflexivity].
  destruct (nth_error l j) as [b |] eqn:Hj; [| reflexivity].
  assert (Hi' : nth_error (heapq.set_item j a l) i = Some a).
  { rewrite nth_error_set_item. destruct (Nat.eqb_spec i j) as [-> | _].
    - assert (Hlt : (j < List.length l)%nat) by (apply nth_error_Some; congruence).
      apply Nat.ltb_lt in Hlt. rewrite Hlt. reflexivity.
    - exact Hi. }
  pose proof (set_item_Permutation i b a _ Hi') as H1.
  pose proof (set_item_Permutation j a b _ Hj) as H2.
  apply (Permutation_cons_inv (a := a)).
  rewrite H1, H2. reflexivity.
Qed.

Lemma swap_length (i j : nat) (l : list A) :
  List.length (heapq.swap i j l) = List.length l.
Proof. apply Permutation_length, swap_Permutation. Qed.

Lemma siftdown_loop_Permutation (fuel : nat) (heap : list A) (startpos pos : nat) :
  Permutation (fst (heapq.siftdown_loop lt fuel heap startpos pos)) heap.
Proof.
  revert heap pos. induction fuel as [| fuel IH]; intros heap pos;
    cbn [heapq.siftdown_loop]; [reflexivity |].
  destruct (pos <=? startpos)%nat; [reflexivity |].
  destruct (nth_error heap pos) as [newitem |]; [| reflexivity].
  destruct (nth_error heap (Nat.div2 (pos - 1))) as [parent |]; [| reflexivity].
  destruct (lt newitem parent) as [e | [|]]; try reflexivity.
  rewrite IH. apply swap_Permutation.
Qed.

Lemma siftdown_Permutation (heap : list A) (startpos pos : nat) :
  Permutation (fst (heapq.siftdown lt heap startpos pos)) heap.
Proof.
  unfold heapq.siftdown. destruct (List.length heap <=? pos)%nat;
    [reflexivity | apply siftdown_loop_Permutation].
Qed.

Lemma siftup_loop_Permutation (fuel : nat) (heap : list A) (endpos pos : nat) :
  Permutation (fst (fst (heapq.siftup_loop lt fuel heap endpos pos))) heap.
Proof.
  revert heap pos. induction fuel as [| fuel IH]; intros heap pos;
    cbn [heapq.siftup_loop]; [reflexivity |].
  destruct (pos <? Nat.div2 endpos)%nat; [| reflexivity].
  destruct (2 * pos + 1 + 1 <? endpos)%nat.
  - destruct (nth_error heap (2 * pos + 1)) as [a |]; [| reflexivity].
    destruct (nth_error heap (2 * pos + 1 + 1)) as [b |]; [| reflexivity].
    destruct (lt a b) as [e | [|]]; [reflexivity | |];
      rewrite IH; apply swap_Permutation.
  - rewrite IH. apply swap_Permutation.
Qed.

Lemma siftup_Permutation (heap : list A) (pos : nat) :
  Permutation (fst (heapq.siftup lt heap pos)) heap.
Proof.
  unfold heapq.siftup. destruct (List.length heap <=? pos)%nat; [reflexivity |].
  pose proof (siftup_loop_Permutation (List.length heap) heap (List.length heap) pos)
    as H.
  destruct (heapq.siftup_loop lt (List.length heap) heap (List.length heap) pos)
    as [[heap' pos'] [e |]]; simpl in *; [exact H |].
  rewrite siftdown_Permutation. exact H.
Qed.

(** After [heappush], raised or not, the list holds the old items and the
    new one. *)
Lemma heappush_Permutation (heap : list A) (item : A) :
  Permutation (fst (heapq.heappush lt heap item)) (item :: heap).
Proof.
  unfold heapq.heappush. rewrite siftdown_Permutation.
  apply Permutation_sym, Permutation_cons_append.
Qed.

(** After [heappop] the list holds the old items but one: the one
    returned when there is one. *)
Lemma heappop_Permutation (heap : list A) :
  heap <> [] ->
  exists x, Permutation heap (x :: fst (heapq.heappop lt heap))
            /\ forall r, snd (heapq.heappop lt heap) = inr r -> r = x.
Proof.
  intros Hne. unfold heapq.heappop.
  destruct (rev heap) as [| lastelt others] eqn:Hrev.
  - apply (f_equal (@rev A)) in Hrev. rewrite rev_involutive in Hrev.
    contradiction.
  - assert (Hheap : heap = (rev others ++ [lastelt])%list).
    { rewrite <- (rev_involutive heap), Hrev. reflexivity. }
    destruct (rev others) as [| returnitem rest] eqn:Hothers.
    + exists lastelt. simpl. split; [rewrite Hheap; reflexivity |].
      intros r Hr. inversion Hr. reflexivity.
    + exists returnitem.
      pose proof (siftup_Permutation (lastelt :: rest) 0) as Hp.
      destruct (heapq.siftup lt (lastelt :: rest) 0) as [heap' [e |]];
        simpl in *.
      * split; [| discriminate].
        rewrite Hheap, Hp. simpl. apply perm_skip.
        apply Permutation_sym, Permutation_cons_append.
      * split; [| intros r Hr; inversion Hr; reflexivity].
        rewrite Hheap, Hp. simpl. apply perm_skip.
        apply Permutation_sym, Permutation_cons_append.
Qed.
End HeapPermutes.

(** The same for the queue. *)
Lemma put_Permutation (py : Builtins) (e : PriorityQueue.entry)
    (q : PriorityQueue.t) :
  Permutation (PriorityQueue.queue (fst (PriorityQueue.put py e q)))
    (e :: PriorityQueue.queue q).
Proof.
  unfold PriorityQueue.put.
  pose proof (heappush_Permutation (PriorityQueue.entry_lt py)
                (PriorityQueue.queue q) e) as H.
  destruct (heapq.heappush _ _ _) as [heap [x |]]; exact H.
Qed.

Lemma get_Permutation (py : Builtins) (q : PriorityQueue.t) :
  match PriorityQueue.get py q with
  | PriorityQueue.Empty => PriorityQueue.queue q = []
  | PriorityQueue.Got e q' =>
      Permutation (PriorityQueue.queue q) (e :: PriorityQueue.queue q')
  | PriorityQueue.GetRaised x q' =>
      exists e, Permutation (PriorityQueue.queue q) (e :: PriorityQueue.queue q')
  end.
Proof.
  unfold PriorityQueue.get.
  destruct (PriorityQueue.queue q) as [| e0 l] eqn:Hq; [reflexivity |].
  destruct (heappop_Permutation (PriorityQueue.entry_lt py) (e0 :: l))
    as (x & Hp & Hr); [discriminate |].
  destruct (heapq.heappop _ _) as [heap [exn | e]]; simpl in *.
  - exists x. exact Hp.
  - rewrite (Hr e eq_refl). exact Hp.
Qed.

(** ** The heap functions on entries with distinct keys *)

Lemma div2_spec (n : nat) :
  (n = 2 * Nat.div2 n \/ n = 2 * Nat.div2 n + 1)%nat.
Proof.
  induction n as [n IH] using lt_wf_ind.
  destruct n as [| [| n]]; simpl; [left; reflexivity | right; reflexivity |].
  destruct (IH n ltac:(lia)) as [H | H]; [left | right]; lia.
Qed.

(** Arithmetic on heap positions. *)
Ltac heap_lia :=
  unfold parent in *;
  repeat match goal with
    | |- context [Nat.div2 ?n] =>
        let H := fresh in
        pose proof (div2_spec n) as H; generalize dependent (Nat.div2 n); intros
    | H : context [Nat.div2 ?n] |- _ =>
        let H' := fresh in
        pose proof (div2_spec n) as H'; generalize dependent (Nat.div2 n); intros
    end;
  lia.

Lemma nth_error_swap {A : Type} (i j k : nat) (l : list A) :
  (i < List.length l)%nat -> (j < List.length l)%nat ->
  nth_error (heapq.swap i j l) k
  = if (k =? i)%nat then nth_error l j
    else if (k =? j)%nat then nth_error l i
    else nth_error l k.
Proof.
  intros Hi Hj. unfold heapq.swap.
  destruct (nth_error l i) as [a |] eqn:Ha;
    [| apply nth_error_None in Ha; lia].
  destruct (nth_error l j) as [b |] eqn:Hb;
    [| apply nth_error_None in Hb; lia].
  rewrite !nth_error_set_item, set_item_length.
  apply Nat.ltb_lt in Hi, Hj. rewrite Hi, Hj.
  destruct (k =? i)%nat; [reflexivity |].
  destruct (k =? j)%nat; reflexivity.
Qed.

Lemma same_item {A : Type} (o : option A) (a b : A) :
  o = Some a -> o = Some b -> a = b.
Proof. intros -> H. inversion H. reflexivity. Qed.

Lemma not_after_trans (a b c : PriorityQueue.entry) :
  not_after a b -> not_after b c -> not_after a c.
Proof. unfold not_after. intros H1 H2. eapply key_ltb_le_trans; eassumption. Qed.

Lemma key_ltb_asym (a b : PriorityQueue.key) :
  PriorityQueue.key_ltb a b = true -> PriorityQueue.key_ltb b a = false.
Proof.
  intros H. destruct (PriorityQueue.key_ltb b a) eqn:E; [| reflexivity].
  pose proof (key_ltb_trans _ _ _ H E) as Hbad.
  rewrite key_ltb_irrefl in Hbad. discriminate.
Qed.

Lemma key_eqb_eq (a b : PriorityQueue.key) :
  PriorityQueue.key_eqb a b = true <-> a = b.
Proof.
  unfold PriorityQueue.key_eqb. destruct a as [a1 a2], b as [b1 b2]. simpl.
  rewrite andb_true_iff, !Z.eqb_eq. split.
  - intros [-> ->]. reflexivity.
  - intros H. inversion H. split; reflexivity.
Qed.

(** Entries with different keys are compared by their keys. *)
Lemma entry_lt_distinct (py : Builtins) (a b : PriorityQueue.entry) :
  fst a <> fst b ->
  PriorityQueue.entry_lt py a b = inr (PriorityQueue.key_ltb (fst a) (fst b)).
Proof.
  intros Hne. unfold PriorityQueue.entry_lt.
  destruct (PriorityQueue.key_eqb (fst a) (fst b)) eqn:E; [| reflexivity].
  apply key_eqb_eq in E. contradiction.
Qed.

Lemma tie_free_distinct (l : list PriorityQueue.entry) (i j : nat)
    (a b : PriorityQueue.entry) :
  tie_free l -> i <> j ->
  nth_error l i = Some a -> nth_error l j = Some b -> fst a <> fst b.
Proof.
  unfold tie_free. intros Hnd Hij Ha Hb Heq.
  apply Hij. apply (proj1 (NoDup_nth_error (map fst l)) Hnd).
  - rewrite length_map. apply (proj1 (nth_error_Some l i)).
    intros Hn. pose proof (eq_trans (eq_sym Ha) Hn). discriminate.
  - rewrite !nth_error_map.
    transitivity (Some (fst a)); [exact (f_equal (option_map fst) Ha) |].
    rewrite Heq. symmetry. exact (f_equal (option_map fst) Hb).
Qed.

Lemma tie_free_Permutation (l l' : list PriorityQueue.entry) :
  Permutation l l' -> tie_free l -> tie_free l'.
Proof.
  unfold tie_free. intros Hp. apply Permutation_NoDup, Permutation_map, Hp.
Qed.

Section HeapOrder.
Variable py : Builtins.

(** [siftdown] from a position whose item alone may be too low restores
    the heap order and raises nothing. *)
Lemma siftdown_loop_ordered (fuel : nat) :
  forall (l : list PriorityQueue.entry) (pos : nat),
    (pos <= fuel)%nat -> (pos < List.length l)%nat ->
    tie_free l -> ordered_but pos l ->
    snd (heapq.siftdown_loop (PriorityQueue.entry_lt py) fuel l 0 pos) = None
    /\ heap_ordered (fst (heapq.siftdown_loop (PriorityQueue.entry_lt py) fuel l 0 pos)).
Proof.
  induction fuel as [| fuel IH]; intros l pos Hfuel Hlen Htf [Hedge Hgrand];
    cbn [heapq.siftdown_loop].
  - split; [reflexivity |]. intros j a p Hj. apply Hedge; [exact Hj | lia].
  - destruct (Nat.leb_spec pos 0) as [Hz | Hpos].
    + split; [reflexivity |]. intros j a p Hj. apply Hedge; [exact Hj | lia].
    + assert (Hpp : (parent pos < pos)%nat) by heap_lia.
      fold (parent pos).
      destruct (nth_error l pos) as [newitem |] eqn:Hnew;
        [| apply nth_error_None in Hnew; lia].
      destruct (nth_error l (parent pos)) as [par |] eqn:Hpar;
        [| apply nth_error_None in Hpar; lia].
      rewrite (entry_lt_distinct py newitem par)
        by (apply (tie_free_distinct l pos (parent pos)); auto; lia).
      destruct (PriorityQueue.key_ltb (fst newitem) (fst par)) eqn:Hlt.
      * (* the item moves up *)
        apply IH.
        -- lia.
        -- rewrite swap_length. lia.
        -- apply (tie_free_Permutation l); [| exact Htf].
           apply Permutation_sym, swap_Permutation.
        -- assert (Hswap : forall k,
                     nth_error (heapq.swap (parent pos) pos l) k
                     = if (k =? parent pos)%nat then nth_error l pos
                       else if (k =? pos)%nat then nth_error l (parent pos)
                       else nth_error l k).
           { intros k. apply nth_error_swap; lia. }
           split.
           ++ intros j a p Hj Hne. rewrite !Hswap.
              destruct (Nat.eqb_spec j (parent pos)) as [| Hjp]; [contradiction |].
              destruct (Nat.eqb_spec j pos) as [-> | Hjpos].
              ** rewrite Nat.eqb_refl. rewrite Hpar, Hnew.
                 intros Ha Hp. inversion Ha; inversion Hp; subst.
                 unfold not_after. apply key_ltb_asym, Hlt.
              ** destruct (Nat.eqb_spec (parent j) (parent pos)) as [Heq | Hne2].
                 --- rewrite Hnew. intros Ha Hp. inversion Hp; subst p.
                     apply (not_after_trans _ par).
                     +++ unfold not_after. apply key_ltb_asym, Hlt.
                     +++ apply (Hedge j a par Hj Hjpos Ha).
                         rewrite Heq. exact Hpar.
                 --- destruct (Nat.eqb_spec (parent j) pos) as [Heq | Hne3].
                     +++ rewrite Hpar. intros Ha Hp. inversion Hp; subst p.
                         apply (Hgrand j a par Hpos Hj Heq Ha eq_refl).
                     +++ intros Ha Hp. apply (Hedge j a p Hj Hjpos Ha Hp).
           ++ intros j a g Hpp0 Hj Hparent. rewrite !Hswap.
              assert (Hgp : (parent (parent pos) < parent pos)%nat) by heap_lia.
              destruct (Nat.eqb_spec j (parent pos)) as [| Hjp]; [heap_lia |].
              destruct (Nat.eqb_spec (parent (parent pos)) (parent pos));
                [lia |].
              destruct (Nat.eqb_spec (parent (parent pos)) pos); [lia |].
              assert (Hmid : forall g, nth_error l (parent (parent pos)) = Some g ->
                                       not_after g par).
              { intros g0 Hg0. apply (Hedge (parent pos) par g0); auto; lia. }
              destruct (Nat.eqb_spec j pos) as [-> | Hjpos].
              ** rewrite Hpar. intros Ha Hg. inversion Ha; subst a.
                 apply Hmid, Hg.
              ** intros Ha Hg. apply (not_after_trans _ par); [apply Hmid, Hg |].
                 apply (Hedge j a par Hj Hjpos Ha). rewrite Hparent. exact Hpar.
      * (* the item stays *)
        split; [reflexivity |]. intros j a p Hj Ha Hp.
        destruct (Nat.eq_dec j pos) as [-> | Hne].
        -- pose proof (same_item _ _ _ Ha Hnew).
           pose proof (same_item _ _ _ Hp Hpar). subst. exact Hlt.
        -- apply (Hedge j a p Hj Hne Ha Hp).
Qed.

Lemma siftdown_ordered (l : list PriorityQueue.entry) (pos : nat) :
  (pos < List.length l)%nat -> tie_free l -> ordered_but pos l ->
  snd (heapq.siftdown (PriorityQueue.entry_lt py) l 0 pos) = None
  /\ heap_ordered (fst (heapq.siftdown (PriorityQueue.entry_lt py) l 0 pos)).
Proof.
  intros Hlen Htf Hord. unfold heapq.siftdown.
  destruct (Nat.leb_spec (List.length l) pos); [lia |].
  apply siftdown_loop_ordered; auto.
Qed.

(** One turn of the first loop of [siftup]: the smaller child [c] of [pos]
    moves up, and the item in doubt is then at [c]. *)
Lemma ordered_around_step (l : list PriorityQueue.entry) (pos c : nat) :
  (pos < List.length l)%nat -> (c < List.length l)%nat ->
  (0 < c)%nat -> parent c = pos ->
  ordered_around pos l ->
  (forall j a x, (0 < j)%nat -> parent j = pos -> j <> c ->
     nth_error l j = Some a -> nth_error l c = Some x -> not_after x a) ->
  ordered_around c (heapq.swap c pos l).
Proof.
  intros Hpos Hc Hc0 Hpc [Hedge Hgrand] Hsib.
  assert (Hlt : (pos < c)%nat) by heap_lia.
  assert (Hswap : forall k,
            nth_error (heapq.swap c pos l) k
            = if (k =? c)%nat then nth_error l pos
              else if (k =? pos)%nat then nth_error l c
              else nth_error l k).
  { intros k. apply nth_error_swap; lia. }
  split.
  - intros j a p Hj Hjc Hpjc. rewrite !Hswap.
    destruct (Nat.eqb_spec j c) as [| _]; [contradiction |].
    destruct (Nat.eqb_spec (parent j) c) as [| _]; [contradiction |].
    destruct (Nat.eqb_spec j pos) as [-> | Hjpos].
    + assert (Hpp : (parent pos < pos)%nat) by heap_lia.
      destruct (Nat.eqb_spec (parent pos) pos) as [| _]; [lia |].
      intros Ha Hp. apply (Hgrand c a p Hj Hc0 Hpc Ha Hp).
    + destruct (Nat.eqb_spec (parent j) pos) as [Heq | Hne].
      * intros Ha Hp. apply (Hsib j a p Hj Heq Hjc Ha Hp).
      * intros Ha Hp. apply (Hedge j a p Hj Hjpos Hne Ha Hp).
  - intros j a g _ Hj Hpj. rewrite !Hswap.
    assert (Hjc : (c < j)%nat) by heap_lia.
    destruct (Nat.eqb_spec j c) as [| _]; [lia |].
    destruct (Nat.eqb_spec j pos) as [| _]; [lia |].
    rewrite Hpc.
    destruct (Nat.eqb_spec pos c) as [| _]; [lia |].
    rewrite Nat.eqb_refl.
    intros Ha Hg. apply (Hedge j a g Hj); [lia | lia | exact Ha |].
    rewrite Hpj. exact Hg.
Qed.

(** The first loop of [siftup] raises nothing and ends at a position
    without children, with the item there alone in doubt. *)
Lemma siftup_loop_ordered (fuel : nat) :
  forall (l : list PriorityQueue.entry) (pos : nat),
    (List.length l - pos <= fuel)%nat -> (pos < List.length l)%nat ->
    tie_free l -> ordered_around pos l ->
    let r := heapq.siftup_loop (PriorityQueue.entry_lt py) fuel l
               (List.length l) pos in
    snd r = None
    /\ (snd (fst r) < List.length (fst (fst r)))%nat
    /\ ordered_but (snd (fst r)) (fst (fst r)).
Proof.
  assert (Hleaf : forall (l : list PriorityQueue.entry) pos,
            (Nat.div2 (List.length l) <= pos)%nat ->
            ordered_around pos l -> ordered_but pos l).
  { intros l pos Hend [Hedge Hgrand].
    assert (Hnone : forall j, (0 < j)%nat -> parent j = pos ->
                              nth_error l j = None).
    { intros j Hj Hpj. apply nth_error_None. heap_lia. }
    split.
    - intros j a p Hj Hne Ha Hp.
      destruct (Nat.eq_dec (parent j) pos) as [Heq | Hne2].
      + rewrite (Hnone j Hj Heq) in Ha. discriminate.
      + apply (Hedge j a p Hj Hne Hne2 Ha Hp).
    - exact Hgrand. }
  induction fuel as [| fuel IH]; intros l pos Hfuel Hlen Htf Hord;
    cbn [heapq.siftup_loop]; [lia |].
  destruct (Nat.ltb_spec pos (Nat.div2 (List.length l))) as [Hin | Hout].
  2: { cbn [fst snd]. split; [reflexivity |]. split; [exact Hlen |].
       apply Hleaf; assumption. }
  assert (Hchild : (2 * pos + 1 < List.length l)%nat) by heap_lia.
  assert (Hturn : forall c, (0 < c)%nat -> parent c = pos ->
            (c < List.length l)%nat ->
            (forall j a x, (0 < j)%nat -> parent j = pos -> j <> c ->
               nth_error l j = Some a -> nth_error l c = Some x ->
               not_after x a) ->
            let r := heapq.siftup_loop (PriorityQueue.entry_lt py) fuel
                       (heapq.swap c pos l) (List.length l) c in
            snd r = None
            /\ (snd (fst r) < List.length (fst (fst r)))%nat
            /\ ordered_but (snd (fst r)) (fst (fst r))).
  { intros c Hc0 Hpc Hc Hsib.
    assert (Hlt : (pos < c)%nat) by heap_lia.
    rewrite <- (swap_length c pos l).
    apply IH.
    - rewrite swap_length. lia.
    - rewrite swap_length. exact Hc.
    - apply (tie_free_Permutation l); [| exact Htf].
      apply Permutation_sym, swap_Permutation.
    - apply ordered_around_step; assumption. }
  destruct (Nat.ltb_spec (2 * pos + 1 + 1) (List.length l)) as [Htwo | Hone].
  - destruct (nth_error l (2 * pos + 1)) as [a |] eqn:Ha;
      [| apply nth_error_None in Ha; lia].
    destruct (nth_error l (2 * pos + 1 + 1)) as [b |] eqn:Hb;
      [| apply nth_error_None in Hb; lia].
    rewrite (entry_lt_distinct py a b)
      by (apply (tie_free_distinct l (2 * pos + 1) (2 * pos + 1 + 1));
          auto; lia).
    destruct (PriorityQueue.key_ltb (fst a) (fst b)) eqn:Hab.
    + apply Hturn; [lia | heap_lia | lia |].
      intros j a' x Hj Hpj Hjc Ha' Hx.
      assert (j = 2 * pos + 1 + 1)%nat by heap_lia. subst j.
      pose proof (same_item _ _ _ Ha' Hb). pose proof (same_item _ _ _ Hx Ha).
      subst. unfold not_after. apply key_ltb_asym, Hab.
    + apply Hturn; [lia | heap_lia | lia |].
      intros j a' x Hj Hpj Hjc Ha' Hx.
      assert (j = 2 * pos + 1)%nat by heap_lia. subst j.
      pose proof (same_item _ _ _ Ha' Ha). pose proof (same_item _ _ _ Hx Hb).
      subst. exact Hab.
  - apply Hturn; [lia | heap_lia | lia |].
    intros j a' x Hj Hpj Hjc Ha' Hx.
    assert (Hj' : (List.length l <= j)%nat) by heap_lia.
    apply nth_error_None in Hj'.
    pose proof (eq_trans (eq_sym Ha') Hj'). discriminate.
Qed.

(** [siftup] at the root, whose item alone is in doubt, restores the heap
    order and raises nothing. *)
Lemma siftup_ordered (l : list PriorityQueue.entry) :
  (0 < List.length l)%nat -> tie_free l -> ordered_around 0 l ->
  snd (heapq.siftup (PriorityQueue.entry_lt py) l 0) = None
  /\ heap_ordered (fst (heapq.siftup (PriorityQueue.entry_lt py) l 0)).
Proof.
  intros Hlen Htf Hord. unfold heapq.siftup.
  destruct (Nat.leb_spec (List.length l) 0); [lia |].
  pose proof (siftup_loop_ordered (List.length l) l 0 ltac:(lia) Hlen Htf Hord)
    as (Hnone & Hpos & Hbut).
  pose proof (siftup_loop_Permutation (PriorityQueue.entry_lt py)
                (List.length l) l (List.length l) 0) as Hperm.
  destruct (heapq.siftup_loop (PriorityQueue.entry_lt py) (List.length l) l
              (List.length l) 0) as [[l' pos'] x].
  cbn [fst snd] in *. subst x.
  apply siftdown_ordered; [exact Hpos | | exact Hbut].
  apply (tie_free_Permutation l); [apply Permutation_sym, Hperm | exact Htf].
Qed.

(** [heappush] keeps the heap order when the key pushed is a new one. *)
Lemma heappush_ordered (l : list PriorityQueue.entry) (e : PriorityQueue.entry) :
  tie_free (e :: l) -> heap_ordered l ->
  snd (heapq.heappush (PriorityQueue.entry_lt py) l e) = None
  /\ heap_ordered (fst (heapq.heappush (PriorityQueue.entry_lt py) l e)).
Proof.
  intros Htf Hord. unfold heapq.heappush.
  apply siftdown_ordered.
  - rewrite length_app. simpl. lia.
  - apply (tie_free_Permutation (e :: l)); [| exact Htf].
    apply Permutation_cons_append.
  - split.
    + intros j a p Hj Hne Ha Hp.
      assert (Hjl : (j < List.length l)%nat).
      { assert (j < List.length (l ++ [e]))%nat
          by (apply nth_error_Some; intros Hn;
              pose proof (eq_trans (eq_sym Ha) Hn); discriminate).
        rewrite length_app in *. simpl in *. lia. }
      rewrite nth_error_app1 in Ha by exact Hjl.
      rewrite nth_error_app1 in Hp by heap_lia.
      apply (Hord j a p Hj Ha Hp).
    + intros j a g _ Hj Hpj Ha _.
      assert (Hn : nth_error (l ++ [e]) j = None).
      { apply nth_error_None. rewrite length_app. simpl. heap_lia. }
      pose proof (eq_trans (eq_sym Ha) Hn). discriminate.
Qed.

(** In a heap the root comes after no item. *)
Lemma heap_root_least (l : list PriorityQueue.entry) (r : PriorityQueue.entry) :
  heap_ordered l -> nth_error l 0 = Some r ->
  forall x, In x l -> not_after r x.
Proof.
  intros Hord Hr x Hin.
  destruct (In_nth_error _ _ Hin) as [j Hj]. revert x Hj Hin.
  induction j as [j IH] using lt_wf_ind. intros x Hj Hin.
  destruct j as [| j'].
  - pose proof (same_item _ _ _ Hj Hr). subst.
    unfold not_after. apply key_ltb_irrefl.
  - assert (Hp : (parent (S j') < S j')%nat) by heap_lia.
    destruct (nth_error l (parent (S j'))) as [p |] eqn:Hpar.
    + apply (not_after_trans _ p).
      * apply (IH (parent (S j')) Hp p Hpar). eapply nth_error_In, Hpar.
      * apply (Hord (S j') x p); [lia | exact Hj | exact Hpar].
    + apply nth_error_None in Hpar.
      assert (S j' < List.length l)%nat
        by (apply nth_error_Some; intros Hn;
            pose proof (eq_trans (eq_sym Hj) Hn); discriminate).
      lia.
Qed.

(** [heappop] of a heap with distinct keys returns the root and leaves a
    heap. *)
Lemma heappop_ordered (l : list PriorityQueue.entry) (r : PriorityQueue.entry)
    (rest : list PriorityQueue.entry) :
  l = r :: rest -> tie_free l -> heap_ordered l ->
  snd (heapq.heappop (PriorityQueue.entry_lt py) l) = inr r
  /\ heap_ordered (fst (heapq.heappop (PriorityQueue.entry_lt py) l)).
Proof.
  intros Hl Htf Hord. unfold heapq.heappop.
  destruct (rev l) as [| lastelt others] eqn:Hrev.
  { apply (f_equal (@rev _)) in Hrev. rewrite rev_involutive in Hrev.
    subst l. discriminate. }
  assert (Hl' : l = (rev others ++ [lastelt])%list).
  { rewrite <- (rev_involutive l), Hrev. reflexivity. }
  destruct (rev others) as [| returnitem rest'] eqn:Hothers.
  { cbn [fst snd]. simpl in Hl'. split; [congruence |].
    intros j a p _ Ha. destruct j; discriminate. }
  assert (returnitem = r) by (simpl in Hl'; congruence). subst returnitem.
  assert (Hrest : rest = (rest' ++ [lastelt])%list)
    by (simpl in Hl'; congruence).
  assert (Hnth : forall j, (0 < j)%nat -> (j < List.length (lastelt :: rest'))%nat ->
            nth_error (lastelt :: rest') j = nth_error l j).
  { intros j Hj Hjl. rewrite Hl. destruct j as [| j']; [lia |]. simpl.
    rewrite Hrest. simpl in Hjl. rewrite nth_error_app1 by lia. reflexivity. }
  destruct (siftup_ordered (lastelt :: rest')) as [Hnone Hheap].
  - simpl. lia.
  - apply (tie_free_Permutation rest).
    + rewrite Hrest. apply Permutation_sym, Permutation_cons_append.
    + rewrite Hl in Htf. unfold tie_free in *. simpl in Htf.
      apply NoDup_cons_iff in Htf. apply Htf.
  - split.
    + intros j a p Hj _ Hpj Ha Hp.
      assert (Hjl : (j < List.length (lastelt :: rest'))%nat).
      { apply nth_error_Some. intros Hn.
        pose proof (eq_trans (eq_sym Ha) Hn). discriminate. }
      assert (Hpl : (0 < parent j < j)%nat) by heap_lia.
      rewrite Hnth in Ha by lia. rewrite Hnth in Hp by lia.
      apply (Hord j a p Hj Ha Hp).
    + intros j a g Hz. lia.
  - destruct (heapq.siftup (PriorityQueue.entry_lt py) (lastelt :: rest') 0)
      as [heap' x].
    cbn [fst snd] in *. subst x. cbn [fst snd]. split; [reflexivity | exact Hheap].
Qed.


Lemma sound_heap_nil : sound_heap [].
Proof.
  split; [constructor |]. intros j a p _ Ha. destruct j; discriminate.
Qed.

(** [put] of an entry with a new key on a sound queue raises nothing and
    leaves a sound queue with the entry added. *)
Lemma put_sound (e : PriorityQueue.entry) (q : PriorityQueue.t) :
  tie_free (e :: PriorityQueue.queue q) -> heap_ordered (PriorityQueue.queue q) ->
  snd (PriorityQueue.put py e q) = None
  /\ sound_heap (PriorityQueue.queue (fst (PriorityQueue.put py e q)))
  /\ Permutation (PriorityQueue.queue (fst (PriorityQueue.put py e q)))
       (e :: PriorityQueue.queue q)
  /\ PriorityQueue.unfinished_tasks (fst (PriorityQueue.put py e q))
     = PriorityQueue.unfinished_tasks q + 1.
Proof.
  intros Htf Hord.
  destruct (heappush_ordered (PriorityQueue.queue q) e Htf Hord) as [Hnone Hheap].
  pose proof (heappush_Permutation (PriorityQueue.entry_lt py)
                (PriorityQueue.queue q) e) as Hperm.
  unfold PriorityQueue.put.
  destruct (heapq.heappush (PriorityQueue.entry_lt py) (PriorityQueue.queue q) e)
    as [heap x].
  cbn [fst snd] in *. subst x. cbn [fst snd PriorityQueue.queue
                                     PriorityQueue.unfinished_tasks].
  split; [reflexivity |]. split; [| split; [exact Hperm | reflexivity]].
  split; [| exact Hheap].
  apply (tie_free_Permutation (e :: PriorityQueue.queue q));
    [apply Permutation_sym, Hperm | exact Htf].
Qed.

(** [get] on a sound queue that is not empty raises nothing: it returns
    the entry with the least key and leaves a sound queue with the others. *)
Lemma get_sound (q : PriorityQueue.t) :
  sound_heap (PriorityQueue.queue q) -> PriorityQueue.queue q <> [] ->
  exists e q',
    PriorityQueue.get py q = PriorityQueue.Got e q'
    /\ Permutation (PriorityQueue.queue q) (e :: PriorityQueue.queue q')
    /\ sound_heap (PriorityQueue.queue q')
    /\ PriorityQueue.unfinished_tasks q' = PriorityQueue.unfinished_tasks q
    /\ forall x, In x (PriorityQueue.queue q) -> not_after e x.
Proof.
  intros [Htf Hord] Hne.
  destruct (PriorityQueue.queue q) as [| r rest] eqn:Hq; [contradiction |].
  destruct (heappop_ordered (r :: rest) r rest eq_refl Htf Hord) as [Hret Hheap].
  destruct (heappop_Permutation (PriorityQueue.entry_lt py) (r :: rest))
    as [x Hx]; [discriminate |].
  unfold PriorityQueue.get. rewrite Hq.
  destruct (heapq.heappop (PriorityQueue.entry_lt py) (r :: rest)) as [heap res].
  cbn [fst snd] in *. subst res.
  exists r, (PriorityQueue.mk heap (PriorityQueue.unfinished_tasks q)).
  cbn [PriorityQueue.queue PriorityQueue.unfinished_tasks].
  destruct Hx as [Hperm Hsame]. specialize (Hsame r eq_refl). subst x.
  split; [reflexivity |]. split; [exact Hperm |].
  split; [| split; [reflexivity |]].
  - split; [| exact Hheap].
    apply (tie_free_Permutation _ _ Hperm) in Htf.
    unfold tie_free in *. simpl in Htf. apply NoDup_cons_iff in Htf. apply Htf.
  - apply heap_root_least; [exact Hord | reflexivity].
Qed.
End HeapOrder.

(** ** What the methods leave alone *)

Lemma frame_refl (c : NotificationCenter.t) : frame c c.
Proof.
  unfold frame.
  repeat split; try reflexivity; try apply incl_refl; try (intro; assumption).
  intros e He. left. exact He.
Qed.

Lemma frame_trans (c1 c2 c3 : NotificationCenter.t) :
  frame c1 c2 -> frame c2 c3 -> frame c1 c3.
Proof.
  unfold frame.
  intros (Hc & Ht & Hh & Ha & Hi & Hl & Hq) (Hc' & Ht' & Hh' & Ha' & Hi' & Hl' & Hq').
  repeat split; try congruence.
  - auto.
  - eapply incl_tran; eassumption.
  - lia.
  - intros e He. destruct (Hq' e He) as [Hin | Hk]; [apply Hq, Hin | right; exact Hk].
Qed.

(** Closes [frame c c'] when [c'] differs from [c] in other fields only. *)
Ltac frame_same :=
  unfold frame; simpl; repeat split;
  first [ apply incl_refl
        | apply Nat.le_refl
        | (intros ? ?; left; assumption)
        | (intro; assumption)
        | (intro; discriminate) ].

Lemma frame_log (l : logging.level) (m : string) (c : NotificationCenter.t) :
  frame c (log l m c).
Proof. frame_same. Qed.

Lemma frame_set_trace (x : list Event) (c : NotificationCenter.t) :
  frame c (set_trace x c).
Proof. frame_same. Qed.

Lemma frame_set_stats (x : Stats) (c : NotificationCenter.t) :
  frame c (set_stats x c).
Proof. frame_same. Qed.

Lemma frame_set_system_tray (x : SystemTrayManager.t) (c : NotificationCenter.t) :
  frame c (set_system_tray x c).
Proof. frame_same. Qed.

Lemma frame_set_timer_threads (x : list TimerThread) (c : NotificationCenter.t) :
  frame c (set_timer_threads x c).
Proof. frame_same. Qed.

Lemma frame_set_do_not_disturb_flag (x : bool) (c : NotificationCenter.t) :
  frame c (set_do_not_disturb_flag x c).
Proof. frame_same. Qed.

Lemma frame_set_is_active (c : NotificationCenter.t) :
  frame c (set_is_active false c).
Proof. frame_same. Qed.

Lemma frame_put (py : Builtins) (e : PriorityQueue.entry)
    (c : NotificationCenter.t) :
  keyed e ->
  frame c (set_notification_queue
             (fst (PriorityQueue.put py e (notification_queue c))) c).
Proof.
  intros Hk. unfold frame. simpl. repeat split;
    [intro; assumption | apply incl_refl | apply Nat.le_refl |].
  intros e' He'.
  apply (Permutation_in e' (put_Permutation py e (notification_queue c))) in He'.
  destruct He' as [<- | Hin]; [right; exact Hk | left; exact Hin].
Qed.

Lemma frame__dismiss_notification (notification_id reason : string)
    (c : NotificationCenter.t) :
  frame c (fst (_dismiss_notification notification_id reason c)).
Proof.
  unfold _dismiss_notification.
  destruct (dict_get notification_id (active_notifications c)) as [n |];
    [| apply frame_refl].
  simpl.
  apply frame_trans with
    (set_active_notifications
       (dict_remove notification_id (active_notifications c)) c).
  - unfold frame. simpl. repeat split.
    + intro. assumption.
    + apply dict_remove_incl.
    + apply dict_remove_length.
    + intros e He. left. exact He.
  - eapply frame_trans; [| apply frame_log].
    eapply frame_trans; [| apply frame_set_stats].
    destruct (DesktopNotification.dismiss_callback n) as [cb |];
      [| apply frame_refl].
    destruct (cb reason).
    + apply frame_set_trace.
    + eapply frame_trans; [apply frame_set_trace | apply frame_log].
Qed.

Lemma frame_dismiss_each (ids : list string) (reason : string)
    (c : NotificationCenter.t) (count : Z) :
  frame c (fst (dismiss_each ids reason c count)).
Proof.
  revert c count. induction ids as [| i ids IH]; intros c count; simpl;
    [apply frame_refl |].
  pose proof (frame__dismiss_notification i reason c) as Hd.
  destruct (_dismiss_notification i reason c) as [c' ok]. simpl in Hd.
  eapply frame_trans; [exact Hd | apply IH].
Qed.

Lemma frame_set_do_not_disturb (enabled : bool) (duration_minutes : option Z)
    (c : NotificationCenter.t) :
  frame c (set_do_not_disturb enabled duration_minutes c).
Proof.
  unfold set_do_not_disturb.
  destruct enabled; [| frame_same].
  destruct duration_minutes as [d |]; [destruct (negb (d =? 0)) |]; frame_same.
Qed.

Lemma frame_timer_fire (k : nat) (c : NotificationCenter.t) :
  frame c (timer_fire k c).
Proof.
  unfold timer_fire. destruct (nth_error (timer_threads c) k) as [th |];
    [| apply frame_refl].
  destruct th as [i | duration_minutes].
  - eapply frame_trans; [apply frame_set_timer_threads |].
    apply frame__dismiss_notification.
  - destruct (duration_minutes * 60 <? 0); frame_same.
Qed.

Lemma keyed_queue_entry (n : DesktopNotification.t) : keyed (queue_entry n).
Proof. reflexivity. Qed.

Section FrameOfMethods.
Variable py : Builtins.

Lemma frame_show_notification (now : Z) (n : DesktopNotification.t)
    (c : NotificationCenter.t) :
  frame c (fst (show_notification py now n c)).
Proof.
  unfold show_notification.
  destruct (blocked_by_dnd (with_generated_id py now n) c); simpl;
    [apply frame_log |].
  set (c1 := match replaces_active (with_generated_id py now n) c with
             | Some r => fst (_dismiss_notification r "replaced" c)
             | None => c
             end).
  assert (H1 : frame c c1).
  { unfold c1. destruct (replaces_active (with_generated_id py now n) c);
      [apply frame__dismiss_notification | apply frame_refl]. }
  pose proof (frame_put py (queue_entry (with_generated_id py now n)) c1
                (keyed_queue_entry _)) as H2.
  destruct (PriorityQueue.put py (queue_entry (with_generated_id py now n))
              (notification_queue c1)) as [q' [x |]]; simpl in *.
  - eapply frame_trans; eassumption.
  - eapply frame_trans; [| apply frame_log].
    eapply frame_trans; eassumption.
Qed.

Lemma frame_step (o : Op) (c : NotificationCenter.t) :
  o <> WorkerStep -> frame c (step py o c).
Proof.
  intros Ho. destruct o; simpl.
  - apply frame_show_notification.
  - unfold show_claude_notification.
    eapply frame_trans; [apply frame_set_stats | apply frame_show_notification].
  - unfold show_progress_notification. apply frame_show_notification.
  - unfold show_system_status.
    eapply frame_trans; [| apply frame_show_notification].
    eapply frame_trans; [| apply frame_set_stats].
    destruct (tray_status_update component status) as [[ts tip] |];
      [apply frame_set_system_tray | apply frame_refl].
  - unfold show_cost_alert. destruct (PrimFloat.eqb threshold 0); simpl;
      [apply frame_refl | apply frame_show_notification].
  - apply frame__dismiss_notification.
  - apply frame_dismiss_each.
  - apply frame_set_do_not_disturb.
  - unfold clear_all_notifications. simpl.
    eapply frame_trans; [apply frame_dismiss_each | apply frame_log].
  - unfold stop. eapply frame_trans; [apply frame_set_is_active | apply frame_log].
  - contradiction.
  - apply frame_timer_fire.
  - apply frame_set_system_tray.
Qed.

End FrameOfMethods.

(** ** The invariant of the reachable states *)

Lemma display_fields (n : DesktopNotification.t) (c : NotificationCenter.t) :
  let c' := _display_notification n c in
  config c' = config c
  /\ processing_thread c' = processing_thread c
  /\ notification_queue c' = notification_queue c
  /\ do_not_disturb c' = do_not_disturb c
  /\ is_active c' = is_active c
  /\ active_notifications c'
     = dict_set (DesktopNotification.id n) n (active_notifications c)
  /\ notification_history c'
     = (if Z.of_nat (List.length (notification_history c ++ [n])%list)
           >? history_limit (config c)
        then tl (notification_history c ++ [n])%list
        else (notification_history c ++ [n])%list)
  /\ system_tray c'
     = SystemTrayManager.show_notification (tray_projection n) (system_tray c)
  /\ total_sent (stats c') = total_sent (stats c) + 1.
Proof.
  unfold _display_notification.
  destruct (DesktopNotification.duration n >? 0); simpl; repeat split.
Qed.

Lemma Inv_init (tray : SystemTrayManager.t) : Inv (init tray).
Proof.
  constructor; simpl; unfold dict_len; simpl; try reflexivity; try lia.
  all: try (intros e He; first [discriminate He | destruct He]).
  intros _. exists Polling. split; reflexivity.
Qed.

Lemma Inv_frame (c c' : NotificationCenter.t) : Inv c -> frame c c' -> Inv c'.
Proof.
  intros [Hcfg Hact Hpro Hhis Hkey Hlive] (Hc & Ht & Hh & Ha & Hi & Hl & Hq).
  constructor; unfold dict_len in *.
  - congruence.
  - rewrite Hc. lia.
  - intros e He. rewrite Ht in He. specialize (Hpro e He). rewrite Hc. lia.
  - rewrite Hh, Hc. exact Hhis.
  - intros e He. apply in_app_or in He. destruct He as [He | He].
    + destruct (Hq e He) as [Hin | Hk]; [| exact Hk].
      apply Hkey, in_or_app. left. exact Hin.
    + apply Hkey, in_or_app. right. unfold held in *. rewrite <- Ht. exact He.
  - intros Hrun. rewrite Ht. apply Hlive, Ha, Hrun.
Qed.

Lemma Inv_worker_step (py : Builtins) (c : NotificationCenter.t) :
  Inv c -> Inv (worker_step py c).
Proof.
  intros HI. pose proof HI as [Hcfg Hact Hpro Hhis Hkey Hlive].
  unfold worker_step.
  destruct (processing_thread c) as [[| [k n] | [k n] |] |] eqn:Ht; try exact HI.
  - (* at the loop head *)
    destruct (is_active c) eqn:Hrun; simpl.
    + pose proof (get_Permutation py (notification_queue c)) as Hget.
      destruct (PriorityQueue.get py (notification_queue c)) as [| m q' | x q'];
        [exact HI | |].
      * constructor; simpl; auto.
        -- intros e He. discriminate He.
        -- intros e He. apply Hkey, in_or_app. left.
           apply (Permutation_in e (Permutation_sym Hget)).
           apply in_app_or in He. destruct He as [He | [<- | []]];
             [right; exact He | left; reflexivity].
        -- intros _. eexists. split; reflexivity.
      * destruct Hget as [m Hget].
        constructor; simpl; auto.
        -- rewrite Ht. exact Hpro.
        -- intros e He. unfold held in He. simpl in He. rewrite Ht in He.
           rewrite app_nil_r in He. apply Hkey, in_or_app. left.
           apply (Permutation_in e (Permutation_sym Hget)). right. exact He.
        -- intros _. rewrite Ht. eexists. split; reflexivity.
    + constructor; simpl; auto.
      * intros e He. discriminate He.
      * intros e He. apply Hkey. unfold held. rewrite Ht. simpl in *.
        rewrite app_nil_r in *. exact He.
      * intros Hbad. rewrite Hrun in Hbad. discriminate Hbad.
  - (* holding a popped entry *)
    destruct (dict_len (active_notifications c) >=? max_simultaneous (config c))
      eqn:Hfull.
    + pose proof (put_Permutation py (k, n) (notification_queue c)) as Hput.
      assert (Hk : forall e,
                 In e (PriorityQueue.queue
                         (fst (PriorityQueue.put py (k, n) (notification_queue c)))) ->
                 keyed e).
      { intros e He. apply (Permutation_in e Hput) in He. apply Hkey.
        destruct He as [<- | He]; apply in_or_app;
          [right; unfold held; rewrite Ht; left; reflexivity | left; exact He]. }
      destruct (PriorityQueue.put py (k, n) (notification_queue c)) as [q' [x |]];
        simpl in Hk.
      * constructor; simpl; auto.
        -- intros e He. discriminate He.
        -- intros e He. rewrite app_nil_r in He. apply Hk, He.
        -- intros _. eexists. split; reflexivity.
      * constructor; simpl; auto.
        -- intros e He. discriminate He.
        -- intros e He. rewrite app_nil_r in He. apply Hk, He.
        -- intros _. eexists. split; reflexivity.
    + constructor; simpl; auto.
      * intros e _. rewrite Z.geb_leb in Hfull. apply Z.leb_gt in Hfull.
        exact Hfull.
      * intros e He. apply Hkey. unfold held. rewrite Ht. exact He.
      * intros _. eexists. split; reflexivity.
  - (* displaying *)
    specialize (Hpro _ eq_refl).
    pose proof (display_fields n c) as (Dc & Dt & Dq & _ & _ & Da & Dh & _).
    remember (_display_notification n c) as c1 eqn:Ec1. clear Ec1.
    assert (Hlen : dict_len (active_notifications c1) <= max_simultaneous (config c)).
    { rewrite Da. unfold dict_len in *.
      pose proof (dict_set_length (DesktopNotification.id n) n
                    (active_notifications c)). lia. }
    assert (Hh : Z.of_nat (List.length (notification_history c1))
                 <= history_limit (config c)).
    { rewrite Dh.
      destruct (Z.of_nat (List.length (notification_history c ++ [n])%list)
                >? history_limit (config c)) eqn:Hgt.
      - pose proof (length_app (notification_history c) [n]) as Happ.
        destruct (notification_history c ++ [n])%list; simpl in *; lia.
      - rewrite Z.gtb_ltb in Hgt. apply Z.ltb_ge in Hgt. exact Hgt. }
    assert (Hk : forall e,
               In e (PriorityQueue.queue (notification_queue c1)) -> keyed e).
    { intros e He. rewrite Dq in He. apply Hkey, in_or_app. left. exact He. }
    destruct (PriorityQueue.task_done (notification_queue c1)) as [q' |] eqn:Htd.
    + unfold PriorityQueue.task_done in Htd.
      destruct (PriorityQueue.unfinished_tasks (notification_queue c1) <=? 0);
        [discriminate |].
      inversion Htd; subst q'; clear Htd.
      constructor; simpl; rewrite ?Dc; auto.
      * intros e He. discriminate He.
      * intros e He. rewrite app_nil_r in He. apply Hk, He.
      * intros _. eexists. split; reflexivity.
    + constructor; simpl; rewrite ?Dc; auto.
      * intros e He. discriminate He.
      * intros e He. rewrite app_nil_r in He. apply Hk, He.
      * intros _. eexists. split; reflexivity.
Qed.

Section Reachable.
Variable py : Builtins.

Lemma Inv_step (o : Op) (c : NotificationCenter.t) : Inv c -> Inv (step py o c).
Proof.
  intros HI. destruct o;
    try (apply (Inv_frame c); [exact HI | apply frame_step; discriminate]).
  apply Inv_worker_step, HI.
Qed.

Lemma Inv_run (ops : list Op) (c : NotificationCenter.t) :
  Inv c -> Inv (run py ops c).
Proof.
  revert c. induction ops as [| o ops IH]; intros c HI; simpl; [exact HI |].
  apply IH, Inv_step, HI.
Qed.

Lemma reachable_Inv (tray : SystemTrayManager.t) (c : NotificationCenter.t) :
  reachable py tray c -> Inv c.
Proof.
  intros [ops ->]. apply Inv_run, Inv_init.
Qed.

Lemma run_app (ops1 ops2 : list Op) (c : NotificationCenter.t) :
  run py (ops1 ++ ops2) c = run py ops2 (run py ops1 c).
Proof. unfold run. apply fold_left_app. Qed.

Lemma reachable_step (tray : SystemTrayManager.t) (o : Op)
    (c : NotificationCenter.t) :
  reachable py tray c -> reachable py tray (step py o c).
Proof.
  intros [ops ->]. exists (ops ++ [o])%list. rewrite run_app. reflexivity.
Qed.

End Reachable.

(** ** The logger is write-only *)

(** Exposes two centers that agree up to their traces as two records that
    differ in the trace field only. *)
Ltac expose_silent H :=
  match type of H with
  | silent ?c1 = silent ?c2 =>
      destruct c1, c2; unfold silent, set_trace in H; simpl in H;
      injection H as; subst
  end.

(** Splits on every [match] and [if] of the goal. *)
Ltac split_cases :=
  repeat match goal with
    | |- context [match ?x with _ => _ end] => destruct x eqn:?; simpl
    end.

Lemma silent_log (l : logging.level) (m : string) (c : NotificationCenter.t) :
  silent (log l m c) = silent c.
Proof. reflexivity. Qed.

Lemma silent__dismiss_notification (notification_id reason : string)
    (c1 c2 : NotificationCenter.t) :
  silent c1 = silent c2 ->
  silent (fst (_dismiss_notification notification_id reason c1))
  = silent (fst (_dismiss_notification notification_id reason c2))
  /\ snd (_dismiss_notification notification_id reason c1)
     = snd (_dismiss_notification notification_id reason c2).
Proof.
  intros H. expose_silent H. unfold _dismiss_notification. simpl.
  split_cases; split; reflexivity.
Qed.

Lemma silent_dismiss_each (ids : list string) (reason : string)
    (c1 c2 : NotificationCenter.t) (count : Z) :
  silent c1 = silent c2 ->
  silent (fst (dismiss_each ids reason c1 count))
  = silent (fst (dismiss_each ids reason c2 count))
  /\ snd (dismiss_each ids reason c1 count) = snd (dismiss_each ids reason c2 count).
Proof.
  revert c1 c2 count. induction ids as [| i ids IH]; intros c1 c2 count H; simpl.
  - split; [exact H | reflexivity].
  - destruct (silent__dismiss_notification i reason c1 c2 H) as [Hs Hr].
    destruct (_dismiss_notification i reason c1) as [c1' ok1].
    destruct (_dismiss_notification i reason c2) as [c2' ok2].
    simpl in Hs, Hr. subst ok2. apply IH, Hs.
Qed.

Lemma silent_fields (c1 c2 : NotificationCenter.t) :
  silent c1 = silent c2 ->
  system_tray c1 = system_tray c2
  /\ active_notifications c1 = active_notifications c2
  /\ notification_queue c1 = notification_queue c2
  /\ notification_history c1 = notification_history c2
  /\ config c1 = config c2
  /\ is_active c1 = is_active c2
  /\ do_not_disturb c1 = do_not_disturb c2
  /\ processing_thread c1 = processing_thread c2
  /\ timer_threads c1 = timer_threads c2
  /\ stats c1 = stats c2.
Proof.
  intros H. expose_silent H. simpl. repeat split.
Qed.

Lemma silent__display_notification (n : DesktopNotification.t)
    (c1 c2 : NotificationCenter.t) :
  silent c1 = silent c2 ->
  silent (_display_notification n c1) = silent (_display_notification n c2).
Proof.
  intros H. expose_silent H. unfold _display_notification. simpl.
  destruct (DesktopNotification.duration n >? 0); reflexivity.
Qed.

Lemma silent_worker_step (py : Builtins) (c1 c2 : NotificationCenter.t) :
  silent c1 = silent c2 ->
  silent (worker_step py c1) = silent (worker_step py c2).
Proof.
  intros H.
  pose proof (silent_fields _ _ H)
    as (_ & Ha & Hq & _ & Hc & Hi & _ & Ht & _).
  unfold worker_step. rewrite Ht.
  destruct (processing_thread c2) as [[| [k n] | [k n] |] |]; try exact H.
  - rewrite Hi, Hq. destruct (negb (is_active c2)); [expose_silent H; reflexivity |].
    destruct (PriorityQueue.get py (notification_queue c2)) as [| e q' | x q'];
      [exact H | expose_silent H; reflexivity | expose_silent H; reflexivity].
  - rewrite Ha, Hc, Hq.
    destruct (dict_len (active_notifications c2) >=? max_simultaneous (config c2));
      [| expose_silent H; reflexivity].
    destruct (PriorityQueue.put py (k, n) (notification_queue c2)) as [q' [x |]];
      expose_silent H; reflexivity.
  - pose proof (silent__display_notification n c1 c2 H) as Hd.
    pose proof (display_fields n c1) as (_ & _ & Hq1 & _).
    pose proof (display_fields n c2) as (_ & _ & Hq2 & _).
    rewrite Hq1, Hq, <- Hq2.
    remember (_display_notification n c1) as d1 eqn:E1. clear E1.
    remember (_display_notification n c2) as d2 eqn:E2. clear E2.
    destruct (PriorityQueue.task_done (notification_queue d2));
      expose_silent Hd; reflexivity.
Qed.

Lemma silent_timer_fire (k : nat) (c1 c2 : NotificationCenter.t) :
  silent c1 = silent c2 -> silent (timer_fire k c1) = silent (timer_fire k c2).
Proof.
  intros H. pose proof (silent_fields _ _ H) as (_ & _ & _ & _ & _ & _ & _ & _ & Ht & _).
  unfold timer_fire. rewrite Ht.
  destruct (nth_error (timer_threads c2) k) as [[i | d] |]; [| | exact H].
  - apply silent__dismiss_notification. expose_silent H. reflexivity.
  - destruct (d * 60 <? 0); expose_silent H; reflexivity.
Qed.

Lemma silent_set_do_not_disturb (enabled : bool) (duration_minutes : option Z)
    (c1 c2 : NotificationCenter.t) :
  silent c1 = silent c2 ->
  silent (set_do_not_disturb enabled duration_minutes c1)
  = silent (set_do_not_disturb enabled duration_minutes c2).
Proof.
  intros H. expose_silent H. unfold set_do_not_disturb. simpl.
  split_cases; reflexivity.
Qed.

Lemma silent_set_stats (f : Stats -> Stats) (c1 c2 : NotificationCenter.t) :
  silent c1 = silent c2 ->
  silent (set_stats (f (stats c1)) c1) = silent (set_stats (f (stats c2)) c2).
Proof. intros H. expose_silent H. reflexivity. Qed.

Section SilentMethods.
Variable py : Builtins.

Lemma silent_show_notification (now : Z) (n : DesktopNotification.t)
    (c1 c2 : NotificationCenter.t) :
  silent c1 = silent c2 ->
  silent (fst (show_notification py now n c1))
  = silent (fst (show_notification py now n c2))
  /\ snd (show_notification py now n c1)
     = snd (show_notification py now n c2).
Proof.
  intros H.
  pose proof (silent_fields _ _ H) as (_ & Ha & _ & _ & _ & _ & Hd & _).
  unfold show_notification, blocked_by_dnd, replaces_active.
  rewrite Ha, Hd.
  destruct (do_not_disturb c2 && _); simpl; [split; [exact H | reflexivity] |].
  set (target :=
         match DesktopNotification.replace_id (with_generated_id py now n) with
         | Some r =>
             if negb (String.eqb r "") && dict_contains r (active_notifications c2)
             then Some r else None
         | None => None
         end).
  assert (Hmid :
    silent (match target with
            | Some r => fst (_dismiss_notification r "replaced" c1)
            | None => c1
            end)
    = silent (match target with
              | Some r => fst (_dismiss_notification r "replaced" c2)
              | None => c2
              end)).
  { destruct target; [apply silent__dismiss_notification, H | exact H]. }
  revert Hmid.
  generalize (match target with
              | Some r => fst (_dismiss_notification r "replaced" c1)
              | None => c1
              end)
             (match target with
              | Some r => fst (_dismiss_notification r "replaced" c2)
              | None => c2
              end).
  intros d1 d2 Hmid.
  pose proof (silent_fields _ _ Hmid) as (_ & _ & Hq & _).
  rewrite Hq.
  destruct (PriorityQueue.put py (queue_entry (with_generated_id py now n))
              (notification_queue d2)) as [q' [x |]]; simpl;
    (split; [expose_silent Hmid; reflexivity | reflexivity]).
Qed.

Lemma silent_step (o : Op) (c1 c2 : NotificationCenter.t) :
  silent c1 = silent c2 -> silent (step py o c1) = silent (step py o c2).
Proof.
  intros H. destruct o; simpl.
  - apply silent_show_notification, H.
  - unfold show_claude_notification. apply silent_show_notification.
    expose_silent H. reflexivity.
  - unfold show_progress_notification. apply silent_show_notification, H.
  - unfold show_system_status. apply silent_show_notification.
    expose_silent H. simpl. split_cases; reflexivity.
  - unfold show_cost_alert. destruct (PrimFloat.eqb threshold 0); simpl; [exact H |].
    apply silent_show_notification, H.
  - apply silent__dismiss_notification, H.
  - unfold dismiss_group.
    pose proof (silent_fields _ _ H) as (_ & Ha & _). rewrite Ha.
    apply silent_dismiss_each, H.
  - apply silent_set_do_not_disturb, H.
  - unfold clear_all_notifications. simpl.
    pose proof (silent_fields _ _ H) as (_ & Ha & _). rewrite Ha.
    apply (silent_dismiss_each _ _ _ _ 0 H).
  - expose_silent H. reflexivity.
  - apply silent_worker_step, H.
  - apply silent_timer_fire, H.
  - expose_silent H. reflexivity.
Qed.

Lemma silent_run (ops : list Op) (c1 c2 : NotificationCenter.t) :
  silent c1 = silent c2 -> silent (run py ops c1) = silent (run py ops c2).
Proof.
  revert c1 c2. induction ops as [| o ops IH]; intros c1 c2 H; simpl; [exact H |].
  apply IH, silent_step, H.
Qed.

End SilentMethods.

(** ** Dismissal *)

(** C8. Dismissing an id that is not in the active set returns False and
    leaves the center exactly as it was: counters, active set, queue,
    history and everything else. *)
Theorem dismiss_unknown_id_is_noop (c : NotificationCenter.t)
    (notification_id reason : string) :
  dict_contains notification_id (active_notifications c) = false ->
  dismiss_notification notification_id reason c = (c, false).
Proof.
  intros Habsent.
  unfold dismiss_notification, _dismiss_notification.
  rewrite (dict_contains_false_get _ _ Habsent). reflexivity.
Qed.

(** What a dismissal of a present id does, field by field. *)
Lemma dismiss_present (notification_id reason : string)
    (c : NotificationCenter.t) (target : DesktopNotification.t) :
  dict_get notification_id (active_notifications c) = Some target ->
  let r := _dismiss_notification notification_id reason c in
  snd r = true
  /\ active_notifications (fst r)
     = dict_remove notification_id (active_notifications c)
  /\ dismissed_count (stats (fst r)) = dismissed_count (stats c) + 1
  /\ notification_queue (fst r) = notification_queue c
  /\ (forall cb, DesktopNotification.dismiss_callback target = Some cb ->
        In (DismissCallbackCalled (DesktopNotification.id target) reason)
           (trace (fst r)))
  /\ (forall cb e, DesktopNotification.dismiss_callback target = Some cb ->
        cb reason = RaisedException e ->
        In (Log logging.ERROR ("Error in dismiss callback: " ++ e)) (trace (fst r))).
Proof.
  intros Hget. unfold _dismiss_notification. rewrite Hget.
  destruct (DesktopNotification.dismiss_callback target) as [cb |] eqn:Hcb.
  - destruct (cb reason) as [| e] eqn:Hout; simpl; repeat split;
      intros cb'; intros; simpl.
    + apply in_or_app. left. apply in_or_app. right. left. reflexivity.
    + assert (cb' = cb) by congruence. subst cb'. congruence.
    + apply in_or_app. left. apply in_or_app. left. apply in_or_app. right.
      left. reflexivity.
    + assert (cb' = cb) by congruence. subst cb'.
      assert (e0 = e) by congruence. subst e0.
      apply in_or_app. left. apply in_or_app. right. left. reflexivity.
  - simpl. repeat split; intros; discriminate.
Qed.


Section Replacement.
Variable py : Builtins.

Lemma with_generated_id_fields (now : Z) (n : DesktopNotification.t) :
  let n' := with_generated_id py now n in
  DesktopNotification.priority n' = DesktopNotification.priority n
  /\ DesktopNotification.replace_id n' = DesktopNotification.replace_id n
  /\ DesktopNotification.timestamp n' = DesktopNotification.timestamp n
  /\ DesktopNotification.id n' <> "".
Proof.
  unfold with_generated_id.
  destruct (String.eqb_spec (DesktopNotification.id n) ""); simpl; repeat split.
  - discriminate.
  - assumption.
Qed.

(** C3, as amended. When the call is not stopped by the do-not-disturb gate
    and the notification carries a non-empty replace_id that is the id of an
    active notification, [show_notification] first dismisses that target
    with reason "replaced" (it leaves the active set, its dismiss callback is
    called, the dismissed counter goes up by one, the queue is still what
    it was) and only then puts the new notification in the queue. *)
Theorem replace_dismisses_target_before_queueing (now : Z)
    (n : DesktopNotification.t) (c : NotificationCenter.t) (r : string)
    (target : DesktopNotification.t) :
  (do_not_disturb c = false
   \/ NotificationPriority.value (DesktopNotification.priority n)
      >= NotificationPriority.value NotificationPriority.CRITICAL) ->
  DesktopNotification.replace_id n = Some r ->
  r <> "" ->
  dict_get r (active_notifications c) = Some target ->
  let n' := with_generated_id py now n in
  let d := fst (_dismiss_notification r "replaced" c) in
  let p := PriorityQueue.put py (queue_entry n') (notification_queue d) in
  dict_contains r (active_notifications d) = false
  /\ dismissed_count (stats d) = dismissed_count (stats c) + 1
  /\ (forall cb, DesktopNotification.dismiss_callback target = Some cb ->
        In (DismissCallbackCalled (DesktopNotification.id target) "replaced")
           (trace d))
  /\ notification_queue d = notification_queue c
  /\ show_notification py now n c
     = match snd p with
       | None =>
           (log logging.DEBUG
              ("Queued notification: " ++ DesktopNotification.id n'
                 ++ " (priority: "
                 ++ NotificationPriority.name (DesktopNotification.priority n')
                 ++ ")")
              (set_notification_queue (fst p) d),
            inr (DesktopNotification.id n'))
       | Some x => (set_notification_queue (fst p) d, inl x)
       end
  /\ In (queue_entry n')
        (PriorityQueue.queue (notification_queue (fst (show_notification py now n c))))
  /\ active_notifications (fst (show_notification py now n c))
     = dict_remove r (active_notifications c).
Proof.
  intros Hgate Hrep Hne Hget n' d p.
  destruct (dismiss_present r "replaced" c target Hget)
    as (_ & Hact & Hcnt & Hq & Hcall & _).
  destruct (with_generated_id_fields now n) as (Hp & Hr & _ & _).
  fold n' in Hp, Hr.
  assert (Hopen : blocked_by_dnd n' c = false).
  { unfold blocked_by_dnd. rewrite Hp. destruct Hgate as [-> | Hge]; [reflexivity |].
    apply andb_false_intro2. apply Z.ltb_ge. lia. }
  assert (Hyes : replaces_active n' c = Some r).
  { unfold replaces_active. rewrite Hr, Hrep. unfold dict_contains. rewrite Hget.
    destruct (String.eqb_spec r ""); [contradiction | reflexivity]. }
  assert (Hshow : show_notification py now n c
                  = match snd p with
                    | None =>
                        (log logging.DEBUG
                           ("Queued notification: " ++ DesktopNotification.id n'
                              ++ " (priority: "
                              ++ NotificationPriority.name
                                   (DesktopNotification.priority n')
                              ++ ")")
                           (set_notification_queue (fst p) d),
                         inr (DesktopNotification.id n'))
                    | Some x => (set_notification_queue (fst p) d, inl x)
                    end).
  { unfold show_notification. fold n'. rewrite Hopen, Hyes. fold d. fold p.
    destruct p as [q' [x |]]; reflexivity. }
  assert (Hin : In (queue_entry n') (PriorityQueue.queue (fst p))).
  { apply (Permutation_in _ (Permutation_sym (put_Permutation py _ _))).
    left. reflexivity. }
  split; [| split; [exact Hcnt | split; [exact Hcall | split; [exact Hq |
    split; [exact Hshow | split]]]]].
  - fold d in Hact. rewrite Hact. unfold dict_contains.
    rewrite dict_get_remove_same. reflexivity.
  - rewrite Hshow. destruct (snd p); exact Hin.
  - rewrite Hshow. destruct (snd p); exact Hact.
Qed.

End Replacement.

(** C3 as stated fails: under do-not-disturb a call of normal priority
    returns before the replacement branch, and its active target stays. *)
Lemma replace_not_dismissed_under_dnd :
  ~ (forall (now : Z) (n : DesktopNotification.t) (c : NotificationCenter.t)
            (r : string),
       reachable py0 created_tray c ->
       DesktopNotification.replace_id n = Some r ->
       dict_contains r (active_notifications c) = true ->
       dict_contains r
         (active_notifications (fst (show_notification py0 now n c))) = false).
Proof.
  intros H.
  specialize (H 2 replacement_of_a busy_quiet_center "a").
  assert (Hreach : reachable py0 created_tray busy_quiet_center).
  { eexists. reflexivity. }
  specialize (H Hreach eq_refl eq_refl).
  vm_compute in H. discriminate H.
Qed.

(** ** The positions of the worker *)

Lemma dismiss_other_fields (notification_id reason : string)
    (c : NotificationCenter.t) :
  let d := fst (_dismiss_notification notification_id reason c) in
  system_tray d = system_tray c
  /\ is_active d = is_active c
  /\ do_not_disturb d = do_not_disturb c
  /\ notification_queue d = notification_queue c
  /\ timer_threads d = timer_threads c.
Proof.
  unfold _dismiss_notification.
  destruct (dict_get notification_id (active_notifications c)) as [n |];
    [| repeat split].
  destruct (DesktopNotification.dismiss_callback n) as [cb |];
    [destruct (cb reason) |]; repeat split.
Qed.

Section Worker.
Variable py : Builtins.

Lemma worker_step_poll (c : NotificationCenter.t) (e : PriorityQueue.entry)
    (q' : PriorityQueue.t) :
  processing_thread c = Some Polling -> is_active c = true ->
  PriorityQueue.get py (notification_queue c) = PriorityQueue.Got e q' ->
  worker_step py c
  = set_processing_thread (Some (Popped e)) (set_notification_queue q' c).
Proof.
  intros Ht Ha Hg. unfold worker_step. rewrite Ht, Ha, Hg. reflexivity.
Qed.

Lemma worker_step_raised (c : NotificationCenter.t) (x : PyException)
    (q' : PriorityQueue.t) :
  processing_thread c = Some Polling -> is_active c = true ->
  PriorityQueue.get py (notification_queue c) = PriorityQueue.GetRaised x q' ->
  worker_step py c = log_queue_error x (set_notification_queue q' c).
Proof.
  intros Ht Ha Hg. unfold worker_step. rewrite Ht, Ha, Hg. reflexivity.
Qed.

Lemma worker_step_stopped (c : NotificationCenter.t) :
  processing_thread c = Some Polling -> is_active c = false ->
  worker_step py c = set_processing_thread (Some Exited) c.
Proof. intros Ht Ha. unfold worker_step. rewrite Ht, Ha. reflexivity. Qed.

Lemma worker_step_empty (c : NotificationCenter.t) :
  processing_thread c = Some Polling -> is_active c = true ->
  PriorityQueue.get py (notification_queue c) = PriorityQueue.Empty ->
  worker_step py c = c.
Proof. intros Ht Ha Hg. unfold worker_step. rewrite Ht, Ha, Hg. reflexivity. Qed.

Lemma worker_step_exited (c : NotificationCenter.t) :
  processing_thread c = Some Exited -> worker_step py c = c.
Proof. intros Ht. unfold worker_step. rewrite Ht. reflexivity. Qed.

(** With a full active set the popped tuple goes back to the queue. *)
Lemma worker_step_full (c : NotificationCenter.t) (e : PriorityQueue.entry) :
  processing_thread c = Some (Popped e) ->
  dict_len (active_notifications c) >= max_simultaneous (config c) ->
  let p := PriorityQueue.put py e (notification_queue c) in
  worker_step py c
  = set_processing_thread (Some Polling)
      (match snd p with
       | None => set_notification_queue (fst p) c
       | Some x => log_queue_error x (set_notification_queue (fst p) c)
       end).
Proof.
  intros Ht Hfull p. unfold worker_step. rewrite Ht. destruct e as [k n].
  destruct (Z.geb_spec (dict_len (active_notifications c))
              (max_simultaneous (config c))); [| lia].
  fold p. destruct p as [q' [x |]]; reflexivity.
Qed.

Lemma worker_step_room (c : NotificationCenter.t) (e : PriorityQueue.entry) :
  processing_thread c = Some (Popped e) ->
  dict_len (active_notifications c) < max_simultaneous (config c) ->
  worker_step py c = set_processing_thread (Some (Promoting e)) c.
Proof.
  intros Ht Hroom. unfold worker_step. rewrite Ht. destruct e as [k n].
  destruct (Z.geb_spec (dict_len (active_notifications c))
              (max_simultaneous (config c))); [lia | reflexivity].
Qed.

Lemma worker_step_display (c : NotificationCenter.t) (e : PriorityQueue.entry) :
  processing_thread c = Some (Promoting e) ->
  system_tray (worker_step py c)
  = SystemTrayManager.show_notification (tray_projection (snd e)) (system_tray c)
  /\ active_notifications (worker_step py c)
     = dict_set (DesktopNotification.id (snd e)) (snd e) (active_notifications c)
  /\ notification_history (worker_step py c)
     = notification_history (_display_notification (snd e) c)
  /\ processing_thread (worker_step py c) = Some Polling
  /\ PriorityQueue.queue (notification_queue (worker_step py c))
     = PriorityQueue.queue (notification_queue c)
  /\ is_active (worker_step py c) = is_active c
  /\ config (worker_step py c) = config c.
Proof.
  intros Ht. unfold worker_step. rewrite Ht. destruct e as [k n]. simpl snd.
  pose proof (display_fields n c) as (Dc & _ & Dq & _ & Di & Da & _ & Dt & _).
  remember (_display_notification n c) as c1 eqn:E. clear E.
  unfold PriorityQueue.task_done.
  destruct (PriorityQueue.unfinished_tasks (notification_queue c1) <=? 0); simpl;
    rewrite ?Dq; repeat split; assumption.
Qed.

Lemma worker_step_keeps_active (c : NotificationCenter.t) :
  (forall e, processing_thread c <> Some (Promoting e)) ->
  active_notifications (worker_step py c) = active_notifications c.
Proof.
  intros Hnot. unfold worker_step.
  destruct (processing_thread c) as [[| [k n] | e |] |]; try reflexivity.
  - destruct (negb (is_active c)); [reflexivity |].
    destruct (PriorityQueue.get py (notification_queue c)); reflexivity.
  - destruct (dict_len (active_notifications c) >=? max_simultaneous (config c));
      [| reflexivity].
    destruct (PriorityQueue.put py (k, n) (notification_queue c)) as [q' [x |]];
      reflexivity.
  - elim (Hnot e). reflexivity.
Qed.

End Worker.

(** ** A queued notification can always be delivered *)

Lemma dict_remove_absent {V : Type} (k : string) (d : list (string * V)) :
  dict_get k d = None -> dict_remove k d = d.
Proof.
  induction d as [| [k' v'] d IH]; simpl; [reflexivity |].
  destruct (String.eqb k k'); [discriminate |].
  intros H. rewrite (IH H). reflexivity.
Qed.

Lemma dict_keys_remove {V : Type} (k k0 : string) (d : list (string * V)) :
  In k0 (dict_keys (dict_remove k d)) -> In k0 (dict_keys d) /\ k0 <> k.
Proof.
  induction d as [| [k' v'] d IH]; simpl; [intros [] |].
  destruct (String.eqb_spec k k') as [-> | Hne]; simpl.
  - intros H. destruct (IH H) as [Hin Hk]. split; [right; exact Hin | exact Hk].
  - intros [<- | H].
    + split; [left; reflexivity | congruence].
    + destruct (IH H) as [Hin Hk]. split; [right; exact Hin | exact Hk].
Qed.

Lemma dismiss_active (notification_id reason : string) (c : NotificationCenter.t) :
  active_notifications (fst (_dismiss_notification notification_id reason c))
  = dict_remove notification_id (active_notifications c).
Proof.
  destruct (dict_get notification_id (active_notifications c)) as [n |] eqn:Hget.
  - apply (dismiss_present notification_id reason c n Hget).
  - unfold _dismiss_notification. rewrite Hget. simpl.
    symmetry. apply dict_remove_absent, Hget.
Qed.

Lemma dismiss_each_covers (ids : list string) (reason : string)
    (c : NotificationCenter.t) (count : Z) :
  (forall k, In k (dict_keys (active_notifications c)) -> In k ids) ->
  active_notifications (fst (dismiss_each ids reason c count)) = [].
Proof.
  revert c count. induction ids as [| i ids IH]; intros c count Hcover; simpl.
  - destruct (active_notifications c) as [| [k v] d]; [reflexivity |].
    elim (Hcover k). left. reflexivity.
  - pose proof (dismiss_active i reason c) as Hact.
    destruct (_dismiss_notification i reason c) as [c' ok]. simpl in Hact.
    apply IH. intros k Hk. rewrite Hact in Hk.
    destruct (dict_keys_remove _ _ _ Hk) as [Hin Hne].
    destruct (Hcover k Hin) as [-> | Hids]; [congruence | exact Hids].
Qed.

Lemma dismiss_each_other_fields (ids : list string) (reason : string)
    (c : NotificationCenter.t) (count : Z) :
  let d := fst (dismiss_each ids reason c count) in
  is_active d = is_active c /\ notification_queue d = notification_queue c.
Proof.
  revert c count. induction ids as [| i ids IH]; intros c count; simpl;
    [split; reflexivity |].
  destruct (dismiss_other_fields i reason c) as (_ & Ha & _ & Hq & _).
  destruct (_dismiss_notification i reason c) as [c' ok]. simpl in Ha, Hq.
  destruct (IH c' (if ok then count + 1 else count)) as [Ha' Hq'].
  split; congruence.
Qed.

(** [clear_all_notifications] empties the active set and leaves the
    worker, the queue and the configuration alone. *)
Lemma clear_all_fields (c : NotificationCenter.t) :
  let c' := fst (clear_all_notifications c) in
  active_notifications c' = []
  /\ processing_thread c' = processing_thread c
  /\ config c' = config c
  /\ is_active c' = is_active c
  /\ notification_queue c' = notification_queue c.
Proof.
  unfold clear_all_notifications. simpl.
  pose proof (frame_dismiss_each (dict_keys (active_notifications c))
                "cleared_all" c 0) as (Hc & Ht & _).
  pose proof (dismiss_each_other_fields (dict_keys (active_notifications c))
                "cleared_all" c 0) as (Ha & Hq).
  repeat split; try assumption.
  apply dismiss_each_covers. intros k Hk. exact Hk.
Qed.

Section Drain.
Variable py : Builtins.

(** With the active set cleared, a worker that holds a popped entry goes
    on to display it. *)
Lemma popped_is_promoted (c : NotificationCenter.t) (x : PriorityQueue.entry) :
  processing_thread c = Some (Popped x) ->
  0 < max_simultaneous (config c) ->
  let c' := run py [ClearAllNotifications; WorkerStep] c in
  processing_thread c' = Some (Promoting x)
  /\ is_active c' = is_active c
  /\ config c' = config c
  /\ notification_queue c' = notification_queue c.
Proof.
  intros Ht Hmax c'. unfold c'. clear c'.
  change (run py [ClearAllNotifications; WorkerStep] c)
    with (worker_step py (fst (clear_all_notifications c))).
  destruct (clear_all_fields c) as (Ha & Ht' & Hc & Hi & Hq).
  remember (fst (clear_all_notifications c)) as c1 eqn:E. clear E.
  rewrite (worker_step_room py c1 x).
  - simpl. repeat split; assumption.
  - congruence.
  - rewrite Ha, Hc. exact Hmax.
Qed.

(** From the loop head, a running worker gets to display any entry of a
    sound queue: the schedule clears the active set before each of its
    moves. *)
Lemma polling_delivers (k : nat) (x : PriorityQueue.entry) :
  forall c,
    processing_thread c = Some Polling ->
    is_active c = true ->
    0 < max_simultaneous (config c) ->
    sound_heap (PriorityQueue.queue (notification_queue c)) ->
    In x (PriorityQueue.queue (notification_queue c)) ->
    (List.length (PriorityQueue.queue (notification_queue c)) <= k)%nat ->
    exists ops, processing_thread (run py ops c) = Some (Promoting x).
Proof.
  induction k as [| k IH]; intros c Ht Hrun Hmax Hsound Hin Hlen.
  - destruct (PriorityQueue.queue (notification_queue c)); [destruct Hin |].
    simpl in Hlen. lia.
  - destruct (get_sound py (notification_queue c) Hsound)
      as (m & q' & Hget & Hperm & Hsound' & _ & _).
    { intros Hnil. rewrite Hnil in Hin. destruct Hin. }
    set (c1 := worker_step py c).
    assert (H1 : c1 = set_processing_thread (Some (Popped m))
                        (set_notification_queue q' c)).
    { apply worker_step_poll; assumption. }
    destruct (popped_is_promoted c1 m) as (Ht2 & Hi2 & Hc2 & Hq2).
    { rewrite H1. reflexivity. }
    { rewrite H1. exact Hmax. }
    set (c2 := run py [ClearAllNotifications; WorkerStep] c1) in *.
    destruct (Permutation_in x Hperm Hin) as [<- | Hrest].
    + exists [WorkerStep; ClearAllNotifications; WorkerStep]. exact Ht2.
    + destruct (worker_step_display py c2 m Ht2)
        as (_ & _ & _ & Ht3 & Hq3 & Hi3 & Hc3).
      destruct (IH (worker_step py c2)) as [ops Hops].
      * exact Ht3.
      * rewrite Hi3, Hi2, H1. exact Hrun.
      * rewrite Hc3, Hc2, H1. exact Hmax.
      * rewrite Hq3, Hq2, H1. exact Hsound'.
      * rewrite Hq3, Hq2, H1. exact Hrest.
      * rewrite Hq3, Hq2, H1. simpl.
        apply Permutation_length in Hperm. simpl in Hperm. lia.
      * exists ([WorkerStep; ClearAllNotifications; WorkerStep; WorkerStep]
                  ++ ops)%list.
        rewrite run_app. exact Hops.
Qed.

(** The same from any position of a worker that has not returned. *)
Lemma running_delivers (x : PriorityQueue.entry) (c : NotificationCenter.t)
    (w : Worker) :
  processing_thread c = Some w -> is_alive w = true ->
  is_active c = true ->
  0 < max_simultaneous (config c) ->
  sound_heap (PriorityQueue.queue (notification_queue c)) ->
  In x (PriorityQueue.queue (notification_queue c)) ->
  exists ops, processing_thread (run py ops c) = Some (Promoting x).
Proof.
  intros Ht Hw Hrun Hmax Hsound Hin.
  destruct w as [| e | e |]; [| | | discriminate Hw].
  - apply (polling_delivers _ x c Ht Hrun Hmax Hsound Hin (Nat.le_refl _)).
  - destruct (popped_is_promoted c e Ht Hmax) as (Ht2 & Hi2 & Hc2 & Hq2).
    set (c2 := run py [ClearAllNotifications; WorkerStep] c) in *.
    destruct (worker_step_display py c2 e Ht2)
      as (_ & _ & _ & Ht3 & Hq3 & Hi3 & Hc3).
    destruct (polling_delivers
                (List.length (PriorityQueue.queue (notification_queue (worker_step py c2))))
                x (worker_step py c2) Ht3) as [ops Hops];
      [congruence | rewrite Hc3, Hc2; exact Hmax
       | rewrite Hq3, Hq2; exact Hsound | rewrite Hq3, Hq2; exact Hin
       | apply Nat.le_refl |].
    exists ([ClearAllNotifications; WorkerStep; WorkerStep] ++ ops)%list.
    rewrite run_app. exact Hops.
  - destruct (worker_step_display py c e Ht)
      as (_ & _ & _ & Ht3 & Hq3 & Hi3 & Hc3).
    destruct (polling_delivers
                (List.length (PriorityQueue.queue (notification_queue (worker_step py c))))
                x (worker_step py c) Ht3) as [ops Hops];
      [congruence | rewrite Hc3; exact Hmax
       | rewrite Hq3; exact Hsound | rewrite Hq3; exact Hin
       | apply Nat.le_refl |].
    exists ([WorkerStep] ++ ops)%list. rewrite run_app. exact Hops.
Qed.

End Drain.

(** ** The do-not-disturb gate *)

Section Gate.
Variable py : Builtins.

(** A call that passes the gate: the state before the queueing, and the
    outcome of the call. *)
Lemma show_notification_passing (now : Z) (n : DesktopNotification.t)
    (c : NotificationCenter.t) :
  blocked_by_dnd (with_generated_id py now n) c = false ->
  let n' := with_generated_id py now n in
  exists d,
    frame c d
    /\ system_tray d = system_tray c
    /\ is_active d = is_active c
    /\ notification_queue d = notification_queue c
    /\ let p := PriorityQueue.put py (queue_entry n') (notification_queue d) in
       show_notification py now n c
       = match snd p with
         | None =>
             (log logging.DEBUG
                ("Queued notification: " ++ DesktopNotification.id n'
                   ++ " (priority: "
                   ++ NotificationPriority.name (DesktopNotification.priority n')
                   ++ ")")
                (set_notification_queue (fst p) d),
              inr (DesktopNotification.id n'))
         | Some x => (set_notification_queue (fst p) d, inl x)
         end.
Proof.
  intros Hopen n'. unfold show_notification. fold n'. fold n' in Hopen.
  rewrite Hopen.
  destruct (replaces_active n' c) as [r |].
  - exists (fst (_dismiss_notification r "replaced" c)).
    destruct (dismiss_other_fields r "replaced" c) as (Ht & Ha & _ & Hq & _).
    split; [apply frame__dismiss_notification |].
    split; [exact Ht |]. split; [exact Ha |]. split; [exact Hq |].
    cbv zeta.
    destruct (PriorityQueue.put py (queue_entry n') _) as [q' [x |]];
      reflexivity.
  - exists c. split; [apply frame_refl |]. repeat split. cbv zeta.
    destruct (PriorityQueue.put py (queue_entry n') (notification_queue c))
      as [q' [x |]]; reflexivity.
Qed.

(** For a notification that passes the gate the flag makes no difference:
    the call does what it does with do-not-disturb off. *)
Lemma show_notification_regardless (now : Z) (n : DesktopNotification.t)
    (c : NotificationCenter.t) :
  NotificationPriority.value (DesktopNotification.priority n)
    >= NotificationPriority.value NotificationPriority.CRITICAL ->
  let r0 := show_notification py now n (set_do_not_disturb_flag false c) in
  show_notification py now n c
  = (set_do_not_disturb_flag (do_not_disturb c) (fst r0), snd r0).
Proof.
  intros Hprio r0. unfold r0. clear r0.
  destruct (with_generated_id_fields py now n) as (Hp & _ & _ & _).
  unfold show_notification.
  set (n' := with_generated_id py now n) in *.
  assert (Hopen : forall c0, blocked_by_dnd n' c0 = false).
  { intros c0. unfold blocked_by_dnd. rewrite Hp.
    apply andb_false_intro2, Z.ltb_ge. lia. }
  rewrite !Hopen.
  change (replaces_active n' (set_do_not_disturb_flag false c))
    with (replaces_active n' c).
  destruct c as [tray tr act q hist cfg run dnd th timers st].
  destruct (replaces_active n' _) as [r |]; cbn [do_not_disturb].
  - unfold _dismiss_notification, set_do_not_disturb_flag.
    cbn [active_notifications].
    destruct (dict_get r act) as [target |]; cbn [fst].
    + destruct (DesktopNotification.dismiss_callback target) as [cb |];
        [destruct (cb "replaced") |];
        cbn; destruct (PriorityQueue.put py (queue_entry n') q) as [q' [x |]];
        reflexivity.
    + cbn. destruct (PriorityQueue.put py (queue_entry n') q) as [q' [x |]];
        reflexivity.
  - cbn. destruct (PriorityQueue.put py (queue_entry n') q) as [q' [x |]];
      reflexivity.
Qed.

(** C2. While do-not-disturb is set, [show_notification] of a notification
    below CRITICAL returns its id (generated when it had none) and does
    nothing but log: whatever happens afterwards, the center and the tray
    sink are as if the call had not been made.  A notification of priority
    CRITICAL or above is handled as with do-not-disturb off; put in a
    sound queue under a key of its own it is queued and its id returned;
    once it is the next in line with room in the active set, the worker
    forwards it to the tray sink; and in every reachable state of a
    running center there is a schedule that brings the worker to forward
    it. *)
Theorem do_not_disturb_gate (tray : SystemTrayManager.t) (now : Z)
    (n : DesktopNotification.t) (c : NotificationCenter.t) :
  do_not_disturb c = true ->
  let n' := with_generated_id py now n in
  let r := show_notification py now n c in
  (NotificationPriority.value (DesktopNotification.priority n)
     < NotificationPriority.value NotificationPriority.CRITICAL ->
   r = (log logging.DEBUG
          ("Notification blocked by DND: " ++ DesktopNotification.id n') c,
        inr (DesktopNotification.id n'))
   /\ DesktopNotification.id n' <> ""
   /\ (forall ops, silent (run py ops (fst r)) = silent (run py ops c))
   /\ (forall ops, system_tray (run py ops (fst r)) = system_tray (run py ops c)))
  /\ (NotificationPriority.value (DesktopNotification.priority n)
        >= NotificationPriority.value NotificationPriority.CRITICAL ->
      DesktopNotification.id n' <> ""
      /\ (let r0 := show_notification py now n (set_do_not_disturb_flag false c) in
          r = (set_do_not_disturb_flag true (fst r0), snd r0))
      /\ (tie_free (queue_entry n' :: PriorityQueue.queue (notification_queue c)) ->
          heap_ordered (PriorityQueue.queue (notification_queue c)) ->
          snd r = inr (DesktopNotification.id n')
          /\ Permutation (PriorityQueue.queue (notification_queue (fst r)))
               (queue_entry n' :: PriorityQueue.queue (notification_queue c))
          /\ sound_heap (PriorityQueue.queue (notification_queue (fst r)))
          /\ (processing_thread c = Some Polling ->
              is_active c = true ->
              dict_len (active_notifications c) < max_simultaneous (config c) ->
              (forall e, In e (PriorityQueue.queue (notification_queue c)) ->
                 PriorityQueue.key_ltb (fst (queue_entry n')) (fst e) = true) ->
              let c3 := run py [WorkerStep; WorkerStep; WorkerStep] (fst r) in
              system_tray c3
              = SystemTrayManager.show_notification (tray_projection n')
                  (system_tray c)
              /\ dict_get (DesktopNotification.id n') (active_notifications c3)
                 = Some n')
          /\ (reachable py tray c ->
              is_active c = true ->
              exists ops,
                processing_thread (run py ops (fst r))
                = Some (Promoting (queue_entry n'))
                /\ system_tray (run py (ops ++ [WorkerStep]) (fst r))
                   = SystemTrayManager.show_notification (tray_projection n')
                       (system_tray (run py ops (fst r)))))).
Proof.
  intros Hdnd n' r.
  destruct (with_generated_id_fields py now n) as (Hp & _ & _ & Hid).
  fold n' in Hp, Hid.
  split; intros Hprio.
  - assert (Hblocked : blocked_by_dnd n' c = true).
    { unfold blocked_by_dnd. rewrite Hdnd, Hp. apply Z.ltb_lt. exact Hprio. }
    assert (Hr : r = (log logging.DEBUG
                        ("Notification blocked by DND: " ++ DesktopNotification.id n') c,
                      inr (DesktopNotification.id n'))).
    { unfold r, show_notification. fold n'. rewrite Hblocked. reflexivity. }
    assert (Hsilent : forall ops, silent (run py ops (fst r)) = silent (run py ops c)).
    { intros ops. apply silent_run. rewrite Hr. reflexivity. }
    repeat split; try assumption.
    intros ops. apply (silent_fields _ _ (Hsilent ops)).
  - assert (Hopen : blocked_by_dnd n' c = false).
    { unfold blocked_by_dnd. rewrite Hp. apply andb_false_intro2, Z.ltb_ge. lia. }
    split; [exact Hid |].
    split.
    { intros r0. unfold r, r0.
      rewrite (show_notification_regardless now n c Hprio), Hdnd.
      reflexivity. }
    intros Htf Hord.
    destruct (show_notification_passing now n c Hopen)
      as (d & Hframe & Htray & Hact & Hq & Hshow).
    fold n' r in Hshow. cbv zeta in Hshow.
    destruct (put_sound py (queue_entry n') (notification_queue d))
      as (Hnone & Hsound & Hperm & Htasks); [rewrite Hq; exact Htf
                                            | rewrite Hq; exact Hord |].
    rewrite Hnone in Hshow.
    remember (fst (PriorityQueue.put py (queue_entry n') (notification_queue d)))
      as q1 eqn:Eq1. clear Eq1. rewrite Hq in Hperm.
    destruct Hframe as (Hc & Ht & _ & _ & _ & Hlen & _).
    assert (Hin : In (queue_entry n') (PriorityQueue.queue q1)).
    { apply (Permutation_in _ (Permutation_sym Hperm)). left. reflexivity. }
    split; [rewrite Hshow; reflexivity |].
    split; [rewrite Hshow; exact Hperm |].
    split; [rewrite Hshow; exact Hsound |].
    split.
    2: {
      intros Hreach Hrun.
      pose proof (reachable_Inv py _ _ Hreach) as HI.
      pose proof (Inv_step py (ShowNotification now n) c HI) as HI1.
      change (step py (ShowNotification now n) c) with (fst r) in HI1.
      destruct HI1 as [Hcfg1 _ _ _ _ Hlive1].
      assert (Hrun1 : is_active (fst r) = true).
      { rewrite Hshow. simpl. congruence. }
      destruct (Hlive1 Hrun1) as (w & Hw & Halive).
      destruct (running_delivers py (queue_entry n') (fst r) w Hw Halive Hrun1)
        as [ops Hops].
      - rewrite Hcfg1. reflexivity.
      - rewrite Hshow. exact Hsound.
      - rewrite Hshow. exact Hin.
      - exists ops. split; [exact Hops |].
        rewrite run_app.
        apply (worker_step_display py _ (queue_entry n') Hops). }
    intros Hpoll Hrun Hroom Hleast c3. unfold c3. clear c3.
    rewrite Hshow. cbn [fst].
    set (c1 := log _ _ (set_notification_queue q1 d)).
    destruct (get_sound py q1 Hsound) as (e & q2 & Hget & Hperm2 & _ & _ & Hmin).
    { intros Hnil. rewrite Hnil in Hin. destruct Hin. }
    assert (e = queue_entry n').
    { assert (He : In e (PriorityQueue.queue q1)).
      { apply (Permutation_in _ (Permutation_sym Hperm2)). left. reflexivity. }
      destruct (Permutation_in _ Hperm He) as [<- | Hold]; [reflexivity |].
      pose proof (Hmin _ Hin) as Hnot. unfold not_after in Hnot.
      rewrite (Hleast e Hold) in Hnot. discriminate. }
    subst e.
    assert (H1 : worker_step py c1
                 = set_processing_thread (Some (Popped (queue_entry n')))
                     (set_notification_queue q2 c1)).
    { apply worker_step_poll; simpl; congruence. }
    change (run py [WorkerStep; WorkerStep; WorkerStep] c1)
      with (worker_step py (worker_step py (worker_step py c1))).
    rewrite H1.
    set (c2 := set_processing_thread _ _).
    assert (H2 : worker_step py c2
                 = set_processing_thread (Some (Promoting (queue_entry n'))) c2).
    { apply worker_step_room; [reflexivity |]. simpl. rewrite Hc.
      unfold dict_len in *. lia. }
    rewrite H2.
    destruct (worker_step_display py
                (set_processing_thread (Some (Promoting (queue_entry n'))) c2)
                (queue_entry n') eq_refl) as (Hsink & Hin3 & _).
    split.
    + rewrite Hsink. simpl. rewrite Htray. reflexivity.
    + rewrite Hin3. simpl. apply dict_get_set_same.
Qed.

End Gate.

(** ** The order of delivery *)

Lemma value_injective (p q : NotificationPriority.t) :
  NotificationPriority.value p = NotificationPriority.value q -> p = q.
Proof. destruct p, q; simpl; intros H; try reflexivity; discriminate H. Qed.

(** On keyed entries the key order is: higher priority first, then earlier
    timestamp. *)
Lemma keyed_not_after (e e' : PriorityQueue.entry) :
  keyed e -> keyed e' ->
  PriorityQueue.key_ltb (fst e') (fst e) = false ->
  first_before (snd e) (snd e').
Proof.
  unfold keyed, queue_entry, first_before. intros He He' Hlt.
  rewrite He, He' in Hlt. unfold PriorityQueue.key_ltb in Hlt.
  cbn [fst snd] in Hlt.
  destruct (Z.eqb_spec
              (100 - NotificationPriority.value (DesktopNotification.priority (snd e')))
              (100 - NotificationPriority.value (DesktopNotification.priority (snd e))))
    as [Heq | Hne]; cbn [negb] in Hlt; apply Z.ltb_ge in Hlt.
  - right. split; [apply value_injective; lia | exact Hlt].
  - left. lia.
Qed.

Lemma filter_length_Permutation {A : Type} (f : A -> bool) (l l' : list A) :
  Permutation l l' -> List.length (filter f l) = List.length (filter f l').
Proof.
  induction 1 as [| x l l' _ IH | x y l | l l' l'' _ IH1 _ IH2]; simpl.
  - reflexivity.
  - destruct (f x); simpl; congruence.
  - destruct (f x), (f y); reflexivity.
  - congruence.
Qed.

(** Among entries with distinct keys, the key tells the entry. *)
Lemma tie_free_same_key (l : list PriorityQueue.entry)
    (a b : PriorityQueue.entry) :
  tie_free l -> In a l -> In b l -> fst a = fst b -> a = b.
Proof.
  intros Htf Ha Hb Heq.
  destruct (In_nth_error _ _ Ha) as [i Hi].
  destruct (In_nth_error _ _ Hb) as [j Hj].
  destruct (Nat.eq_dec i j) as [-> | Hne].
  - apply (same_item _ _ _ Hi Hj).
  - elim (tie_free_distinct l i j a b Htf Hne Hi Hj Heq).
Qed.

Section Delivery.
Variable py : Builtins.

(** After a permutation of a sound queue into a sound queue, the next
    entry retrieved is the same. *)
Lemma get_sound_Permutation (q q' : PriorityQueue.t) :
  sound_heap (PriorityQueue.queue q) -> sound_heap (PriorityQueue.queue q') ->
  Permutation (PriorityQueue.queue q') (PriorityQueue.queue q) ->
  forall e q1, PriorityQueue.get py q = PriorityQueue.Got e q1 ->
  exists q2, PriorityQueue.get py q' = PriorityQueue.Got e q2.
Proof.
  intros Hs Hs' Hperm e q1 Hget.
  assert (Hne : PriorityQueue.queue q <> []).
  { intros Hnil. unfold PriorityQueue.get in Hget. rewrite Hnil in Hget.
    discriminate. }
  destruct (get_sound py q Hs Hne) as (m & q0 & Hg & Hp & _ & _ & Hmin).
  rewrite Hget in Hg. inversion Hg; subst m q0; clear Hg.
  assert (Hin : In e (PriorityQueue.queue q)).
  { apply (Permutation_in _ (Permutation_sym Hp)). left. reflexivity. }
  destruct (get_sound py q' Hs') as (m' & q2 & Hg' & Hp' & _ & _ & Hmin').
  { intros Hnil. rewrite Hnil in Hperm. apply Permutation_nil in Hperm.
    contradiction. }
  assert (Hin' : In m' (PriorityQueue.queue q')).
  { apply (Permutation_in _ (Permutation_sym Hp')). left. reflexivity. }
  assert (m' = e).
  { apply (tie_free_same_key (PriorityQueue.queue q)).
    - apply Hs.
    - apply (Permutation_in _ Hperm), Hin'.
    - exact Hin.
    - apply key_ltb_total.
      + apply Hmin. apply (Permutation_in _ Hperm), Hin'.
      + apply Hmin'. apply (Permutation_in _ (Permutation_sym Hperm)), Hin. }
  subst m'. exists q2. exact Hg'.
Qed.

(** One failed delivery attempt on a sound queue raises nothing: it
    leaves a sound queue with the same entries and nothing else of the
    center changed. *)
Lemma requeue_cycle_spec (c : NotificationCenter.t) :
  processing_thread c = Some Polling \/ processing_thread c = Some Exited ->
  dict_len (active_notifications c) >= max_simultaneous (config c) ->
  sound_heap (PriorityQueue.queue (notification_queue c)) ->
  let c' := requeue_cycle py c in
  (processing_thread c' = Some Polling \/ processing_thread c' = Some Exited)
  /\ active_notifications c' = active_notifications c
  /\ config c' = config c
  /\ trace c' = trace c
  /\ sound_heap (PriorityQueue.queue (notification_queue c'))
  /\ Permutation (PriorityQueue.queue (notification_queue c'))
       (PriorityQueue.queue (notification_queue c)).
Proof.
  intros [Ht | Ht] Hfull Hsound; unfold requeue_cycle.
  - destruct (is_active c) eqn:Ha.
    + destruct (PriorityQueue.queue (notification_queue c)) as [| e0 l] eqn:Hq.
      * assert (Hget : PriorityQueue.get py (notification_queue c)
                       = PriorityQueue.Empty).
        { unfold PriorityQueue.get. rewrite Hq. reflexivity. }
        rewrite !(worker_step_empty py c Ht Ha Hget). rewrite Hq.
        repeat split; try reflexivity; try apply Hsound. left. exact Ht.
      * rewrite <- Hq in *.
        destruct (get_sound py (notification_queue c) Hsound)
          as (e & q' & Hget & Hperm & Hsound' & _ & _).
        { rewrite Hq. discriminate. }
        rewrite (worker_step_poll py c e q' Ht Ha Hget).
        rewrite (worker_step_full py _ e) by (try reflexivity; exact Hfull).
        cbn [notification_queue set_processing_thread set_notification_queue].
        destruct (put_sound py e q') as (Hnone & Hs2 & Hp2 & _).
        { apply (tie_free_Permutation _ _ Hperm), Hsound. }
        { apply Hsound'. }
        rewrite Hnone. cbn.
        split; [left; reflexivity |]. repeat split; try apply Hs2.
        rewrite Hp2. apply Permutation_sym, Hperm.
    + rewrite (worker_step_stopped py c Ht Ha).
      rewrite worker_step_exited by reflexivity.
      simpl. repeat split; try reflexivity; try apply Hsound. right. reflexivity.
  - rewrite !(worker_step_exited py c Ht).
    repeat split; try reflexivity; try apply Hsound. right. exact Ht.
Qed.

Lemma requeue_cycles_spec (k : nat) (c : NotificationCenter.t) :
  processing_thread c = Some Polling \/ processing_thread c = Some Exited ->
  dict_len (active_notifications c) >= max_simultaneous (config c) ->
  sound_heap (PriorityQueue.queue (notification_queue c)) ->
  let c' := Nat.iter k (requeue_cycle py) c in
  (processing_thread c' = Some Polling \/ processing_thread c' = Some Exited)
  /\ active_notifications c' = active_notifications c
  /\ config c' = config c
  /\ trace c' = trace c
  /\ sound_heap (PriorityQueue.queue (notification_queue c'))
  /\ Permutation (PriorityQueue.queue (notification_queue c'))
       (PriorityQueue.queue (notification_queue c)).
Proof.
  intros Ht Hfull Hsound. induction k as [| k IH]; simpl.
  - repeat split; try apply Hsound; [exact Ht | reflexivity].
  - destruct IH as (Ht' & Ha' & Hc' & Htr' & Hs' & Hp').
    destruct (requeue_cycle_spec (Nat.iter k (requeue_cycle py) c) Ht')
      as (Ht2 & Ha2 & Hc2 & Htr2 & Hs2 & Hp2).
    { rewrite Ha', Hc'. exact Hfull. }
    { exact Hs'. }
    split; [exact Ht2 |]. split; [congruence |]. split; [congruence |].
    split; [congruence |]. split; [exact Hs2 |].
    eapply Permutation_trans; eassumption.
Qed.

(** While the queued keys are distinct, delivery is in order.  In a
    reachable state whose queue is a heap with distinct keys, the worker
    takes from the queue an entry that is due before every queued one: its
    priority is higher, or equal with a timestamp that is not later.  When
    the worker holds a popped entry and the active set is full, it puts
    that very tuple, keyed by the priority and timestamp of its
    notification, back in the queue; and after any number of such failed
    attempts the queue is again a heap of the same entries, nothing has
    been logged, and the entry that is retrieved next is the one that was
    retrieved first. *)
Theorem distinct_keys_are_delivered_in_order (tray : SystemTrayManager.t)
    (c : NotificationCenter.t) :
  reachable py tray c ->
  sound_heap (PriorityQueue.queue (notification_queue c)) ->
  (processing_thread c = Some Polling -> is_active c = true ->
   PriorityQueue.queue (notification_queue c) <> [] ->
   exists e,
     processing_thread (worker_step py c) = Some (Popped e)
     /\ Permutation (PriorityQueue.queue (notification_queue c))
          (e :: PriorityQueue.queue (notification_queue (worker_step py c)))
     /\ sound_heap (PriorityQueue.queue (notification_queue (worker_step py c)))
     /\ forall e', In e' (PriorityQueue.queue (notification_queue c)) ->
          first_before (snd e) (snd e'))
  /\ (forall e, processing_thread c = Some (Popped e) ->
        dict_len (active_notifications c) >= max_simultaneous (config c) ->
        tie_free (e :: PriorityQueue.queue (notification_queue c)) ->
        notification_queue (worker_step py c)
        = fst (PriorityQueue.put py e (notification_queue c))
        /\ trace (worker_step py c) = trace c
        /\ sound_heap (PriorityQueue.queue (notification_queue (worker_step py c)))
        /\ fst e
           = (100 - NotificationPriority.value (DesktopNotification.priority (snd e)),
              DesktopNotification.timestamp (snd e)))
  /\ (forall k, processing_thread c = Some Polling ->
        dict_len (active_notifications c) >= max_simultaneous (config c) ->
        let c' := Nat.iter k (requeue_cycle py) c in
        Permutation (PriorityQueue.queue (notification_queue c'))
          (PriorityQueue.queue (notification_queue c))
        /\ sound_heap (PriorityQueue.queue (notification_queue c'))
        /\ trace c' = trace c
        /\ (forall key, ahead_of key (notification_queue c')
                        = ahead_of key (notification_queue c))
        /\ (forall e q1,
              PriorityQueue.get py (notification_queue c) = PriorityQueue.Got e q1 ->
              exists q2,
                PriorityQueue.get py (notification_queue c')
                = PriorityQueue.Got e q2)
        /\ active_notifications c' = active_notifications c).
Proof.
  intros Hreach Hsound.
  pose proof (reachable_Inv py _ _ Hreach) as [_ _ _ _ Hkey _].
  split; [| split].
  - intros Ht Ha Hne.
    destruct (get_sound py (notification_queue c) Hsound Hne)
      as (e & q' & Hget & Hperm & Hsound' & _ & Hmin).
    exists e. rewrite (worker_step_poll py c e q' Ht Ha Hget). cbn.
    split; [reflexivity |]. split; [exact Hperm |]. split; [exact Hsound' |].
    assert (Hin : In e (PriorityQueue.queue (notification_queue c))).
    { apply (Permutation_in e (Permutation_sym Hperm)). left. reflexivity. }
    intros e' He'. apply keyed_not_after.
    + apply Hkey, in_or_app. left. exact Hin.
    + apply Hkey, in_or_app. left. exact He'.
    + apply Hmin, He'.
  - intros e Ht Hfull Htf.
    destruct (put_sound py e (notification_queue c) Htf) as (Hnone & Hs & _ & _);
      [apply Hsound |].
    rewrite (worker_step_full py c e Ht Hfull). rewrite Hnone. cbn.
    split; [reflexivity |]. split; [reflexivity |]. split; [exact Hs |].
    apply (Hkey e). apply in_or_app. right. unfold held. rewrite Ht.
    left. reflexivity.
  - intros k Ht Hfull c'.
    destruct (requeue_cycles_spec k c (or_introl Ht) Hfull Hsound)
      as (_ & Ha & _ & Htr & Hs & Hp).
    fold c' in Ha, Htr, Hs, Hp.
    split; [exact Hp |]. split; [exact Hs |]. split; [exact Htr |].
    split; [| split; [| exact Ha]].
    + intros key. unfold ahead_of. apply filter_length_Permutation, Hp.
    + intros e q1 Hget.
      apply (get_sound_Permutation (notification_queue c) _ Hsound Hs Hp e q1 Hget).
Qed.

End Delivery.

Lemma idle_worker_stays (k : nat) (c : NotificationCenter.t) :
  worker_step py0 c = c -> run py0 (repeat WorkerStep k) c = c.
Proof.
  intros Hfix. induction k as [| k IH]; [reflexivity |].
  simpl. unfold run in *. simpl. rewrite Hfix. exact IH.
Qed.

(** C1. Two queued notifications of the same priority and timestamp break
    the delivery.  An urgent notification is queued, then two normal ones
    with one timestamp; the three calls return their ids.  The first
    retrieval of the worker has to compare the two tied tuples, which
    compares the notifications themselves: TypeError.  The worker logs the
    error and goes back to the head of its loop, and the urgent
    notification, which was to be returned, is in no part of the center
    any more: however long the worker runs, it is never displayed, while
    the two normal ones are. *)
Theorem tied_keys_lose_urgent_notification :
  queued_ids tied_queued = ["u"; "t1"; "t2"]
  /\ (let c1 := worker_step py0 tied_queued in
      processing_thread c1 = Some Polling
      /\ queued_ids c1 = ["t1"; "t2"]
      /\ active_notifications c1 = []
      /\ displayed_ids c1 = []
      /\ trace c1
         = (trace tied_queued
              ++ [Log logging.ERROR
                    ("Error processing notification queue: "
                       ++ "'<' not supported between instances of "
                       ++ "'DesktopNotification' and 'DesktopNotification'")])%list)
  /\ (forall k,
        ~ In "u" (displayed_ids (run py0 (repeat WorkerStep k) tied_queued)))
  /\ (forall k, (7 <= k)%nat ->
        displayed_ids (run py0 (repeat WorkerStep k) tied_queued) = ["t1"; "t2"]
        /\ queued_ids (run py0 (repeat WorkerStep k) tied_queued) = []).
Proof.
  assert (Hrest : forall k,
            run py0 (repeat WorkerStep (7 + k)) tied_queued
            = run py0 (repeat WorkerStep 7) tied_queued).
  { intros k. rewrite repeat_app, run_app. apply idle_worker_stays.
    vm_compute. reflexivity. }
  split; [vm_compute; reflexivity |].
  split; [vm_compute; repeat split; reflexivity |].
  split.
  - intros k.
    do 7 (destruct k as [| k];
          [vm_compute; intros H; repeat destruct H as [H | H];
           try discriminate H; exact H |]).
    change (S (S (S (S (S (S (S k))))))) with (7 + k)%nat. rewrite Hrest.
    vm_compute. intros H; repeat destruct H as [H | H];
      try discriminate H; exact H.
  - intros k Hk. replace k with (7 + (k - 7))%nat by lia. rewrite Hrest.
    vm_compute. split; reflexivity.
Qed.

(** The same clash when the active set is full.  Of two tied
    notifications "a" and "b", queued in that order, the second call of
    [show_notification] raises TypeError (and leaves "b" in the queue all
    the same); the worker retrieves "a", fails to put it back with the
    same TypeError, and then retrieves "b": the failed attempt has put "a"
    behind "b". *)
Example requeue_swaps_tied_notifications :
  let r1 := show_notification py0 10 (plain "a" NotificationPriority.NORMAL 10)
              full_center in
  let r2 := show_notification py0 11 (plain "b" NotificationPriority.NORMAL 10)
              (fst r1) in
  let c1 := worker_step py0 (fst r2) in
  let c2 := worker_step py0 c1 in
  let c3 := worker_step py0 c2 in
  dict_len (active_notifications full_center)
  = max_simultaneous (config full_center)
  /\ snd r1 = inr "a"
  /\ snd r2
     = inl (TypeError
              ("'<' not supported between instances of "
                 ++ "'DesktopNotification' and 'DesktopNotification'"))
  /\ queued_ids (fst r2) = ["a"; "b"]
  /\ processing_thread c1
     = Some (Popped (queue_entry (plain "a" NotificationPriority.NORMAL 10)))
  /\ processing_thread c2 = Some Polling
  /\ queued_ids c2 = ["b"; "a"]
  /\ processing_thread c3
     = Some (Popped (queue_entry (plain "b" NotificationPriority.NORMAL 10))).
Proof. vm_compute. repeat split; reflexivity. Qed.

(** The example of the specification: urgent, low and normal, queued in
    that order, are displayed in the order urgent, normal, low. *)
Example delivery_order_example :
  displayed_ids (run py0 (repeat WorkerStep 9) three_queued) = ["u"; "n"; "l"].
Proof. vm_compute. reflexivity. Qed.

(** ** The two bounds *)

Section Bounds.
Variable py : Builtins.

(** C4. In every reachable state the active set holds at most
    max_simultaneous notifications.  The worker is past the capacity test
    only while the count is strictly below the cap, and with a full active
    set it sends the popped entry back instead; it touches the active set
    in no other position, and every other operation leaves in the active
    set only what was there. *)
Theorem active_set_never_exceeds_max (tray : SystemTrayManager.t)
    (c : NotificationCenter.t) :
  reachable py tray c ->
  dict_len (active_notifications c) <= max_simultaneous (config c)
  /\ (forall e, processing_thread c = Some (Promoting e) ->
        dict_len (active_notifications c) < max_simultaneous (config c))
  /\ (forall e, processing_thread c = Some (Popped e) ->
        dict_len (active_notifications c) >= max_simultaneous (config c) ->
        processing_thread (worker_step py c) = Some Polling
        /\ active_notifications (worker_step py c) = active_notifications c)
  /\ ((forall e, processing_thread c <> Some (Promoting e)) ->
      active_notifications (worker_step py c) = active_notifications c)
  /\ (forall o, o <> WorkerStep ->
        incl (active_notifications (step py o c)) (active_notifications c)
        /\ (List.length (active_notifications (step py o c))
            <= List.length (active_notifications c))%nat).
Proof.
  intros Hreach.
  pose proof (reachable_Inv py _ _ Hreach) as [_ Hact Hpro _ _ _].
  repeat split.
  - exact Hact.
  - exact Hpro.
  - rewrite (worker_step_full py c e) by assumption. reflexivity.
  - rewrite (worker_step_full py c e) by assumption.
    destruct (snd (PriorityQueue.put py e (notification_queue c))); reflexivity.
  - apply worker_step_keeps_active.
  - apply (frame_step py o c).
    assumption.
  - apply (frame_step py o c).
    assumption.
Qed.

(** C7. In every reachable state the history holds at most history_limit
    notifications.  Displaying a notification appends it to the history and,
    when the history was already at its limit, drops the entry at index 0;
    no operation other than the worker's changes the history: not a
    dismissal, not a replacement, not clear_all. *)
Theorem history_bounded_fifo (tray : SystemTrayManager.t)
    (c : NotificationCenter.t) :
  reachable py tray c ->
  Z.of_nat (List.length (notification_history c)) <= history_limit (config c)
  /\ (forall n,
        notification_history (_display_notification n c)
        = if Z.of_nat (List.length (notification_history c))
             <? history_limit (config c)
          then (notification_history c ++ [n])%list
          else (tl (notification_history c) ++ [n])%list)
  /\ (forall e, processing_thread c = Some (Promoting e) ->
        notification_history (worker_step py c)
        = notification_history (_display_notification (snd e) c))
  /\ (forall o, o <> WorkerStep ->
        notification_history (step py o c) = notification_history c).
Proof.
  intros Hreach.
  pose proof (reachable_Inv py _ _ Hreach) as [Hcfg _ _ Hhis _ _].
  split; [exact Hhis |]. split; [| split].
  - intros n.
    pose proof (display_fields n c) as (_ & _ & _ & _ & _ & _ & Dh & _).
    rewrite Dh. rewrite Hcfg in *. change (history_limit default_config) with 100 in *.
    rewrite length_app. simpl List.length.
    destruct (Z.ltb_spec (Z.of_nat (List.length (notification_history c))) 100)
      as [Hlt | Hge].
    + destruct (Z.gtb_spec (Z.of_nat (List.length (notification_history c) + 1)) 100);
        [lia | reflexivity].
    + destruct (Z.gtb_spec (Z.of_nat (List.length (notification_history c) + 1)) 100);
        [| lia].
      destruct (notification_history c); [simpl in Hge; lia | reflexivity].
  - intros e Ht. apply (worker_step_display py c e Ht).
  - intros o Ho.
    apply (frame_step py o c Ho).
Qed.

End Bounds.

(** ** The helpers *)

Section Helpers.
Variable py : Builtins.

Lemma show_notification_keeps_tray (now : Z) (n : DesktopNotification.t)
    (c : NotificationCenter.t) :
  system_tray (fst (show_notification py now n c)) = system_tray c.
Proof.
  destruct (blocked_by_dnd (with_generated_id py now n) c) eqn:Hb.
  - unfold show_notification. rewrite Hb. reflexivity.
  - destruct (show_notification_passing py now n c Hb)
      as (d & _ & Htray & _ & _ & Hshow).
    cbv zeta in Hshow. rewrite Hshow.
    destruct (snd (PriorityQueue.put py _ _)); exact Htray.
Qed.


End Helpers.

(** ** Cost alerts *)


Section CostAlert.
Variable py : Builtins.



(** C10. A zero threshold makes [show_cost_alert] raise ZeroDivisionError
    and leaves the center as it was: no notification is built or queued. *)
Theorem show_cost_alert_zero_threshold (now : Z) (current_cost threshold : float)
    (period : string) (c : NotificationCenter.t) :
  PrimFloat.eqb threshold 0%float = true ->
  show_cost_alert py now current_cost threshold period c
  = (c, inl (ZeroDivisionError "float division by zero")).
Proof.
  intros Hz. unfold show_cost_alert. rewrite Hz. reflexivity.
Qed.

End CostAlert.

(** The two tests are made on the rounded product.  The cost below is less
    than four fifths of the threshold 1, and its percentage is exactly 80. *)
Remark percentage_is_rounded :
  Prim2SF 0x1.9999999999999p-1%float = S754_finite false 7205759403792793 (-53)
  /\ 5 * 7205759403792793 < 4 * 2 ^ 53
  /\ percentage 0x1.9999999999999p-1%float 1%float = 80%float
  /\ DesktopNotification.type
       (cost_alert_notification py0 0 0x1.9999999999999p-1%float
          1%float "daily")
     = NotificationType.WARNING.
Proof. repeat split; vm_compute; reflexivity. Qed.

(** ** The properties on concrete centers *)

Lemma dismiss_unknown_id_is_noop_witness :
  dict_contains "missing" (active_notifications (init created_tray)) = false
  /\ dismiss_notification "missing" "user_dismissed" (init created_tray)
     = (init created_tray, false).
Proof.
  split.
  - reflexivity.
  - apply (dismiss_unknown_id_is_noop (init created_tray) "missing" "user_dismissed").
    reflexivity.
Defined.


Lemma replace_dismisses_target_before_queueing_witness :
  do_not_disturb (set_do_not_disturb false None busy_quiet_center) = false
  /\ DesktopNotification.replace_id replacement_of_a = Some "a"
  /\ dict_contains "a"
       (active_notifications (set_do_not_disturb false None busy_quiet_center))
     = true
  /\ dict_contains "a"
       (active_notifications
          (fst (show_notification py0 2 replacement_of_a
                  (set_do_not_disturb false None busy_quiet_center)))) = false.
Proof.
  pose proof (replace_dismisses_target_before_queueing py0 2 replacement_of_a
                (set_do_not_disturb false None busy_quiet_center) "a" _
                (or_introl eq_refl) eq_refl ltac:(discriminate) eq_refl)
    as (_ & _ & _ & _ & _ & _ & Hact).
  split; [reflexivity |]. split; [reflexivity |]. split; [reflexivity |].
  rewrite Hact. reflexivity.
Defined.

Lemma do_not_disturb_gate_witness :
  do_not_disturb quiet_center = true
  /\ SystemTrayManager.notification_queue
       (system_tray
          (run py0 [WorkerStep; WorkerStep; WorkerStep]
             (fst (show_notification py0 5
                     (plain "quiet" NotificationPriority.NORMAL 5) quiet_center))))
     = []
  /\ SystemTrayManager.notification_queue
       (system_tray
          (run py0 [WorkerStep; WorkerStep; WorkerStep]
             (fst (show_notification py0 5
                     (plain "loud" NotificationPriority.CRITICAL 5) quiet_center))))
     = [tray_projection (plain "loud" NotificationPriority.CRITICAL 5)].
Proof.
  split; [reflexivity |]. split.
  - destruct (do_not_disturb_gate py0 created_tray 5
                (plain "quiet" NotificationPriority.NORMAL 5) quiet_center eq_refl)
      as (Hlow & _).
    destruct (Hlow eq_refl) as (_ & _ & _ & Htray).
    rewrite Htray. reflexivity.
  - destruct (do_not_disturb_gate py0 created_tray 5
                (plain "loud" NotificationPriority.CRITICAL 5) quiet_center eq_refl)
      as (_ & Hhigh).
    destruct (Hhigh ltac:(vm_compute; discriminate)) as (_ & _ & Hqueued).
    destruct Hqueued as (_ & _ & _ & Hdeliver & _).
    { repeat constructor. intros []. }
    { apply sound_heap_nil. }
    destruct (Hdeliver eq_refl eq_refl eq_refl (fun e H => match H with end))
      as (Hsink & _).
    rewrite Hsink. reflexivity.
Defined.

Lemma three_queued_sound :
  sound_heap (PriorityQueue.queue (notification_queue three_queued)).
Proof.
  assert (Hq : PriorityQueue.queue (notification_queue three_queued)
               = [queue_entry (plain "u" NotificationPriority.URGENT 1);
                  queue_entry (plain "l" NotificationPriority.LOW 2);
                  queue_entry (plain "n" NotificationPriority.NORMAL 3)])
    by (vm_compute; reflexivity).
  rewrite Hq. split.
  - unfold tie_free. simpl.
    repeat (constructor;
            [intros H; repeat destruct H as [H | H]; try discriminate H; exact H |]).
    constructor.
  - intros j a p Hj Ha Hp.
    destruct j as [| [| [| j]]]; [lia | | | destruct j; discriminate Ha];
      inversion Ha; inversion Hp; subst; reflexivity.
Qed.

Lemma distinct_keys_are_delivered_in_order_witness :
  reachable py0 created_tray three_queued
  /\ processing_thread (worker_step py0 three_queued)
     = Some (Popped (queue_entry (plain "u" NotificationPriority.URGENT 1)))
  /\ (forall e', In e' (PriorityQueue.queue (notification_queue three_queued)) ->
        first_before (plain "u" NotificationPriority.URGENT 1) (snd e')).
Proof.
  assert (Hreach : reachable py0 created_tray three_queued).
  { eexists. reflexivity. }
  split; [exact Hreach |]. split; [reflexivity |].
  destruct (distinct_keys_are_delivered_in_order py0 created_tray three_queued
              Hreach three_queued_sound) as (Hfirst & _ & _).
  destruct (Hfirst eq_refl eq_refl ltac:(discriminate)) as (e & Hpop & _ & _ & Hmin).
  assert (He : e = queue_entry (plain "u" NotificationPriority.URGENT 1)).
  { assert (Hcomp : processing_thread (worker_step py0 three_queued)
                    = Some (Popped (queue_entry
                                      (plain "u" NotificationPriority.URGENT 1))))
      by reflexivity.
    rewrite Hpop in Hcomp. inversion Hcomp. reflexivity. }
  rewrite He in Hmin. exact Hmin.
Defined.

Lemma active_set_never_exceeds_max_witness :
  reachable py0 created_tray busy_quiet_center
  /\ dict_len (active_notifications busy_quiet_center)
     <= max_simultaneous (config busy_quiet_center).
Proof.
  assert (Hreach : reachable py0 created_tray
                     busy_quiet_center).
  { eexists. reflexivity. }
  split; [exact Hreach |].
  apply (active_set_never_exceeds_max py0
           created_tray busy_quiet_center Hreach).
Defined.

Lemma history_bounded_fifo_witness :
  reachable py0 created_tray busy_quiet_center
  /\ Z.of_nat (List.length (notification_history busy_quiet_center))
     <= history_limit (config busy_quiet_center).
Proof.
  assert (Hreach : reachable py0 created_tray
                     busy_quiet_center).
  { eexists. reflexivity. }
  split; [exact Hreach |].
  apply (history_bounded_fifo py0
           created_tray busy_quiet_center Hreach).
Defined.


Lemma show_cost_alert_zero_threshold_witness :
  PrimFloat.eqb (-0)%float 0%float = true
  /\ show_cost_alert py0 0 90%float (-0)%float "daily"
       (init created_tray)
     = (init created_tray, inl (ZeroDivisionError "float division by zero")).
Proof.
  split.
  - reflexivity.
  - apply (show_cost_alert_zero_threshold py0 0 90%float (-0)%float
             "daily" (init created_tray)).
    reflexivity.
Defined.

(** * Further properties of the notification center *)

(** ** The bookkeeping of dismissals *)

Lemma dict_remove_filter {V : Type} (k : string) (d : list (string * V)) :
  dict_remove k d = filter (fun kv => negb (String.eqb k (fst kv))) d.
Proof.
  induction d as [| [k' v'] d IH]; simpl; [reflexivity |].
  destruct (String.eqb k k'); simpl; rewrite IH; reflexivity.
Qed.

Lemma dict_get_In {V : Type} (k : string) (v : V) (d : list (string * V)) :
  dict_get k d = Some v -> In (k, v) d.
Proof.
  induction d as [| [k' v'] d IH]; simpl; [discriminate |].
  destruct (String.eqb_spec k k') as [-> | Hne].
  - intros H. inversion H. left. reflexivity.
  - intros H. right. apply IH, H.
Qed.

Lemma dict_get_None_keys {V : Type} (k : string) (d : list (string * V)) :
  dict_get k d = None <-> ~ In k (dict_keys d).
Proof.
  induction d as [| [k' v'] d IH]; simpl.
  - split; [intros _ [] | reflexivity].
  - destruct (String.eqb_spec k k') as [-> | Hne].
    + split; [discriminate | intros H; elim H; left; reflexivity].
    + rewrite IH. split.
      * intros H [Heq | Hin]; [congruence | contradiction].
      * intros H Hin. apply H. right. exact Hin.
Qed.

(** With distinct keys, [pop] takes exactly one item. *)
Lemma dict_remove_present_length {V : Type} (k : string) (v : V)
    (d : list (string * V)) :
  NoDup (dict_keys d) -> dict_get k d = Some v ->
  List.length d = S (List.length (dict_remove k d)).
Proof.
  induction d as [| [k' v'] d IH]; simpl; [discriminate |].
  intros Hnd Hget. apply NoDup_cons_iff in Hnd. destruct Hnd as [Hnotin Hnd].
  destruct (String.eqb_spec k k') as [-> | Hne].
  - rewrite dict_remove_absent; [reflexivity |].
    apply dict_get_None_keys, Hnotin.
  - simpl. rewrite (IH Hnd Hget). reflexivity.
Qed.

Lemma filter_keys_NoDup {V : Type} (f : string * V -> bool)
    (d : list (string * V)) :
  NoDup (dict_keys d) -> NoDup (dict_keys (filter f d)).
Proof.
  induction d as [| [k v] d IH]; simpl; [intros; constructor |].
  intros Hnd. apply NoDup_cons_iff in Hnd. destruct Hnd as [Hnotin Hnd].
  destruct (f (k, v)); simpl; [| apply IH, Hnd].
  constructor; [| apply IH, Hnd].
  intros Hin. apply Hnotin. unfold dict_keys in *.
  apply in_map_iff in Hin. destruct Hin as ([k' v'] & Hk & Hin).
  apply filter_In in Hin. apply in_map_iff. exists (k', v'). tauto.
Qed.

Lemma filter_filter {A : Type} (f g : A -> bool) (l : list A) :
  filter f (filter g l) = filter (fun x => g x && f x) l.
Proof.
  induction l as [| x l IH]; simpl; [reflexivity |].
  destruct (g x); simpl; [destruct (f x); rewrite IH |]; try reflexivity.
  exact IH.
Qed.

Lemma filter_true {A : Type} (l : list A) : filter (fun _ => true) l = l.
Proof. induction l as [| x l IH]; simpl; [| rewrite IH]; reflexivity. Qed.

Lemma dict_set_keys {V : Type} (k : string) (v : V) (d : list (string * V)) :
  dict_keys (dict_set k v d)
  = if dict_contains k d then dict_keys d else (dict_keys d ++ [k])%list.
Proof.
  unfold dict_contains.
  induction d as [| [k' v'] d IH]; simpl; [reflexivity |].
  destruct (String.eqb k k'); simpl; [reflexivity |].
  rewrite IH. destruct (dict_get k d); reflexivity.
Qed.

Lemma dict_set_In {V : Type} (k k0 : string) (v v0 : V) (d : list (string * V)) :
  In (k0, v0) (dict_set k v d) -> (k0, v0) = (k, v) \/ In (k0, v0) d.
Proof.
  induction d as [| [k' v'] d IH]; simpl.
  - intros [H | []]. left. symmetry. exact H.
  - destruct (String.eqb_spec k k') as [-> | Hne]; simpl.
    + intros [H | H]; [left; symmetry; exact H | right; right; exact H].
    + intros [H | H]; [right; left; exact H |].
      destruct (IH H) as [Heq | Hin]; [left; exact Heq | right; right; exact Hin].
Qed.

(** With the key present, [d[k] = v] keeps the size. *)
Lemma dict_set_present_length {V : Type} (k : string) (v : V)
    (d : list (string * V)) :
  dict_contains k d = true -> List.length (dict_set k v d) = List.length d.
Proof.
  unfold dict_contains.
  induction d as [| [k' v'] d IH]; simpl; [discriminate |].
  destruct (String.eqb k k'); simpl; [reflexivity |].
  intros H. rewrite (IH H). reflexivity.
Qed.

Lemma dict_set_absent {V : Type} (k : string) (v : V) (d : list (string * V)) :
  dict_contains k d = false -> dict_set k v d = (d ++ [(k, v)])%list.
Proof.
  unfold dict_contains.
  induction d as [| [k' v'] d IH]; simpl; [reflexivity |].
  destruct (String.eqb k k'); simpl; [discriminate |].
  intros H. rewrite (IH H). reflexivity.
Qed.

Lemma well_keyed_filter (f : string * DesktopNotification.t -> bool)
    (d : list (string * DesktopNotification.t)) :
  well_keyed d -> well_keyed (filter f d).
Proof.
  intros [Hnd Hid]. split; [apply filter_keys_NoDup, Hnd |].
  intros k n Hin. apply filter_In in Hin. apply Hid, Hin.
Qed.

Lemma well_keyed_set (n : DesktopNotification.t)
    (d : list (string * DesktopNotification.t)) :
  well_keyed d -> well_keyed (dict_set (DesktopNotification.id n) n d).
Proof.
  intros [Hnd Hid]. split.
  - rewrite dict_set_keys.
    destruct (dict_contains (DesktopNotification.id n) d) eqn:E; [exact Hnd |].
    apply NoDup_app; [exact Hnd | repeat constructor; intros [] |].
    intros x Hx [<- | []].
    apply dict_contains_false_get, dict_get_None_keys in E. contradiction.
  - intros k m Hin. destruct (dict_set_In _ _ _ _ _ Hin) as [Heq | Hold].
    + inversion Heq. reflexivity.
    + apply Hid, Hold.
Qed.

Lemma dismissals_refl (c : NotificationCenter.t) : dismissals c c.
Proof.
  split; [exists (fun _ => true); symmetry; apply filter_true |].
  split; [reflexivity | intros _; reflexivity].
Qed.

Lemma dismissals_trans (c1 c2 c3 : NotificationCenter.t) :
  dismissals c1 c2 -> dismissals c2 c3 -> dismissals c1 c3.
Proof.
  intros ([f Hf] & Hs & Hd) ([g Hg] & Hs' & Hd').
  split; [exists (fun x => f x && g x); rewrite Hg, Hf; apply filter_filter |].
  split; [congruence |].
  intros Hnd. rewrite Hd', Hd; [reflexivity | exact Hnd |].
  rewrite Hf. apply filter_keys_NoDup, Hnd.
Qed.

(** Closes [dismissals c c'] when [c'] has the active set and the two
    counters of [c]. *)
Ltac dismissals_same :=
  split; [exists (fun _ => true); symmetry; apply filter_true |];
  split; [reflexivity | intros _; reflexivity].

Lemma dismissals__dismiss_notification (notification_id reason : string)
    (c : NotificationCenter.t) :
  dismissals c (fst (_dismiss_notification notification_id reason c)).
Proof.
  destruct (dict_get notification_id (active_notifications c)) as [n |] eqn:Hget.
  - destruct (dismiss_present notification_id reason c n Hget)
      as (_ & Hact & Hcnt & _).
    cbv zeta in Hact, Hcnt.
    assert (Hsent : total_sent (stats (fst (_dismiss_notification notification_id
                                              reason c)))
                    = total_sent (stats c)).
    { unfold _dismiss_notification. rewrite Hget.
      destruct (DesktopNotification.dismiss_callback n) as [cb |];
        [destruct (cb reason) |]; reflexivity. }
    split; [exists (fun kv => negb (String.eqb notification_id (fst kv)));
            rewrite Hact; apply dict_remove_filter |].
    split; [exact Hsent |].
    intros Hnd. rewrite Hcnt, Hact. unfold dict_len.
    rewrite (dict_remove_present_length notification_id n _ Hnd Hget). lia.
  - unfold _dismiss_notification. rewrite Hget. apply dismissals_refl.
Qed.

Lemma dismissals_dismiss_each (ids : list string) (reason : string)
    (c : NotificationCenter.t) (count : Z) :
  dismissals c (fst (dismiss_each ids reason c count)).
Proof.
  revert c count. induction ids as [| i ids IH]; intros c count; simpl;
    [apply dismissals_refl |].
  pose proof (dismissals__dismiss_notification i reason c) as Hd.
  destruct (_dismiss_notification i reason c) as [c' ok]. simpl in Hd.
  eapply dismissals_trans; [exact Hd | apply IH].
Qed.

Lemma dismissals_timer_fire (k : nat) (c : NotificationCenter.t) :
  dismissals c (timer_fire k c).
Proof.
  unfold timer_fire. destruct (nth_error (timer_threads c) k) as [th |];
    [| apply dismissals_refl].
  destruct th as [i | duration_minutes].
  - apply (dismissals_trans _ (set_timer_threads
                                 (firstn k (timer_threads c)
                                    ++ skipn (S k) (timer_threads c)) c));
      [dismissals_same | apply dismissals__dismiss_notification].
  - destruct (duration_minutes * 60 <? 0); dismissals_same.
Qed.

Section Accounting.
Variable py : Builtins.

Lemma dismissals_show_notification (now : Z) (n : DesktopNotification.t)
    (c : NotificationCenter.t) :
  dismissals c (fst (show_notification py now n c)).
Proof.
  unfold show_notification.
  destruct (blocked_by_dnd (with_generated_id py now n) c); simpl;
    [dismissals_same |].
  set (c1 := match replaces_active (with_generated_id py now n) c with
             | Some r => fst (_dismiss_notification r "replaced" c)
             | None => c
             end).
  assert (H1 : dismissals c c1).
  { unfold c1. destruct (replaces_active (with_generated_id py now n) c);
      [apply dismissals__dismiss_notification | apply dismissals_refl]. }
  destruct (PriorityQueue.put py (queue_entry (with_generated_id py now n))
              (notification_queue c1)) as [q' [x |]]; simpl;
    (eapply dismissals_trans; [exact H1 | dismissals_same]).
Qed.

Lemma dismissals_step (o : Op) (c : NotificationCenter.t) :
  o <> WorkerStep -> dismissals c (step py o c).
Proof.
  intros Ho. destruct o; simpl.
  - apply dismissals_show_notification.
  - unfold show_claude_notification.
    eapply dismissals_trans; [| apply dismissals_show_notification].
    dismissals_same.
  - unfold show_progress_notification. apply dismissals_show_notification.
  - unfold show_system_status.
    eapply dismissals_trans; [| apply dismissals_show_notification].
    destruct (tray_status_update component status) as [[ts tip] |];
      dismissals_same.
  - unfold show_cost_alert. destruct (PrimFloat.eqb threshold 0); simpl;
      [apply dismissals_refl | apply dismissals_show_notification].
  - apply dismissals__dismiss_notification.
  - apply dismissals_dismiss_each.
  - unfold set_do_not_disturb.
    destruct enabled; [| dismissals_same].
    destruct duration_minutes as [d |]; [destruct (negb (d =? 0)) |];
      dismissals_same.
  - unfold clear_all_notifications. simpl.
    eapply dismissals_trans; [apply dismissals_dismiss_each | dismissals_same].
  - unfold stop. dismissals_same.
  - contradiction.
  - apply dismissals_timer_fire.
  - dismissals_same.
Qed.

Lemma Accounted_dismissals (c c' : NotificationCenter.t) :
  Accounted c -> dismissals c c' ->
  notification_history c' = notification_history c -> Accounted c'.
Proof.
  intros [Hk Hd Hs Hh] ([f Hf] & Hsent & Hcount) Hhist.
  specialize (Hcount (proj1 Hk)).
  assert (Hlen : dict_len (active_notifications c')
                 <= dict_len (active_notifications c)).
  { rewrite Hf. unfold dict_len. pose proof (filter_length_le f (active_notifications c)).
    lia. }
  constructor.
  - rewrite Hf. apply well_keyed_filter, Hk.
  - lia.
  - rewrite Hsent. lia.
  - rewrite Hhist, Hsent. exact Hh.
Qed.

Lemma Accounted_display (n : DesktopNotification.t) (c : NotificationCenter.t) :
  Accounted c -> Accounted (_display_notification n c).
Proof.
  intros [Hk Hd Hs Hh].
  pose proof (display_fields n c) as (_ & _ & _ & _ & _ & Da & Dh & _ & Dt).
  assert (Dd : dismissed_count (stats (_display_notification n c))
               = dismissed_count (stats c)).
  { unfold _display_notification.
    destruct (DesktopNotification.duration n >? 0); reflexivity. }
  cbv zeta in Da, Dh, Dt.
  constructor.
  - rewrite Da. apply well_keyed_set, Hk.
  - rewrite Dd. exact Hd.
  - rewrite Da, Dd, Dt. unfold dict_len in *.
    pose proof (dict_set_length (DesktopNotification.id n) n
                  (active_notifications c)). lia.
  - rewrite Dh, Dt.
    destruct (Z.of_nat (List.length (notification_history c ++ [n])) >?
              history_limit (config c)).
    + destruct (notification_history c ++ [n])%list eqn:E; simpl.
      * lia.
      * apply (f_equal (@List.length _)) in E. rewrite length_app in E.
        simpl in E. lia.
    + rewrite length_app. simpl. lia.
Qed.

Lemma Accounted_worker_step (c : NotificationCenter.t) :
  Accounted c -> Accounted (worker_step py c).
Proof.
  intros HA. unfold worker_step.
  destruct (processing_thread c) as [[| [k n] | [k n] |] |]; try exact HA.
  - destruct (negb (is_active c)); [destruct HA; constructor; assumption |].
    destruct (PriorityQueue.get py (notification_queue c));
      destruct HA; try constructor; assumption.
  - destruct (dict_len (active_notifications c) >=? max_simultaneous (config c)).
    + destruct (PriorityQueue.put py (k, n) (notification_queue c)) as [q' [x |]];
        destruct HA; constructor; assumption.
    + destruct HA; constructor; assumption.
  - pose proof (Accounted_display n c HA) as HA'.
    remember (_display_notification n c) as c1 eqn:E. clear E.
    destruct (PriorityQueue.task_done (notification_queue c1));
      destruct HA'; constructor; assumption.
Qed.

Lemma Accounted_step (o : Op) (c : NotificationCenter.t) :
  Accounted c -> Accounted (step py o c).
Proof.
  intros HA. destruct (o) eqn:Eo;
    try (rewrite <- Eo;
         apply (Accounted_dismissals c);
         [exact HA
         | apply dismissals_step; rewrite Eo; discriminate
         | apply (frame_step py); rewrite Eo; discriminate]).
  apply Accounted_worker_step, HA.
Qed.

Lemma reachable_Accounted (tray : SystemTrayManager.t)
    (c : NotificationCenter.t) :
  reachable py tray c -> Accounted c.
Proof.
  intros [ops ->]. unfold run.
  assert (H0 : Accounted (init tray)).
  { constructor; simpl; try (unfold dict_len; simpl; lia).
    split; [constructor | intros k n []]. }
  revert H0. generalize (init tray). induction ops as [| o ops IH]; intros c0 H0.
  - exact H0.
  - simpl. apply IH, Accounted_step, H0.
Qed.
End Accounting.

(** ** Bulk dismissal *)

Lemma dismiss_trace_grows (notification_id reason : string)
    (c : NotificationCenter.t) :
  exists more,
    trace (fst (_dismiss_notification notification_id reason c))
    = (trace c ++ more)%list.
Proof.
  unfold _dismiss_notification.
  destruct (dict_get notification_id (active_notifications c)) as [n |];
    [| exists []; symmetry; apply app_nil_r].
  destruct (DesktopNotification.dismiss_callback n) as [cb |];
    [destruct (cb reason) |]; simpl; rewrite <- ?app_assoc; eexists; reflexivity.
Qed.

Lemma dismiss_each_trace_grows (ids : list string) (reason : string)
    (c : NotificationCenter.t) (count : Z) :
  exists more,
    trace (fst (dismiss_each ids reason c count)) = (trace c ++ more)%list.
Proof.
  revert c count. induction ids as [| i ids IH]; intros c count; simpl.
  - exists []. symmetry. apply app_nil_r.
  - destruct (dismiss_trace_grows i reason c) as [m1 H1].
    destruct (_dismiss_notification i reason c) as [c' ok]. simpl in H1.
    destruct (IH c' (if ok then count + 1 else count)) as [m2 H2].
    exists (m1 ++ m2)%list. rewrite H2, H1, app_assoc. reflexivity.
Qed.

Lemma dismiss_sent_and_rest (notification_id reason : string)
    (c : NotificationCenter.t) :
  let d := fst (_dismiss_notification notification_id reason c) in
  total_sent (stats d) = total_sent (stats c)
  /\ notification_history d = notification_history c
  /\ config d = config c
  /\ processing_thread d = processing_thread c.
Proof.
  unfold _dismiss_notification.
  destruct (dict_get notification_id (active_notifications c)) as [n |];
    [| repeat split].
  destruct (DesktopNotification.dismiss_callback n) as [cb |];
    [destruct (cb reason) |]; repeat split.
Qed.

Lemma NoDup_keys_same_value {V : Type} (k : string) (v v' : V)
    (d : list (string * V)) :
  NoDup (dict_keys d) -> In (k, v) d -> In (k, v') d -> v = v'.
Proof.
  induction d as [| [k0 v0] d IH]; simpl; [intros _ [] |].
  intros Hnd. apply NoDup_cons_iff in Hnd. destruct Hnd as [Hnotin Hnd].
  assert (Hkey : forall w, In (k0, w) d -> False).
  { intros w Hw. apply Hnotin. unfold dict_keys. apply in_map_iff.
    exists (k0, w). split; [reflexivity | exact Hw]. }
  intros [H1 | H1] [H2 | H2].
  - congruence.
  - inversion H1; subst. elim (Hkey _ H2).
  - inversion H2; subst. elim (Hkey _ H1).
  - apply (IH Hnd H1 H2).
Qed.

Lemma In_dict_get {V : Type} (k : string) (v : V) (d : list (string * V)) :
  NoDup (dict_keys d) -> In (k, v) d -> dict_get k d = Some v.
Proof.
  intros Hnd Hin.
  destruct (dict_get k d) as [v' |] eqn:Hget.
  - apply dict_get_In in Hget.
    rewrite (NoDup_keys_same_value k v v' d Hnd Hin Hget). reflexivity.
  - apply dict_get_None_keys in Hget. elim Hget.
    unfold dict_keys. apply in_map_iff. exists (k, v). split; [reflexivity | exact Hin].
Qed.

(** The loop of the two bulk dismissals, over distinct ids that are all
    active: every one of them is dismissed and counted, and its callback
    is called. *)
Lemma dismiss_each_spec (ids : list string) (reason : string) :
  forall (c : NotificationCenter.t) (count : Z),
    NoDup ids -> NoDup (dict_keys (active_notifications c)) ->
    incl ids (dict_keys (active_notifications c)) ->
    let r := dismiss_each ids reason c count in
    snd r = count + Z.of_nat (List.length ids)
    /\ active_notifications (fst r)
       = filter (fun kv => negb (existsb (String.eqb (fst kv)) ids))
           (active_notifications c)
    /\ dismissed_count (stats (fst r))
       = dismissed_count (stats c) + Z.of_nat (List.length ids)
    /\ (forall k n cb, In k ids ->
          dict_get k (active_notifications c) = Some n ->
          DesktopNotification.dismiss_callback n = Some cb ->
          In (DismissCallbackCalled (DesktopNotification.id n) reason)
             (trace (fst r))).
Proof.
  induction ids as [| i ids IH]; intros c count Hids Hnd Hincl; simpl.
  - split; [lia |]. split; [symmetry; apply filter_true |].
    split; [lia |]. intros k n cb [].
  - apply NoDup_cons_iff in Hids. destruct Hids as [Hnotin Hids].
    assert (Hi : In i (dict_keys (active_notifications c)))
      by (apply Hincl; left; reflexivity).
    destruct (dict_get i (active_notifications c)) as [n |] eqn:Hget;
      [| apply dict_get_None_keys in Hget; contradiction].
    destruct (dismiss_present i reason c n Hget)
      as (Hok & Hact & Hcnt & _ & Hcall & _).
    destruct (_dismiss_notification i reason c) as [c' ok] eqn:Hd.
    cbn [fst snd] in Hok, Hact, Hcnt, Hcall. subst ok.
    destruct (IH c' (count + 1) Hids) as (Hret & Hact' & Hcnt' & Hcall').
    { rewrite Hact, dict_remove_filter. apply filter_keys_NoDup, Hnd. }
    { intros j Hj. rewrite Hact, dict_remove_filter.
      assert (Hjc : In j (dict_keys (active_notifications c)))
        by (apply Hincl; right; exact Hj).
      unfold dict_keys in *. apply in_map_iff in Hjc.
      destruct Hjc as ([j' v] & Hfst & Hin). simpl in Hfst. subst j'.
      apply in_map_iff. exists (j, v). split; [reflexivity |].
      apply filter_In. split; [exact Hin |]. simpl.
      destruct (String.eqb_spec i j) as [-> | Hne]; [contradiction | reflexivity]. }
    split; [rewrite Hret; lia |].
    split.
    { rewrite Hact', Hact, dict_remove_filter, filter_filter.
      apply filter_ext. intros [k v]. simpl.
      rewrite (String.eqb_sym i k).
      destruct (String.eqb k i); reflexivity. }
    split; [rewrite Hcnt', Hcnt; lia |].
    intros k m cb [<- | Hk] Hm Hcb.
    + assert (m = n) by congruence. subst m.
      destruct (dismiss_each_trace_grows ids reason c' (count + 1)) as [more Hmore].
      rewrite Hmore. apply in_or_app. left. apply (Hcall cb Hcb).
    + apply (Hcall' k m cb Hk); [| exact Hcb].
      rewrite Hact. rewrite dict_get_remove_other; [exact Hm |].
      destruct (String.eqb_spec k i) as [-> | Hne]; [contradiction | reflexivity].
Qed.

Lemma dismiss_each_rest (ids : list string) (reason : string)
    (c : NotificationCenter.t) (count : Z) :
  let d := fst (dismiss_each ids reason c count) in
  total_sent (stats d) = total_sent (stats c)
  /\ notification_history d = notification_history c
  /\ notification_queue d = notification_queue c
  /\ system_tray d = system_tray c
  /\ do_not_disturb d = do_not_disturb c
  /\ timer_threads d = timer_threads c.
Proof.
  revert c count. induction ids as [| i ids IH]; intros c count; simpl;
    [repeat split |].
  destruct (dismiss_other_fields i reason c) as (Ht & _ & Hdnd & Hq & Htm).
  destruct (dismiss_sent_and_rest i reason c) as (Hs & Hh & _).
  destruct (_dismiss_notification i reason c) as [c' ok].
  cbn [fst] in *.
  destruct (IH c' (if ok then count + 1 else count))
    as (Hs' & Hh' & Hq' & Ht' & Hdnd' & Htm').
  repeat split; congruence.
Qed.

Section Bulk.
Variable py : Builtins.

(** X1. [clear_all_notifications] returns the number of active
    notifications and leaves none active; each of them is counted as
    dismissed and has its dismiss callback called with the reason
    "cleared_all"; the queue, the history, the tray and the timers are
    not touched, so notifications still queued are displayed later. *)
Theorem clear_all_dismisses_every_active_notification
    (tray : SystemTrayManager.t) (c : NotificationCenter.t) :
  reachable py tray c ->
  let r := clear_all_notifications c in
  snd r = dict_len (active_notifications c)
  /\ active_notifications (fst r) = []
  /\ dismissed_count (stats (fst r))
     = dismissed_count (stats c) + dict_len (active_notifications c)
  /\ total_sent (stats (fst r)) = total_sent (stats c)
  /\ (forall k n cb, dict_get k (active_notifications c) = Some n ->
        DesktopNotification.dismiss_callback n = Some cb ->
        In (DismissCallbackCalled (DesktopNotification.id n) "cleared_all")
           (trace (fst r)))
  /\ notification_queue (fst r) = notification_queue c
  /\ notification_history (fst r) = notification_history c
  /\ system_tray (fst r) = system_tray c
  /\ timer_threads (fst r) = timer_threads c.
Proof.
  intros Hreach r.
  destruct (reachable_Accounted py _ _ Hreach) as [[Hnd _] _ _ _].
  destruct (dismiss_each_spec (dict_keys (active_notifications c)) "cleared_all"
              c 0 Hnd Hnd (incl_refl _)) as (_ & Hact & Hcnt & Hcall).
  destruct (dismiss_each_rest (dict_keys (active_notifications c)) "cleared_all"
              c 0) as (Hs & Hh & Hq & Ht & _ & Htm).
  destruct (clear_all_fields c) as (Hempty & _).
  unfold r, clear_all_notifications. cbn [fst snd].
  split; [reflexivity |]. split; [exact Hempty |].
  split; [cbn; rewrite Hcnt; unfold dict_len, dict_keys; rewrite length_map; lia |].
  split; [exact Hs |].
  split; [| repeat split; assumption].
  intros k n cb Hget Hcb. cbn. apply in_or_app. left.
  apply (Hcall k n cb); [| exact Hget | exact Hcb].
  unfold dict_keys. apply in_map_iff. exists (k, n).
  split; [reflexivity | apply dict_get_In, Hget].
Qed.

(** X2. [dismiss_group] dismisses exactly the active notifications of the
    group: it returns their number, the active set afterwards is the old
    one without them, in the same order, each is counted as dismissed and
    has its callback called with the reason "group_dismissed"; a
    notification without a group id belongs to no group. *)
Theorem dismiss_group_dismisses_exactly_the_group
    (tray : SystemTrayManager.t) (c : NotificationCenter.t) (group_id : string) :
  reachable py tray c ->
  let members := filter (in_group group_id) (active_notifications c) in
  let r := dismiss_group group_id c in
  snd r = Z.of_nat (List.length members)
  /\ active_notifications (fst r)
     = filter (fun kv => negb (in_group group_id kv)) (active_notifications c)
  /\ dismissed_count (stats (fst r))
     = dismissed_count (stats c) + Z.of_nat (List.length members)
  /\ (forall k n cb, In (k, n) members ->
        DesktopNotification.dismiss_callback n = Some cb ->
        In (DismissCallbackCalled (DesktopNotification.id n) "group_dismissed")
           (trace (fst r)))
  /\ (forall k n, In (k, n) (active_notifications c) ->
        DesktopNotification.group_id n = None ->
        In (k, n) (active_notifications (fst r)))
  /\ notification_queue (fst r) = notification_queue c
  /\ notification_history (fst r) = notification_history c.
Proof.
  intros Hreach members r.
  destruct (reachable_Accounted py _ _ Hreach) as [[Hnd _] _ _ _].
  assert (Hmnd : NoDup (dict_keys members)) by apply filter_keys_NoDup, Hnd.
  assert (Hincl : incl (dict_keys members) (dict_keys (active_notifications c))).
  { intros k Hk. unfold dict_keys in *. apply in_map_iff in Hk.
    destruct Hk as (kv & Hfst & Hin). apply filter_In in Hin.
    apply in_map_iff. exists kv. tauto. }
  destruct (dismiss_each_spec (dict_keys members) "group_dismissed" c 0
              Hmnd Hnd Hincl) as (Hret & Hact & Hcnt & Hcall).
  destruct (dismiss_each_rest (dict_keys members) "group_dismissed" c 0)
    as (_ & Hh & Hq & _).
  assert (Hlen : List.length (dict_keys members) = List.length members)
    by apply length_map.
  assert (Hleft : active_notifications (fst r)
                  = filter (fun kv => negb (in_group group_id kv))
                      (active_notifications c)).
  { unfold r, dismiss_group. fold members. rewrite Hact.
    apply filter_ext_in. intros [k n] Hin. f_equal. simpl.
    destruct (in_group group_id (k, n)) eqn:Hg.
    - apply existsb_exists. exists k. split; [| apply String.eqb_refl].
      unfold dict_keys. apply in_map_iff. exists (k, n).
      split; [reflexivity |]. apply filter_In. split; assumption.
    - destruct (existsb (String.eqb k) (dict_keys members)) eqn:Hex;
        [| reflexivity].
      apply existsb_exists in Hex. destruct Hex as (k' & Hk' & Heq).
      apply String.eqb_eq in Heq. subst k'.
      unfold dict_keys in Hk'. apply in_map_iff in Hk'.
      destruct Hk' as ([k' n'] & Hfst & Hmem). simpl in Hfst. subst k'.
      apply filter_In in Hmem. destruct Hmem as [Hin' Hg'].
      rewrite (NoDup_keys_same_value k n n' _ Hnd Hin Hin') in Hg.
      congruence. }
  unfold r, dismiss_group in *. fold members in Hleft |- *.
  split; [rewrite Hret, Hlen; lia |]. split; [exact Hleft |].
  split; [rewrite Hcnt, Hlen; reflexivity |].
  split; [| split; [| split; assumption]].
  - intros k n cb Hmem Hcb. apply (Hcall k n cb); [| | exact Hcb].
    + unfold dict_keys. apply in_map_iff. exists (k, n). split; [reflexivity | exact Hmem].
    + apply In_dict_get; [exact Hnd |]. apply filter_In in Hmem. apply Hmem.
  - intros k n Hin Hnone. rewrite Hleft. apply filter_In. split; [exact Hin |].
    unfold in_group. simpl. rewrite Hnone. reflexivity.
Qed.

(** X3. What [get_notification_stats] reports adds up: the call changes
    nothing, and in every reachable state the active notifications and
    the dismissed ones together are at most the notifications sent, the
    history is no longer than the number sent, and the active
    notifications have pairwise distinct ids, each stored under its own
    id. *)
Theorem stats_account_for_every_notification (tray : SystemTrayManager.t)
    (c : NotificationCenter.t) :
  reachable py tray c ->
  let '(st, (active_count, queue_size, history_count, dnd)) :=
    get_notification_stats c in
  0 <= active_count
  /\ 0 <= dismissed_count st
  /\ active_count + dismissed_count st <= total_sent st
  /\ history_count <= total_sent st
  /\ active_count = Z.of_nat (List.length (get_active_notifications c))
  /\ queue_size
     = Z.of_nat (List.length (PriorityQueue.queue (notification_queue c)))
  /\ NoDup (map DesktopNotification.id (get_active_notifications c))
  /\ (forall n, In n (get_active_notifications c) ->
        dict_get (DesktopNotification.id n) (active_notifications c) = Some n).
Proof.
  intros Hreach.
  destruct (reachable_Accounted py _ _ Hreach) as [[Hnd Hid] Hd Hs Hh].
  unfold get_notification_stats, get_active_notifications, dict_values.
  assert (Hids : map DesktopNotification.id (map snd (active_notifications c))
                 = dict_keys (active_notifications c)).
  { unfold dict_keys. rewrite map_map. apply map_ext_in.
    intros [k n] Hin. simpl. apply Hid, Hin. }
  split; [unfold dict_len; lia |]. split; [exact Hd |]. split; [exact Hs |].
  split; [exact Hh |].
  split; [unfold dict_len; rewrite length_map; reflexivity |].
  split; [reflexivity |]. split; [rewrite Hids; exact Hnd |].
  intros n Hin. apply in_map_iff in Hin. destruct Hin as ([k m] & Heq & Hin).
  simpl in Heq. subst m. rewrite (Hid k n Hin).
  apply In_dict_get; assumption.
Qed.
End Bulk.

(** ** Timer threads *)





Lemma set_do_not_disturb_timers (enabled : bool) (duration_minutes : option Z)
    (c : NotificationCenter.t) :
  timer_threads (set_do_not_disturb enabled duration_minutes c)
  = match duration_minutes with
    | Some d =>
        if enabled && negb (d =? 0)
        then (timer_threads c ++ [DisableDnd d])%list
        else timer_threads c
    | None => timer_threads c
    end.
Proof.
  unfold set_do_not_disturb. destruct enabled, duration_minutes as [d |];
    try reflexivity.
  destruct (d =? 0); reflexivity.
Qed.

Section Timers.
Variable py : Builtins.






(** X5. Do-not-disturb without an end.  [set_do_not_disturb(True)] with
    no duration or with the duration 0 starts no timer; with a negative
    duration it starts one whose [time.sleep] raises at once, so that its
    wake-up leaves do-not-disturb on and only takes the thread off the
    list.  Switching do-not-disturb off starts no timer either. *)
Theorem do_not_disturb_without_an_end (c : NotificationCenter.t) (d : Z) :
  d < 0 ->
  timer_threads (set_do_not_disturb true None c) = timer_threads c
  /\ timer_threads (set_do_not_disturb true (Some 0) c) = timer_threads c
  /\ trace (set_do_not_disturb true (Some 0) c)
     = (trace c ++ [Log logging.INFO "Do not disturb enabled"])%list
  /\ (forall duration_minutes,
        timer_threads (set_do_not_disturb false duration_minutes c)
        = timer_threads c)
  /\ (let c1 := set_do_not_disturb true (Some d) c in
      let k := List.length (timer_threads c) in
      timer_threads c1 = (timer_threads c ++ [DisableDnd d])%list
      /\ timer_fire k c1 = set_timer_threads (timer_threads c) c1
      /\ do_not_disturb (timer_fire k c1) = true).
Proof.
  intros Hd. split; [reflexivity |]. split; [reflexivity |].
  split; [reflexivity |].
  split; [intros [x |]; reflexivity |].
  cbv zeta.
  assert (Ht : timer_threads (set_do_not_disturb true (Some d) c)
               = (timer_threads c ++ [DisableDnd d])%list).
  { rewrite set_do_not_disturb_timers. destruct (Z.eqb_spec d 0); [lia |].
    reflexivity. }
  assert (Hfire : timer_fire (List.length (timer_threads c))
                    (set_do_not_disturb true (Some d) c)
                  = set_timer_threads (timer_threads c)
                      (set_do_not_disturb true (Some d) c)).
  { unfold timer_fire. rewrite Ht.
    rewrite nth_error_app2 by lia. rewrite Nat.sub_diag. cbn [nth_error].
    destruct (Z.ltb_spec (d * 60) 0); [| lia].
    rewrite firstn_app, Nat.sub_diag, firstn_all, app_nil_r.
    rewrite skipn_app, skipn_all2 by lia.
    replace (S (List.length (timer_threads c)) - List.length (timer_threads c))%nat
      with 1%nat by lia.
    cbn [firstn skipn]. rewrite !app_nil_r. reflexivity. }
  split; [exact Ht |]. split; [exact Hfire |].
  rewrite Hfire. unfold set_do_not_disturb.
  destruct (negb (d =? 0)); reflexivity.
Qed.


(** X7. Displaying a notification whose id is already active puts it in
    the place of the active one without a dismissal: the active set keeps
    its size, the dismissed counter stays, and no dismiss callback is
    called; the history and the sent counter get the new notification. *)
Theorem display_overwrites_an_active_id (c : NotificationCenter.t)
    (e : PriorityQueue.entry) (old : DesktopNotification.t) :
  processing_thread c = Some (Promoting e) ->
  dict_get (DesktopNotification.id (snd e)) (active_notifications c) = Some old ->
  let c1 := worker_step py c in
  dict_get (DesktopNotification.id (snd e)) (active_notifications c1)
  = Some (snd e)
  /\ dict_len (active_notifications c1) = dict_len (active_notifications c)
  /\ dict_keys (active_notifications c1) = dict_keys (active_notifications c)
  /\ dismissed_count (stats c1) = dismissed_count (stats c)
  /\ total_sent (stats c1) = total_sent (stats c) + 1
  /\ (exists more,
        trace c1 = (trace c ++ more)%list
        /\ forall i r, ~ In (DismissCallbackCalled i r) more).
Proof.
  intros Ht Hold c1.
  destruct (worker_step_display py c e Ht) as (_ & Hact & _).
  fold c1 in Hact.
  assert (Hin : dict_contains (DesktopNotification.id (snd e))
                  (active_notifications c) = true).
  { unfold dict_contains. rewrite Hold. reflexivity. }
  split; [rewrite Hact; apply dict_get_set_same |].
  split; [rewrite Hact; unfold dict_len;
          rewrite (dict_set_present_length _ _ _ Hin); reflexivity |].
  split; [rewrite Hact, dict_set_keys, Hin; reflexivity |].
  unfold c1, worker_step. rewrite Ht. destruct e as [k n]. cbn [snd] in *.
  unfold _display_notification.
  destruct (DesktopNotification.duration n >? 0);
    cbn [stats set_stats log set_trace set_timer_threads notification_queue
         set_system_tray set_notification_history set_active_notifications
         trace];
    destruct (PriorityQueue.task_done (notification_queue c));
    cbn; (split; [reflexivity |]); (split; [reflexivity |]);
    rewrite <- ?app_assoc; eexists; (split; [reflexivity |]);
    intros i r Hbad; simpl in Hbad;
    repeat destruct Hbad as [Hbad | Hbad]; try discriminate Hbad; exact Hbad.
Qed.
End Timers.

(** ** Stopping, and a tray that was never created *)

Section Stop.
Variable py : Builtins.

(** A call that passes the do-not-disturb gate leaves the new entry in the
    queue, whether [put] raises or not. *)
Lemma show_notification_queues (now : Z) (n : DesktopNotification.t)
    (c : NotificationCenter.t) :
  blocked_by_dnd (with_generated_id py now n) c = false ->
  Permutation
    (PriorityQueue.queue
       (notification_queue (fst (show_notification py now n c))))
    (queue_entry (with_generated_id py now n)
       :: PriorityQueue.queue (notification_queue c)).
Proof.
  intros Hopen.
  destruct (show_notification_passing py now n c Hopen)
    as (d & _ & _ & _ & Hq & Hshow).
  cbv zeta in Hshow.
  pose proof (put_Permutation py (queue_entry (with_generated_id py now n))
                (notification_queue d)) as Hperm.
  rewrite Hq in Hperm at 2. rewrite Hshow.
  destruct (snd (PriorityQueue.put py _ (notification_queue d))); exact Hperm.
Qed.

Lemma exited_stays (ops : list Op) :
  forall c : NotificationCenter.t,
    processing_thread c = Some Exited ->
    processing_thread (run py ops c) = Some Exited
    /\ notification_history (run py ops c) = notification_history c
    /\ total_sent (stats (run py ops c)) = total_sent (stats c)
    /\ incl (active_notifications (run py ops c)) (active_notifications c).
Proof.
  induction ops as [| o ops IH]; intros c Ht.
  - repeat split; try assumption. apply incl_refl.
  - assert (Hstep : processing_thread (step py o c) = Some Exited
                    /\ notification_history (step py o c) = notification_history c
                    /\ total_sent (stats (step py o c)) = total_sent (stats c)
                    /\ incl (active_notifications (step py o c))
                         (active_notifications c)).
    { destruct (o) eqn:Eo;
        try (rewrite <- Eo;
             assert (Hne : o <> WorkerStep) by (rewrite Eo; discriminate);
             destruct (frame_step py o c Hne) as (_ & Hth & Hh & _ & Hi & _);
             destruct (dismissals_step py o c Hne) as (_ & Hs & _);
             repeat split; congruence || assumption).
      simpl. rewrite (worker_step_exited py c Ht).
      repeat split; try assumption. apply incl_refl. }
    destruct Hstep as (Ht1 & Hh1 & Hs1 & Hi1).
    destruct (IH (step py o c) Ht1) as (Ht2 & Hh2 & Hs2 & Hi2).
    change (run py (o :: ops) c) with (run py ops (step py o c)).
    repeat split; try congruence.
    eapply incl_tran; eassumption.
Qed.

(** X8. [stop] ends the delivery at the head of the worker's loop, not
    before.  A worker waiting at the head of its loop returns on its next
    turn, whatever is queued; a worker that is past the capacity test
    still displays the notification it holds.  Once the worker has
    returned nothing is displayed any more, whatever is called: the
    history and the sent counter stay as they are, the active set can only
    shrink, and [show_notification] goes on accepting notifications into
    a queue that nobody reads. *)
Theorem stop_ends_delivery_at_the_loop_head (c : NotificationCenter.t) :
  is_active (stop c) = false
  /\ (processing_thread c = Some Polling ->
      worker_step py (stop c) = set_processing_thread (Some Exited) (stop c))
  /\ (forall e, processing_thread c = Some (Promoting e) ->
        dict_get (DesktopNotification.id (snd e))
          (active_notifications (worker_step py (stop c))) = Some (snd e)
        /\ total_sent (stats (worker_step py (stop c)))
           = total_sent (stats c) + 1)
  /\ (processing_thread c = Some Exited ->
      forall ops,
        processing_thread (run py ops c) = Some Exited
        /\ notification_history (run py ops c) = notification_history c
        /\ total_sent (stats (run py ops c)) = total_sent (stats c)
        /\ incl (active_notifications (run py ops c)) (active_notifications c))
  /\ (processing_thread c = Some Exited ->
      forall now n,
        blocked_by_dnd (with_generated_id py now n) c = false ->
        Permutation
          (PriorityQueue.queue
             (notification_queue (fst (show_notification py now n c))))
          (queue_entry (with_generated_id py now n)
             :: PriorityQueue.queue (notification_queue c))).
Proof.
  split; [reflexivity |].
  split; [intros Ht; apply worker_step_stopped; [exact Ht | reflexivity] |].
  split.
  { intros e Ht.
    destruct (worker_step_display py (stop c) e Ht) as (_ & Hact & _).
    split; [rewrite Hact; apply dict_get_set_same |].
    unfold worker_step. cbn [processing_thread stop log set_trace set_is_active].
    rewrite Ht. destruct e as [k n].
    pose proof (display_fields n (stop c)) as (_ & _ & _ & _ & _ & _ & _ & _ & Dt).
    cbv zeta in Dt.
    destruct (PriorityQueue.task_done _); cbn; exact Dt. }
  split; [intros Ht ops; apply exited_stays, Ht |].
  intros _ now n Hopen. apply show_notification_queues, Hopen.
Qed.

Lemma run_handlers_fields (hs : list (TrayIconStatus.t -> string -> Outcome))
    (status : TrayIconStatus.t) (tooltip : string) (tray : SystemTrayManager.t) :
  SystemTrayManager.is_created (SystemTrayManager.run_handlers hs status tooltip tray)
  = SystemTrayManager.is_created tray
  /\ SystemTrayManager.current_status
       (SystemTrayManager.run_handlers hs status tooltip tray)
     = SystemTrayManager.current_status tray
  /\ SystemTrayManager.notification_queue
       (SystemTrayManager.run_handlers hs status tooltip tray)
     = SystemTrayManager.notification_queue tray
  /\ SystemTrayManager.status_update_handlers
       (SystemTrayManager.run_handlers hs status tooltip tray)
     = SystemTrayManager.status_update_handlers tray.
Proof.
  revert tray. induction hs as [| h hs IH]; intros tray; simpl;
    [repeat split |].
  destruct (h status tooltip); [apply IH |].
  destruct (IH (SystemTrayManager.log logging.ERROR
                  ("Error in status update handler: " ++ e) tray))
    as (H1 & H2 & H3 & H4).
  repeat split; assumption.
Qed.

(** A tray that is not created turns both calls down with a warning. *)
Lemma tray_not_created (tray : SystemTrayManager.t) :
  SystemTrayManager.is_created tray = false ->
  (forall status tooltip,
     SystemTrayManager.update_status status tooltip tray
     = SystemTrayManager.log logging.WARNING
         "Cannot update status - tray not created" tray)
  /\ (forall n,
        SystemTrayManager.show_notification n tray
        = SystemTrayManager.log logging.WARNING
            "Cannot show notification - tray not created" tray).
Proof.
  intros Hno. split; intros; unfold SystemTrayManager.update_status,
    SystemTrayManager.show_notification; rewrite Hno; reflexivity.
Qed.

Lemma step_tray_not_created (o : Op) (c : NotificationCenter.t) :
  not_a_tray_action o = true ->
  SystemTrayManager.is_created (system_tray c) = false ->
  only_logged (system_tray c) (system_tray (step py o c)).
Proof.
  intros Ho Hno.
  assert (Hrefl : only_logged (system_tray c) (system_tray c))
    by (repeat split).
  destruct o; simpl; try discriminate Ho.
  - rewrite show_notification_keeps_tray. exact Hrefl.
  - unfold show_claude_notification. rewrite show_notification_keeps_tray.
    exact Hrefl.
  - unfold show_progress_notification. rewrite show_notification_keeps_tray.
    exact Hrefl.
  - unfold show_system_status. rewrite show_notification_keeps_tray.
    destruct (tray_status_update component status) as [[ts tip] |];
      [| exact Hrefl].
    cbn. rewrite (proj1 (tray_not_created _ Hno)). repeat split.
  - unfold show_cost_alert. destruct (PrimFloat.eqb threshold 0);
      [exact Hrefl |].
    rewrite show_notification_keeps_tray. exact Hrefl.
  - unfold dismiss_notification.
    rewrite (proj1 (dismiss_other_fields notification_id reason c)). exact Hrefl.
  - destruct (dismiss_each_rest
                (dict_keys (filter (in_group group_id) (active_notifications c)))
                "group_dismissed" c 0) as (_ & _ & _ & Ht & _).
    unfold dismiss_group. rewrite Ht. exact Hrefl.
  - unfold set_do_not_disturb. destruct enabled;
      [destruct duration_minutes as [d |]; [destruct (negb (d =? 0)) |] |];
      exact Hrefl.
  - destruct (dismiss_each_rest (dict_keys (active_notifications c))
                "cleared_all" c 0) as (_ & _ & _ & Ht & _).
    unfold clear_all_notifications. cbn. rewrite Ht. exact Hrefl.
  - exact Hrefl.
  - unfold worker_step.
    destruct (processing_thread c) as [[| [k n] | [k n] |] |] eqn:Hth;
      try exact Hrefl.
    + destruct (negb (is_active c)); [exact Hrefl |].
      destruct (PriorityQueue.get py (notification_queue c)); exact Hrefl.
    + destruct (dict_len (active_notifications c) >=? max_simultaneous (config c));
        [| exact Hrefl].
      destruct (PriorityQueue.put py (k, n) (notification_queue c))
        as [q' [x |]]; exact Hrefl.
    + pose proof (display_fields n c) as (_ & _ & _ & _ & _ & _ & _ & Dt & _).
      cbv zeta in Dt.
      assert (Hsame : system_tray
                        (set_processing_thread (Some Polling)
                           match PriorityQueue.task_done
                                   (notification_queue (_display_notification n c))
                           with
                           | Some q' =>
                               set_notification_queue q' (_display_notification n c)
                           | None =>
                               log_queue_error
                                 (ValueError "task_done() called too many times")
                                 (_display_notification n c)
                           end)
                      = system_tray (_display_notification n c)).
      { destruct (PriorityQueue.task_done _); reflexivity. }
      rewrite Hsame, Dt, (proj2 (tray_not_created _ Hno)). repeat split.
  - unfold timer_fire. destruct (nth_error (timer_threads c) k) as [[i | d] |];
      [| | exact Hrefl].
    + rewrite (proj1 (dismiss_other_fields i "auto_dismissed" _)). exact Hrefl.
    + destruct (d * 60 <? 0); exact Hrefl.
Qed.

(** X9. A tray that has not been created receives nothing.  As long as
    the rest of the program leaves the tray object alone, every
    notification the center displays is turned down by the tray with a
    warning: the tray's queue and status stay what they were, while the
    center counts the notification as sent and holds it as active. *)
Theorem a_tray_not_created_receives_nothing (c : NotificationCenter.t)
    (ops : list Op) :
  SystemTrayManager.is_created (system_tray c) = false ->
  forallb not_a_tray_action ops = true ->
  only_logged (system_tray c) (system_tray (run py ops c))
  /\ (forall e, processing_thread (run py ops c) = Some (Promoting e) ->
        let c' := run py ops c in
        system_tray (worker_step py c')
        = SystemTrayManager.log logging.WARNING
            "Cannot show notification - tray not created" (system_tray c')
        /\ total_sent (stats (worker_step py c')) = total_sent (stats c') + 1
        /\ dict_get (DesktopNotification.id (snd e))
             (active_notifications (worker_step py c')) = Some (snd e)).
Proof.
  intros Hno Hops.
  assert (Hrun : only_logged (system_tray c) (system_tray (run py ops c))).
  { revert c Hno. induction ops as [| o ops IH]; intros c Hno; [repeat split |].
    simpl in Hops. apply andb_prop in Hops. destruct Hops as [Ho Hops].
    destruct (step_tray_not_created o c Ho Hno) as (H1 & H2 & H3 & H4).
    destruct (IH Hops (step py o c)) as (H1' & H2' & H3' & H4'); [congruence |].
    change (run py (o :: ops) c) with (run py ops (step py o c)).
    repeat split; congruence. }
  split; [exact Hrun |].
  intros e Ht. cbv zeta. remember (run py ops c) as c' eqn:Ec.
  assert (Hno' : SystemTrayManager.is_created (system_tray c') = false).
  { destruct Hrun as (H1 & _). congruence. }
  destruct (worker_step_display py c' e Ht) as (Hsink & Hact & _).
  split; [rewrite Hsink; apply (tray_not_created _ Hno') |].
  split; [| rewrite Hact; apply dict_get_set_same].
  unfold worker_step. rewrite Ht. destruct e as [k n].
  pose proof (display_fields n c') as (_ & _ & _ & _ & _ & _ & _ & _ & Dt).
  cbv zeta in Dt.
  destruct (PriorityQueue.task_done _); cbn; exact Dt.
Qed.
End Stop.

(** ** What [show_notification] raises, and what the helpers queue *)

Section PushRaises.
Context {A : Type}.
Variable lt : A -> A -> PyException + bool.

(** Every comparison of [siftdown] has the item that moves up on its
    left: when it raises, it is on that item and another one of the list. *)
Lemma siftdown_loop_raises (fuel : nat) :
  forall (heap : list A) (pos : nat) (item : A) (x : PyException),
    nth_error heap pos = Some item ->
    snd (heapq.siftdown_loop lt fuel heap 0 pos) = Some x ->
    exists j p, j <> pos /\ nth_error heap j = Some p /\ lt item p = inl x.
Proof.
  induction fuel as [| fuel IH]; intros heap pos item x Hitem Hx;
    cbn [heapq.siftdown_loop] in Hx; [discriminate |].
  destruct (Nat.leb_spec pos 0) as [| Hpos]; [discriminate |].
  assert (Hlen : (pos < List.length heap)%nat).
  { apply nth_error_Some. rewrite Hitem. discriminate. }
  assert (Hpp : (Nat.div2 (pos - 1) < pos)%nat)
    by (pose proof (div2_spec (pos - 1)); lia).
  rewrite Hitem in Hx.
  destruct (nth_error heap (Nat.div2 (pos - 1))) as [par |] eqn:Hpar;
    [| apply nth_error_None in Hpar; lia].
  destruct (lt item par) as [e | [|]] eqn:Hlt.
  - cbn [snd] in Hx. inversion Hx; subst e.
    exists (Nat.div2 (pos - 1)), par. split; [lia |]. split; assumption.
  - assert (Hswap : forall k,
              nth_error (heapq.swap (Nat.div2 (pos - 1)) pos heap) k
              = if (k =? Nat.div2 (pos - 1))%nat then nth_error heap pos
                else if (k =? pos)%nat then nth_error heap (Nat.div2 (pos - 1))
                else nth_error heap k).
    { intros k. apply nth_error_swap; lia. }
    destruct (IH _ _ item x
                ltac:(rewrite Hswap, Nat.eqb_refl; exact Hitem) Hx)
      as (j & p & Hj & Hp & Hraise).
    rewrite Hswap in Hp.
    destruct (Nat.eqb_spec j (Nat.div2 (pos - 1))); [contradiction |].
    destruct (Nat.eqb_spec j pos) as [-> | Hne].
    + exists (Nat.div2 (pos - 1)), p. split; [lia |]. split; assumption.
    + exists j, p. split; [exact Hne |]. split; assumption.
  - discriminate.
Qed.

Lemma heappush_raises (heap : list A) (item : A) (x : PyException) :
  snd (heapq.heappush lt heap item) = Some x ->
  exists p, In p heap /\ lt item p = inl x.
Proof.
  unfold heapq.heappush, heapq.siftdown. rewrite length_app. simpl.
  destruct (Nat.leb_spec (List.length heap + 1) (List.length heap)); [lia |].
  intros Hx.
  assert (Hitem : nth_error (heap ++ [item]) (List.length heap) = Some item).
  { rewrite nth_error_app2 by lia. rewrite Nat.sub_diag. reflexivity. }
  destruct (siftdown_loop_raises (List.length heap) (heap ++ [item])
              (List.length heap) item x Hitem Hx)
    as (j & p & Hj & Hp & Hraise).
  exists p. split; [| exact Hraise].
  assert (Hjl : (j < List.length (heap ++ [item]))%nat).
  { apply nth_error_Some. rewrite Hp. discriminate. }
  rewrite length_app in Hjl. simpl in Hjl.
  rewrite nth_error_app1 in Hp by lia. apply (nth_error_In _ _ Hp).
Qed.
End PushRaises.

Section Show.
Variable py : Builtins.

Lemma entry_lt_raises (a b : PriorityQueue.entry) (x : PyException) :
  PriorityQueue.entry_lt py a b = inl x ->
  x = TypeError unorderable
  /\ fst b = fst a
  /\ notification_eq py (snd a) (snd b) = false.
Proof.
  unfold PriorityQueue.entry_lt.
  destruct (PriorityQueue.key_eqb (fst a) (fst b)) eqn:Hk; [| discriminate].
  destruct (notification_eq py (snd a) (snd b)); [discriminate |].
  simpl. intros H. inversion H. apply key_eqb_eq in Hk.
  repeat split. symmetry. exact Hk.
Qed.

Lemma put_outcome (e : PriorityQueue.entry) (q : PriorityQueue.t) :
  match snd (PriorityQueue.put py e q) with
  | None =>
      PriorityQueue.unfinished_tasks (fst (PriorityQueue.put py e q))
      = PriorityQueue.unfinished_tasks q + 1
  | Some x =>
      PriorityQueue.unfinished_tasks (fst (PriorityQueue.put py e q))
      = PriorityQueue.unfinished_tasks q
      /\ x = TypeError unorderable
      /\ exists e', In e' (PriorityQueue.queue q)
                    /\ fst e' = fst e
                    /\ notification_eq py (snd e) (snd e') = false
  end.
Proof.
  unfold PriorityQueue.put.
  pose proof (heappush_raises (PriorityQueue.entry_lt py)
                (PriorityQueue.queue q) e) as Hraise.
  destruct (heapq.heappush (PriorityQueue.entry_lt py) (PriorityQueue.queue q) e)
    as [heap [x |]]; cbn [fst snd] in *; [| reflexivity].
  split; [reflexivity |].
  destruct (Hraise x eq_refl) as (p & Hin & Hlt).
  destruct (entry_lt_raises e p x Hlt) as (Hx & Hk & Hne).
  split; [exact Hx |]. exists p. repeat split; assumption.
Qed.

(** X10. What [show_notification] can raise.  A call that passes the
    do-not-disturb gate either returns the id, with the notification
    queued and one more unfinished task, or raises the TypeError of
    comparing two notifications; it raises only when a queued entry has
    the same priority and timestamp and is a different notification, and
    even then the new entry stays in the queue, uncounted.  Without such
    a queued entry the call returns the id. *)
Theorem show_notification_raises_only_on_a_tie (now : Z)
    (n : DesktopNotification.t) (c : NotificationCenter.t) :
  blocked_by_dnd (with_generated_id py now n) c = false ->
  let n' := with_generated_id py now n in
  let r := show_notification py now n c in
  let tasks c := PriorityQueue.unfinished_tasks (notification_queue c) in
  Permutation (PriorityQueue.queue (notification_queue (fst r)))
    (queue_entry n' :: PriorityQueue.queue (notification_queue c))
  /\ (snd r = inr (DesktopNotification.id n') /\ tasks (fst r) = tasks c + 1
      \/ snd r = inl (TypeError unorderable) /\ tasks (fst r) = tasks c
         /\ exists e, In e (PriorityQueue.queue (notification_queue c))
                      /\ fst e = fst (queue_entry n')
                      /\ notification_eq py n' (snd e) = false)
  /\ ((forall e, In e (PriorityQueue.queue (notification_queue c)) ->
         fst e <> fst (queue_entry n')) ->
      snd r = inr (DesktopNotification.id n')).
Proof.
  intros Hopen n' r tasks.
  assert (Hcases :
            snd r = inr (DesktopNotification.id n') /\ tasks (fst r) = tasks c + 1
            \/ snd r = inl (TypeError unorderable) /\ tasks (fst r) = tasks c
               /\ exists e, In e (PriorityQueue.queue (notification_queue c))
                            /\ fst e = fst (queue_entry n')
                            /\ notification_eq py n' (snd e) = false).
  { destruct (show_notification_passing py now n c Hopen)
      as (d & _ & _ & _ & Hq & Hshow).
    cbv zeta in Hshow. fold n' in Hshow.
    pose proof (put_outcome (queue_entry n') (notification_queue d)) as Hout.
    unfold r, tasks. rewrite Hshow.
    destruct (snd (PriorityQueue.put py (queue_entry n') (notification_queue d)))
      as [x |]; cbn [fst snd notification_queue set_notification_queue log
                     set_trace].
    - destruct Hout as (Htasks & -> & e & Hin & Hk & Hne).
      right. split; [reflexivity |]. split; [rewrite Htasks, Hq; reflexivity |].
      exists e. rewrite <- Hq. repeat split; assumption.
    - left. split; [reflexivity |]. rewrite Hout, Hq. reflexivity. }
  split; [apply (show_notification_queues py now n c Hopen) |].
  split; [exact Hcases |].
  intros Hfree. destruct Hcases as [[Hret _] | (_ & _ & e & Hin & Hk & _)];
    [exact Hret | elim (Hfree e Hin Hk)].
Qed.





Lemma requeue_cycle_tasks (c : NotificationCenter.t) :
  processing_thread c = Some Polling -> is_active c = true ->
  dict_len (active_notifications c) >= max_simultaneous (config c) ->
  sound_heap (PriorityQueue.queue (notification_queue c)) ->
  PriorityQueue.queue (notification_queue c) <> [] ->
  let c' := requeue_cycle py c in
  processing_thread c' = Some Polling
  /\ is_active c' = true
  /\ active_notifications c' = active_notifications c
  /\ config c' = config c
  /\ sound_heap (PriorityQueue.queue (notification_queue c'))
  /\ PriorityQueue.queue (notification_queue c') <> []
  /\ PriorityQueue.unfinished_tasks (notification_queue c')
     = PriorityQueue.unfinished_tasks (notification_queue c) + 1.
Proof.
  intros Ht Ha Hfull Hsound Hne. unfold requeue_cycle.
  destruct (get_sound py (notification_queue c) Hsound Hne)
    as (e & q' & Hget & Hperm & Hsound' & Htasks & _).
  rewrite (worker_step_poll py c e q' Ht Ha Hget).
  rewrite (worker_step_full py _ e) by (try reflexivity; exact Hfull).
  cbn [notification_queue set_processing_thread set_notification_queue].
  destruct (put_sound py e q') as (Hnone & Hs2 & Hp2 & Ht2).
  { apply (tie_free_Permutation _ _ Hperm), Hsound. }
  { apply Hsound'. }
  rewrite Hnone. cbn.
  repeat split; try assumption; try apply Hs2.
  - intros Hnil. rewrite Hnil in Hp2. apply Permutation_nil in Hp2.
    discriminate.
  - rewrite Ht2, Htasks. reflexivity.
Qed.

(** X13. Every failed delivery attempt leaves one unfinished task.  With
    a full active set the worker takes an entry and puts it back; the
    [put] counts a new task and no [task_done] answers the [get].  After
    [k] such attempts on a sound queue the count of unfinished tasks is
    [k] higher, with the queue holding the same entries; a display then
    takes off one only. *)
Theorem requeue_leaves_unfinished_tasks (c : NotificationCenter.t) (k : nat) :
  processing_thread c = Some Polling -> is_active c = true ->
  dict_len (active_notifications c) >= max_simultaneous (config c) ->
  sound_heap (PriorityQueue.queue (notification_queue c)) ->
  PriorityQueue.queue (notification_queue c) <> [] ->
  let c' := Nat.iter k (requeue_cycle py) c in
  PriorityQueue.unfinished_tasks (notification_queue c')
  = PriorityQueue.unfinished_tasks (notification_queue c) + Z.of_nat k
  /\ PriorityQueue.qsize (notification_queue c')
     = PriorityQueue.qsize (notification_queue c)
  /\ processing_thread c' = Some Polling
  /\ active_notifications c' = active_notifications c.
Proof.
  intros Ht Ha Hfull Hsound Hne.
  assert (Hall : let c' := Nat.iter k (requeue_cycle py) c in
            processing_thread c' = Some Polling
            /\ is_active c' = true
            /\ active_notifications c' = active_notifications c
            /\ config c' = config c
            /\ sound_heap (PriorityQueue.queue (notification_queue c'))
            /\ PriorityQueue.queue (notification_queue c') <> []
            /\ PriorityQueue.unfinished_tasks (notification_queue c')
               = PriorityQueue.unfinished_tasks (notification_queue c) + Z.of_nat k
            /\ List.length (PriorityQueue.queue (notification_queue c'))
               = List.length (PriorityQueue.queue (notification_queue c))).
  { induction k as [| k IH]; cbv zeta; [simpl Nat.iter | rewrite Nat.iter_succ].
    - split; [exact Ht |]. split; [exact Ha |].
      split; [reflexivity |]. split; [reflexivity |]. split; [exact Hsound |].
      split; [exact Hne |]. split; [simpl; lia | reflexivity].
    - cbv zeta in IH. destruct IH as (Ht' & Ha' & Hact' & Hc' & Hs' & Hne' & Hn' & Hl').
      destruct (requeue_cycle_tasks _ Ht' Ha') as (H1 & H2 & H3 & H4 & H5 & H6 & H7);
        [rewrite Hact', Hc'; exact Hfull | exact Hs' | exact Hne' |].
      destruct (requeue_cycle_spec py _ (or_introl Ht')) as (_ & _ & _ & _ & _ & Hp);
        [rewrite Hact', Hc'; exact Hfull | exact Hs' |].
      cbv zeta in H1, H2, H3, H4, H5, H6, H7 |- *.
      split; [exact H1 |]. split; [exact H2 |].
      split; [rewrite H3; exact Hact' |]. split; [rewrite H4; exact Hc' |].
      split; [exact H5 |].
      split; [exact H6 |]. split; [rewrite H7, Hn'; lia |].
      rewrite (Permutation_length Hp). exact Hl'. }
  cbv zeta in Hall. destruct Hall as (H1 & _ & H3 & _ & _ & _ & H7 & H8).
  cbv zeta. split; [exact H7 |].
  split; [unfold PriorityQueue.qsize; rewrite H8; reflexivity |].
  split; assumption.
Qed.
End Show.

(** ** The convenience classes and the action handlers *)

Section Convenience.
Variable py : Builtins.

(** X14. What the Claude helper shows.  Each method is
    [show_claude_notification] on a fixed operation and status, counted in
    [claude_notifications].  The message of a completion is built from the
    keys tokens_used and cost_estimate alone: [code_analysis_completed]
    shows its tokens and cost but neither the file nor the issues found,
    and [test_generation_completed] and [refactoring_suggestions_ready],
    which pass neither key, always show "Tokens: 0" and the cost 0.0
    whatever their arguments.  None of the four notifications carries an
    action (the operation is never analyze_code). *)
Theorem claude_helper_shows_tokens_and_cost_only (now : Z) (file_name : string)
    (issues_found tokens_used test_count suggestions_count : Z)
    (cost coverage : float) (nc : NotificationCenter.t) :
  let counted :=
    set_stats (mkStats (total_sent (stats nc)) (dismissed_count (stats nc))
                 (action_clicks (stats nc)) (claude_notifications (stats nc) + 1)
                 (system_notifications (stats nc))) nc in
  let nothing := "Analysis complete. Tokens: 0, Cost: $"
                   ++ format_fixed py 3 (PyFloat 0%float) in
  (exists n,
     ClaudeNotificationHelper.code_analysis_started py now file_name nc
     = show_notification py now n counted
     /\ DesktopNotification.message n = "Starting code_analysis..."
     /\ DesktopNotification.type n = NotificationType.CLAUDE_ACTIVITY
     /\ DesktopNotification.actions n = [])
  /\ (exists n,
        ClaudeNotificationHelper.code_analysis_completed py now file_name
          issues_found tokens_used cost nc
        = show_notification py now n counted
        /\ DesktopNotification.message n
           = "Analysis complete. Tokens: " ++ str_of_int tokens_used
               ++ ", Cost: $" ++ format_fixed py 3 (PyFloat cost)
        /\ DesktopNotification.type n = NotificationType.SUCCESS
        /\ DesktopNotification.actions n = [])
  /\ (exists n,
        ClaudeNotificationHelper.test_generation_completed py now test_count
          coverage nc
        = show_notification py now n counted
        /\ DesktopNotification.message n = nothing
        /\ DesktopNotification.type n = NotificationType.SUCCESS
        /\ DesktopNotification.actions n = [])
  /\ (exists n,
        ClaudeNotificationHelper.refactoring_suggestions_ready py now
          suggestions_count nc
        = show_notification py now n counted
        /\ DesktopNotification.message n = nothing
        /\ DesktopNotification.type n = NotificationType.SUCCESS
        /\ DesktopNotification.actions n = []).
Proof.
  cbv zeta.
  split; [| split; [| split]];
    (eexists; split; [reflexivity | split; [reflexivity | split; reflexivity]]).
Qed.

Lemma update_status_created (status : TrayIconStatus.t) (tooltip : string)
    (tray : SystemTrayManager.t) :
  SystemTrayManager.is_created tray = true ->
  SystemTrayManager.current_status
    (SystemTrayManager.update_status status tooltip tray) = status
  /\ SystemTrayManager.notification_queue
       (SystemTrayManager.update_status status tooltip tray)
     = SystemTrayManager.notification_queue tray
  /\ SystemTrayManager.is_created
       (SystemTrayManager.update_status status tooltip tray) = true.
Proof.
  intros Hyes. unfold SystemTrayManager.update_status. rewrite Hyes. cbn [negb].
  match goal with
  | |- context [SystemTrayManager.run_handlers ?hs ?s ?t ?tr] =>
      destruct (run_handlers_fields hs s t tr) as (H1 & H2 & H3 & _)
  end.
  rewrite H1, H2, H3. repeat split.
Qed.

(** X15. What the system helper does to the tray.  [claude_connected]
    and [claude_disconnected] set the status of a created tray to ACTIVE
    and to OFFLINE before they queue their notification;
    [rate_limit_warning] and [offline_mode_enabled] leave the tray as it
    is.  On a tray that is not created the two first only add a warning
    to the tray's log.  [claude_disconnected] without a reason, or with an
    empty one, says "Connection lost". *)
Theorem system_helper_sets_the_tray_status (now : Z) (text : string)
    (reason : option string) (cached_responses : Z) (usage_percentage : float)
    (nc : NotificationCenter.t) :
  let status_after r := SystemTrayManager.current_status (system_tray (fst r)) in
  (SystemTrayManager.is_created (system_tray nc) = true ->
   status_after (SystemNotificationHelper.claude_connected py now text nc)
   = TrayIconStatus.ACTIVE
   /\ status_after (SystemNotificationHelper.claude_disconnected py now reason nc)
      = TrayIconStatus.OFFLINE)
  /\ (SystemTrayManager.is_created (system_tray nc) = false ->
      only_logged (system_tray nc)
        (system_tray (fst (SystemNotificationHelper.claude_connected py now
                             text nc)))
      /\ only_logged (system_tray nc)
           (system_tray (fst (SystemNotificationHelper.claude_disconnected py
                                now reason nc))))
  /\ system_tray (fst (SystemNotificationHelper.rate_limit_warning py now
                         usage_percentage nc)) = system_tray nc
  /\ system_tray (fst (SystemNotificationHelper.offline_mode_enabled py now
                         cached_responses nc)) = system_tray nc
  /\ (exists n c1,
        SystemNotificationHelper.claude_disconnected py now reason nc
        = show_notification py now n c1
        /\ DesktopNotification.id n = "system_claude_disconnected"
        /\ DesktopNotification.type n = NotificationType.WARNING
        /\ DesktopNotification.message n
           = match reason with
             | Some r => if String.eqb r "" then "Connection lost"
                         else "Reason: " ++ r
             | None => "Connection lost"
             end).
Proof.
  cbv zeta.
  unfold SystemNotificationHelper.claude_connected,
    SystemNotificationHelper.claude_disconnected,
    SystemNotificationHelper.rate_limit_warning,
    SystemNotificationHelper.offline_mode_enabled, show_system_status.
  rewrite !show_notification_keeps_tray.
  split; [| split; [| split; [| split]]].
  - intros Hyes. split; cbn; apply update_status_created, Hyes.
  - intros Hno. split; cbn; rewrite (proj1 (tray_not_created _ Hno));
      repeat split.
  - reflexivity.
  - reflexivity.
  - eexists. eexists. split; [reflexivity |]. split; [reflexivity |].
    split; [reflexivity |].
    destruct reason as [r |]; [| reflexivity].
    destruct (String.eqb_spec r "") as [-> | Hne]; [reflexivity |].
    cbn. reflexivity.
Qed.

(** X16. The retry action finds its operation again.  The notification
    that [show_claude_notification] builds for a failed operation carries
    the action "retry" with [_retry_claude_operation] as callback, and
    that method, given the notification, logs the operation: it reads it
    from the second tag.  Given a notification with fewer than two tags it
    logs "unknown". *)
Theorem retry_action_names_the_operation (now : Z) (operation : string)
    (details : list (string * PyValue)) (action : NotificationAction.t)
    (n : DesktopNotification.t) (c : NotificationCenter.t) :
  let failed := claude_notification py now operation "failed" details in
  map NotificationAction.id (DesktopNotification.actions failed)
  = ["retry"; "view_error"]
  /\ map NotificationAction.callback (DesktopNotification.actions failed)
     = [Some "_retry_claude_operation"; Some "_view_error_details"]
  /\ action_handler "_retry_claude_operation" = Some _retry_claude_operation
  /\ _retry_claude_operation failed action c
     = log logging.INFO ("Retrying Claude operation: " ++ operation) c
  /\ ((List.length (DesktopNotification.tags n) < 2)%nat ->
      _retry_claude_operation n action c
      = log logging.INFO "Retrying Claude operation: unknown" c).
Proof.
  cbv zeta.
  assert (Hfailed : claude_notification py now operation "failed" details
                    = DesktopNotification.set_actions
                        [NotificationAction.make "retry" "Retry"
                           "_retry_claude_operation";
                         NotificationAction.make "view_error" "View Error"
                           "_view_error_details"]
                        (DesktopNotification.mk
                           ("claude_" ++ operation ++ "_"
                              ++ str_of_int (Z.quot now 1000000))
                           ("Claude " ++ str_title py operation ++ " Failed")
                           ("Operation failed: "
                              ++ py_str py (py_get "error" (PyStr "Unknown error")
                                              details))
                           NotificationType.ERROR NotificationPriority.NORMAL
                           now 5000 true None (Some "claude_error") None []
                           None None None None (Some "claude_operations") None
                           "claude" ["claude"; operation] details)).
  { unfold claude_notification. cbn. reflexivity. }
  rewrite Hfailed.
  split; [reflexivity |]. split; [reflexivity |]. split; [reflexivity |].
  split; [reflexivity |].
  intros Hlen. unfold _retry_claude_operation.
  destruct (Z.ltb_spec 1 (Z.of_nat (List.length (DesktopNotification.tags n))));
    [lia | reflexivity].
Qed.
End Convenience.

(** * Properties of the tray manager *)

(** ** Searching the menu *)

Lemma item_ids_head (x : TrayMenuItem.t) :
  item_ids x = TrayMenuItem.id x :: tl (item_ids x).
Proof. destruct x. reflexivity. Qed.

Section MenuUpdate.
Variable item_id : string.
Variable kwargs : list TrayMenuItem.Attr.

Let at_update (x : TrayMenuItem.t) (rest : list TrayMenuItem.t) :=
  match SystemTray.update_in item_id kwargs x with
  | Some x' => Some (x' :: rest)
  | None => None
  end.

Lemma first_hit_update_None (items : list TrayMenuItem.t) :
  Forall (fun x => SystemTray.update_in item_id kwargs x = None
                   <-> ~ In item_id (item_ids x)) items ->
  SystemTray.first_hit at_update items = None
  <-> ~ In item_id (menu_ids items).
Proof.
  induction 1 as [| x rest Hx _ IH]; simpl; [tauto |]. cbv beta in Hx.
  unfold menu_ids in *. rewrite in_app_iff. unfold at_update at 1.
  destruct (SystemTray.update_in item_id kwargs x) as [x' |] eqn:E.
  - split; [discriminate |]. intros Hno.
    exfalso. pose proof (proj2 Hx) as Hback. cbv beta in Hback.
      try rewrite E in Hback.
      assert (Hn := Hback ltac:(tauto)). discriminate Hn.
  - destruct (SystemTray.first_hit at_update rest) eqn:E2.
    + split; [discriminate |]. intros Hno.
      exfalso. pose proof (proj2 IH) as Hback.
      try rewrite E2 in Hback.
      assert (Hn := Hback ltac:(tauto)). discriminate Hn.
    + split; [| reflexivity]. intros _ [Hin | Hin].
      * apply (proj1 Hx); [reflexivity | exact Hin].
      * apply (proj1 IH); [reflexivity | exact Hin].
Qed.

(** The update fails exactly when the id is nowhere in the item. *)
Lemma update_in_None (x : TrayMenuItem.t) :
  SystemTray.update_in item_id kwargs x = None <-> ~ In item_id (item_ids x).
Proof.
  induction x as [i l ty e v c h | i l ty e v c items h IH] using menu_item_ind;
    cbn [SystemTray.update_in item_ids].
  - destruct (String.eqb_spec i item_id) as [-> | Hne]; simpl.
    + split; [discriminate | intros H; elim H; left; reflexivity].
    + split; [intros _ [H | []]; contradiction | reflexivity].
  - destruct (String.eqb_spec i item_id) as [-> | Hne].
    + split; [discriminate | intros H; elim H; left; reflexivity].
    + pose proof (first_hit_update_None items IH) as Hlist.
      fold at_update.
      destruct (SystemTray.first_hit at_update items) eqn:E.
      * split; [discriminate |]. intros Hno.
        exfalso. pose proof (proj2 Hlist) as Hback.
      try rewrite E in Hback.
      assert (Hn := Hback ltac:(intros Hin; apply Hno; right; exact Hin)).
      discriminate Hn.
      * split; [| reflexivity]. intros _ [H | Hin]; [contradiction |].
        apply (proj1 Hlist); [reflexivity | exact Hin].
Qed.

Lemma update_item_None (items : list TrayMenuItem.t) :
  SystemTray.update_item item_id kwargs items = None
  <-> ~ In item_id (menu_ids items).
Proof.
  apply first_hit_update_None. apply Forall_forall. intros x _.
  apply update_in_None.
Qed.

End MenuUpdate.

Section MenuRemove.
Variable item_id : string.

Let at_remove (x : TrayMenuItem.t) (rest : list TrayMenuItem.t) :=
  if String.eqb (TrayMenuItem.id x) item_id then Some rest
  else
    match SystemTray.remove_in item_id x with
    | Some x' => Some (x' :: rest)
    | None => None
    end.

Lemma first_hit_remove_None (items : list TrayMenuItem.t) :
  Forall (fun x => SystemTray.remove_in item_id x = None
                   <-> ~ In item_id (tl (item_ids x))) items ->
  SystemTray.first_hit at_remove items = None
  <-> ~ In item_id (menu_ids items).
Proof.
  induction 1 as [| x rest Hx _ IH]; simpl; [tauto |]. cbv beta in Hx.
  unfold menu_ids in *. rewrite in_app_iff, (item_ids_head x).
  unfold at_remove at 1.
  destruct (String.eqb_spec (TrayMenuItem.id x) item_id) as [Heq | Hne].
  - split; [discriminate |]. intros Hno. elim Hno. left. left. exact Heq.
  - destruct (SystemTray.remove_in item_id x) as [x' |] eqn:E.
    + split; [discriminate |]. intros Hno.
      exfalso. pose proof (proj2 Hx) as Hback. cbv beta in Hback.
      try rewrite E in Hback.
      assert (Hn := Hback ltac:(intros Hin; apply Hno; left; right; exact Hin)).
      discriminate Hn.
    + destruct (SystemTray.first_hit at_remove rest) eqn:E2.
      * split; [discriminate |]. intros Hno.
        exfalso. pose proof (proj2 IH) as Hback.
      try rewrite E2 in Hback.
      assert (Hn := Hback ltac:(tauto)). discriminate Hn.
      * split; [| reflexivity]. intros _ [[Hin | Hin] | Hin].
        -- contradiction.
        -- apply (proj1 Hx); [reflexivity | exact Hin].
        -- apply (proj1 IH); [reflexivity | exact Hin].
Qed.

(** The removal inside an item fails exactly when the id is the id of
    none of its descendants. *)
Lemma remove_in_None (x : TrayMenuItem.t) :
  SystemTray.remove_in item_id x = None <-> ~ In item_id (tl (item_ids x)).
Proof.
  induction x as [i l ty e v c h | i l ty e v c items h IH] using menu_item_ind;
    cbn [SystemTray.remove_in item_ids tl].
  - split; [intros _ [] | reflexivity].
  - pose proof (first_hit_remove_None items IH) as Hlist.
    fold at_remove. fold (menu_ids items).
    destruct (SystemTray.first_hit at_remove items) eqn:E.
    + split; [discriminate |]. intros Hno.
      exfalso. pose proof (proj2 Hlist) as Hback.
      try rewrite E in Hback.
      assert (Hn := Hback ltac:(exact Hno)). discriminate Hn.
    + split; [| reflexivity]. intros _. apply (proj1 Hlist). reflexivity.
Qed.

Lemma remove_item_None (items : list TrayMenuItem.t) :
  SystemTray.remove_item item_id items = None
  <-> ~ In item_id (menu_ids items).
Proof.
  apply first_hit_remove_None. apply Forall_forall. intros x _.
  apply remove_in_None.
Qed.

Lemma first_hit_remove_size (items : list TrayMenuItem.t) :
  Forall (fun x => forall x', SystemTray.remove_in item_id x = Some x' ->
                     (List.length (item_ids x') < List.length (item_ids x))%nat)
    items ->
  forall items', SystemTray.first_hit at_remove items = Some items' ->
    (menu_size items' < menu_size items)%nat.
Proof.
  unfold menu_size, menu_ids.
  induction 1 as [| x rest Hx _ IH]; simpl; [discriminate |]. cbv beta in Hx.
  intros items'. unfold at_remove at 1.
  destruct (String.eqb (TrayMenuItem.id x) item_id).
  - intros H. inversion H; subst. rewrite length_app, (item_ids_head x).
    simpl. lia.
  - destruct (SystemTray.remove_in item_id x) as [x' |] eqn:E.
    + intros H. inversion H; subst. simpl. rewrite !length_app.
      specialize (Hx x' eq_refl). lia.
    + destruct (SystemTray.first_hit at_remove rest) as [rest' |];
        [| discriminate].
      intros H. inversion H; subst. simpl. rewrite !length_app.
      specialize (IH rest' eq_refl). lia.
Qed.

Lemma remove_in_size (x x' : TrayMenuItem.t) :
  SystemTray.remove_in item_id x = Some x' ->
  (List.length (item_ids x') < List.length (item_ids x))%nat.
Proof.
  revert x'.
  induction x as [i l ty e v c h | i l ty e v c items h IH] using menu_item_ind;
    intros x'; cbn [SystemTray.remove_in]; [discriminate |].
  pose proof (first_hit_remove_size items IH) as Hlist.
  fold at_remove.
  destruct (SystemTray.first_hit at_remove items) as [items' |];
    [| discriminate].
  intros H. inversion H; subst. cbn [item_ids]. simpl.
  specialize (Hlist items' eq_refl). unfold menu_size, menu_ids in Hlist. lia.
Qed.

Lemma remove_item_size (items items' : list TrayMenuItem.t) :
  SystemTray.remove_item item_id items = Some items' ->
  (menu_size items' < menu_size items)%nat.
Proof.
  apply first_hit_remove_size. apply Forall_forall. intros x _ x'.
  apply remove_in_size.
Qed.

End MenuRemove.


(** X17. A menu item that is not there.  [update_menu_item] and
    [remove_menu_item] search the menu and its submenus; they return
    False, with a warning in the log and the menu untouched, exactly when
    no item at any depth has the id.  When the id is there both return
    True, and the removal makes the menu smaller. *)
Theorem menu_calls_fail_exactly_on_a_missing_id (item_id : string)
    (kwargs : list TrayMenuItem.Attr) (tray : SystemTray.t) :
  (~ In item_id (menu_ids (SystemTray.menu_items tray)) ->
   SystemTray.update_menu_item item_id kwargs tray
   = (SystemTray.log logging.WARNING ("Menu item " ++ item_id ++ " not found")
        tray, false)
   /\ SystemTray.remove_menu_item item_id tray
      = (SystemTray.log logging.WARNING ("Menu item " ++ item_id ++ " not found")
           tray, false))
  /\ (In item_id (menu_ids (SystemTray.menu_items tray)) ->
      snd (SystemTray.update_menu_item item_id kwargs tray) = true
      /\ snd (SystemTray.remove_menu_item item_id tray) = true
      /\ (menu_size (SystemTray.menu_items
                       (fst (SystemTray.remove_menu_item item_id tray)))
          < menu_size (SystemTray.menu_items tray))%nat).
Proof.
  unfold SystemTray.update_menu_item, SystemTray.remove_menu_item.
  pose proof (update_item_None item_id kwargs (SystemTray.menu_items tray)) as Hu.
  pose proof (remove_item_None item_id (SystemTray.menu_items tray)) as Hr.
  pose proof (remove_item_size item_id (SystemTray.menu_items tray)) as Hs.
  destruct (SystemTray.update_item item_id kwargs (SystemTray.menu_items tray))
    as [items1 |];
    destruct (SystemTray.remove_item item_id (SystemTray.menu_items tray))
      as [items2 |];
    (split; [intros Hno | intros Hin]).
  all: try (exfalso; apply (proj2 Hu) in Hno; discriminate).
  all: try (exfalso; apply (proj2 Hr) in Hno; discriminate).
  all: try (exfalso; apply (proj1 Hu eq_refl), Hin).
  all: try (exfalso; apply (proj1 Hr eq_refl), Hin).
  - split; [reflexivity |]. split; [reflexivity |]. cbn. apply Hs. reflexivity.
  - split; reflexivity.
Qed.


(** ** Recent activities, agent status, creation and destruction *)


Lemma tray_log_fields (l : logging.level) (m : string) (tray : SystemTray.t) :
  SystemTray.menu_items (SystemTray.log l m tray) = SystemTray.menu_items tray
  /\ SystemTrayManager.logger (SystemTray.manager (SystemTray.log l m tray))
     = (SystemTrayManager.logger (SystemTray.manager tray) ++ [(l, m)])%list
  /\ SystemTrayManager.is_created (SystemTray.manager (SystemTray.log l m tray))
     = SystemTrayManager.is_created (SystemTray.manager tray)
  /\ SystemTrayManager.current_status (SystemTray.manager (SystemTray.log l m tray))
     = SystemTrayManager.current_status (SystemTray.manager tray).
Proof. repeat split. Qed.

Lemma default_menu_loses_its_placeholder :
  SystemTray.remove_item "no_activity" SystemTray.default_menu
  = Some menu_without_placeholder
  /\ SystemTray.remove_item "no_activity" menu_without_placeholder = None
  /\ submenu_of "recent_activity" menu_without_placeholder = Some []
  /\ forall a, SystemTray.insert_activity a menu_without_placeholder
               = menu_without_placeholder.
Proof.
  split; [vm_compute; reflexivity |]. split; [vm_compute; reflexivity |].
  split; [vm_compute; reflexivity |]. intros a. vm_compute. reflexivity.
Qed.

Lemma add_recent_activity_on_the_default_menu (clock activity : string)
    (timestamp : option string) (tray : SystemTray.t) :
  SystemTray.menu_items tray = SystemTray.default_menu
  \/ SystemTray.menu_items tray = menu_without_placeholder ->
  SystemTray.menu_items
    (SystemTray.add_recent_activity clock activity timestamp tray)
  = menu_without_placeholder.
Proof.
  destruct default_menu_loses_its_placeholder as (Hrem & Hnone & _ & Hins).
  intros [Hm | Hm]; unfold SystemTray.add_recent_activity,
    SystemTray.remove_menu_item; rewrite Hm.
  - rewrite Hrem.
    cbn [fst SystemTray.menu_items SystemTray.log SystemTray.set_manager
         SystemTray.set_menu_items].
    apply Hins.
  - rewrite Hnone.
    cbn [fst SystemTray.menu_items SystemTray.log SystemTray.set_manager
         SystemTray.set_menu_items].
    rewrite Hm. apply Hins.
Qed.

Lemma add_recent_activity_logger (clock activity : string)
    (timestamp : option string) (tray : SystemTray.t) :
  exists more,
    SystemTrayManager.logger
      (SystemTray.manager
         (SystemTray.add_recent_activity clock activity timestamp tray))
    = (SystemTrayManager.logger (SystemTray.manager tray) ++ more
         ++ [(logging.DEBUG, ("Added recent activity: " ++ activity)%string)])%list.
Proof.
  unfold SystemTray.add_recent_activity, SystemTray.remove_menu_item.
  destruct (SystemTray.remove_item "no_activity" (SystemTray.menu_items tray));
    cbn; eexists; rewrite <- app_assoc; reflexivity.
Qed.

Lemma add_activities_logger (calls : list (string * string * option string)) :
  forall tray : SystemTray.t,
    exists more,
      SystemTrayManager.logger (SystemTray.manager (add_activities calls tray))
      = (SystemTrayManager.logger (SystemTray.manager tray) ++ more)%list.
Proof.
  induction calls as [| [[clock activity] timestamp] calls IH]; intros tray.
  - exists []. symmetry. apply app_nil_r.
  - destruct (add_recent_activity_logger clock activity timestamp tray)
      as [m1 H1].
    destruct (IH (SystemTray.add_recent_activity clock activity timestamp tray))
      as [m2 H2].
    unfold add_activities in *. cbn [fold_left]. rewrite H2, H1.
    rewrite <- !app_assoc. eexists. reflexivity.
Qed.

(** X19. After [create_tray] no recent activity is ever recorded.  The
    first [add_recent_activity] removes the placeholder "No recent
    activity", which leaves the submenu of "Recent Activity" empty; the
    loop that follows inserts only into a submenu that is not empty, and
    so does every later call: whatever the calls, the submenu stays
    empty, while each call logs "Added recent activity". *)
Theorem recent_activity_is_never_recorded (title : string)
    (tray0 : SystemTray.t) (calls : list (string * string * option string)) :
  let tray := fst (SystemTray.create_tray title tray0) in
  SystemTray.menu_items tray = SystemTray.default_menu
  /\ (calls <> [] ->
      SystemTray.menu_items (add_activities calls tray) = menu_without_placeholder
      /\ submenu_of "recent_activity"
           (SystemTray.menu_items (add_activities calls tray)) = Some [])
  /\ (forall clock activity timestamp,
        In (clock, activity, timestamp) calls ->
        In (logging.DEBUG, "Added recent activity: " ++ activity)
           (SystemTrayManager.logger
              (SystemTray.manager (add_activities calls tray)))).
Proof.
  intros tray.
  assert (Hmenu : SystemTray.menu_items tray = SystemTray.default_menu)
    by reflexivity.
  split; [exact Hmenu |]. split.
  - intros Hne.
    assert (Hall : forall t,
              SystemTray.menu_items t = SystemTray.default_menu
              \/ SystemTray.menu_items t = menu_without_placeholder ->
              SystemTray.menu_items (add_activities calls t)
              = menu_without_placeholder).
    { destruct calls as [| call calls]; [contradiction |]. clear Hne.
      revert call. induction calls as [| call' calls IH];
        intros [[clock activity] timestamp] t Ht.
      - apply add_recent_activity_on_the_default_menu, Ht.
      - change (add_activities ((clock, activity, timestamp) :: call' :: calls) t)
          with (add_activities (call' :: calls)
                  (SystemTray.add_recent_activity clock activity timestamp t)).
        apply IH. right.
        apply add_recent_activity_on_the_default_menu, Ht. }
    rewrite (Hall tray (or_introl Hmenu)). split; [reflexivity |].
    apply default_menu_loses_its_placeholder.
  - generalize tray. clear tray Hmenu.
    induction calls as [| [[clock' activity'] timestamp'] calls IH];
      intros tray clock activity timestamp Hin; [destruct Hin |].
    change (add_activities ((clock', activity', timestamp') :: calls) tray)
      with (add_activities calls
              (SystemTray.add_recent_activity clock' activity' timestamp' tray)).
    destruct Hin as [Heq | Hin]; [| apply (IH _ clock activity timestamp Hin)].
    inversion Heq; subst.
    destruct (add_recent_activity_logger clock activity timestamp tray)
      as [m1 H1].
    destruct (add_activities_logger calls
                (SystemTray.add_recent_activity clock activity timestamp tray))
      as [m2 H2].
    rewrite H2, H1. apply in_or_app. left. apply in_or_app. right.
    apply in_or_app. right. left. reflexivity.
Qed.



Lemma update_menu_item_manager (item_id : string)
    (kwargs : list TrayMenuItem.Attr) (tray : SystemTray.t) :
  let m' := SystemTray.manager (fst (SystemTray.update_menu_item item_id kwargs tray)) in
  SystemTrayManager.is_created m'
  = SystemTrayManager.is_created (SystemTray.manager tray)
  /\ SystemTrayManager.current_status m'
     = SystemTrayManager.current_status (SystemTray.manager tray)
  /\ SystemTrayManager.notification_queue m'
     = SystemTrayManager.notification_queue (SystemTray.manager tray).
Proof.
  unfold SystemTray.update_menu_item.
  destruct (SystemTray.update_item item_id kwargs (SystemTray.menu_items tray));
    repeat split.
Qed.

(** X21. [update_agent_status] shows the worst state.  On a created tray
    the status is ERROR when there are agents with errors, else WORKING
    when agents are working, else ACTIVE, whatever the number of active
    agents; on a tray that is not created the status stays.  On the
    default menu the three labels of "Agent Status" are rewritten, the
    idle count being [active - working - error], negative when the
    numbers do not add up. *)
Theorem update_agent_status_shows_the_worst_state
    (active_agents working_agents error_agents : Z) (tray : SystemTray.t) :
  let tray' := SystemTray.update_agent_status active_agents working_agents
                 error_agents tray in
  (SystemTrayManager.is_created (SystemTray.manager tray) = true ->
   SystemTrayManager.current_status (SystemTray.manager tray')
   = if error_agents >? 0 then TrayIconStatus.ERROR
     else if working_agents >? 0 then TrayIconStatus.WORKING
     else TrayIconStatus.ACTIVE)
  /\ (SystemTrayManager.is_created (SystemTray.manager tray) = false ->
      SystemTrayManager.current_status (SystemTray.manager tray')
      = SystemTrayManager.current_status (SystemTray.manager tray))
  /\ (SystemTray.menu_items tray = SystemTray.default_menu ->
      option_map (map TrayMenuItem.label)
        (submenu_of "agent_status" (SystemTray.menu_items tray'))
      = Some [str_of_int (active_agents - working_agents - error_agents)
                ++ " Agents Idle";
              str_of_int working_agents ++ " Agents Working";
              str_of_int error_agents ++ " Agents with Errors"]).
Proof.
  intros tray'. unfold tray', SystemTray.update_agent_status.
  set (t1 := fst (SystemTray.update_menu_item "agents_idle" _ tray)).
  set (t2 := fst (SystemTray.update_menu_item "agents_working" _ t1)).
  set (t3 := fst (SystemTray.update_menu_item "agents_error" _ t2)).
  assert (Hm : SystemTrayManager.is_created (SystemTray.manager t3)
               = SystemTrayManager.is_created (SystemTray.manager tray)
               /\ SystemTrayManager.current_status (SystemTray.manager t3)
                  = SystemTrayManager.current_status (SystemTray.manager tray)).
  { unfold t3, t2, t1.
    repeat match goal with
           | |- context [SystemTray.update_menu_item ?i ?k ?t] =>
               let H := fresh in
               pose proof (update_menu_item_manager i k t) as H;
               cbv zeta in H; destruct H as (-> & -> & _)
           end.
    split; reflexivity. }
  destruct Hm as [Hc Hs].
  split; [| split].
  - intros Hyes. rewrite <- Hc in Hyes.
    destruct (error_agents >? 0); [| destruct (working_agents >? 0)];
      cbn; apply update_status_created, Hyes.
  - intros Hno. rewrite <- Hc in Hno. rewrite <- Hs.
    destruct (error_agents >? 0); [| destruct (working_agents >? 0)];
      cbn; rewrite (proj1 (tray_not_created _ Hno)); reflexivity.
  - intros Hmenu.
    assert (H3 : SystemTray.menu_items t3
                 = match SystemTray.update_item "agents_error"
                           [TrayMenuItem.label_
                              (str_of_int error_agents ++ " Agents with Errors")]
                           (SystemTray.menu_items t2) with
                   | Some items => items
                   | None => SystemTray.menu_items t2
                   end).
    { unfold t3, SystemTray.update_menu_item.
      destruct (SystemTray.update_item _ _ (SystemTray.menu_items t2)); reflexivity. }
    assert (H2 : SystemTray.menu_items t2
                 = match SystemTray.update_item "agents_working"
                           [TrayMenuItem.label_
                              (str_of_int working_agents ++ " Agents Working")]
                           (SystemTray.menu_items t1) with
                   | Some items => items
                   | None => SystemTray.menu_items t1
                   end).
    { unfold t2, SystemTray.update_menu_item.
      destruct (SystemTray.update_item _ _ (SystemTray.menu_items t1)); reflexivity. }
    assert (H1 : SystemTray.menu_items t1
                 = match SystemTray.update_item "agents_idle"
                           [TrayMenuItem.label_
                              (str_of_int (active_agents - working_agents
                                           - error_agents) ++ " Agents Idle")]
                           (SystemTray.menu_items tray) with
                   | Some items => items
                   | None => SystemTray.menu_items tray
                   end).
    { unfold t1, SystemTray.update_menu_item.
      destruct (SystemTray.update_item _ _ (SystemTray.menu_items tray)); reflexivity. }
    assert (Hfinal : SystemTray.menu_items
                       (if error_agents >? 0
                        then SystemTray.update_status TrayIconStatus.ERROR
                               (Some ("AgentCODR V4 - " ++ str_of_int error_agents
                                        ++ " agents have errors")) t3
                        else if working_agents >? 0
                        then SystemTray.update_status TrayIconStatus.WORKING
                               (Some ("AgentCODR V4 - "
                                        ++ str_of_int working_agents
                                        ++ " agents working")) t3
                        else SystemTray.update_status TrayIconStatus.ACTIVE
                               (Some "AgentCODR V4 - All agents idle") t3)
                     = SystemTray.menu_items t3).
    { destruct (error_agents >? 0); [| destruct (working_agents >? 0)];
        reflexivity. }
    rewrite Hfinal, H3, H2, H1, Hmenu.
    generalize (str_of_int (active_agents - working_agents - error_agents)).
    generalize (str_of_int working_agents). generalize (str_of_int error_agents).
    intros s1 s2 s3. cbn. reflexivity.
Qed.

(** X22. [create_tray] leaves the status as it finds it.  It calls
    [update_status(IDLE)] before it sets [is_created], so on a tray that
    is not created the call is turned down: the log gets the warning, the
    status does not change and no status handler is called.  The tray is
    then created, with the default menu and its thread started.  After
    [destroy], which sets the status OFFLINE, a new [create_tray] gives a
    created tray whose status is still OFFLINE.  On a tray that is
    created already the status is set to IDLE and the menu starts again
    from the default. *)
Theorem create_tray_leaves_the_status (title : string) (tray : SystemTray.t) :
  let m := SystemTray.manager tray in
  let r := SystemTray.create_tray title tray in
  let m' := SystemTray.manager (fst r) in
  snd r = true
  /\ SystemTrayManager.is_created m' = true
  /\ SystemTray.menu_items (fst r) = SystemTray.default_menu
  /\ SystemTray._notification_thread (fst r) = true
  /\ (SystemTrayManager.is_created m = false ->
      SystemTrayManager.current_status m' = SystemTrayManager.current_status m
      /\ SystemTrayManager.logger m'
         = (SystemTrayManager.logger m
              ++ [(logging.INFO, "Creating system tray icon");
                  (logging.WARNING, "Cannot update status - tray not created");
                  (logging.INFO, "System tray created successfully")])%list)
  /\ (SystemTrayManager.is_created m = true ->
      SystemTrayManager.current_status m' = TrayIconStatus.IDLE
      /\ SystemTrayManager.current_status
           (SystemTray.manager
              (fst (SystemTray.create_tray title (SystemTray.destroy tray))))
         = TrayIconStatus.OFFLINE
      /\ SystemTrayManager.is_created
           (SystemTray.manager
              (fst (SystemTray.create_tray title (SystemTray.destroy tray))))
         = true).
Proof.
  cbv zeta. split; [reflexivity |]. split; [reflexivity |].
  split; [reflexivity |]. split; [reflexivity |]. split.
  - intros Hno. unfold SystemTray.create_tray, SystemTray.update_status.
    cbn [fst SystemTray.manager SystemTray.log SystemTray.set_manager
         SystemTray.set_menu_items SystemTray._start_notification_processor].
    rewrite (proj1 (tray_not_created
                      (SystemTrayManager.log logging.INFO
                         "Creating system tray icon" (SystemTray.manager tray))
                      Hno)).
    cbn. rewrite <- !app_assoc. split; reflexivity.
  - intros Hyes. split; [| split].
    + unfold SystemTray.create_tray, SystemTray.update_status.
      cbn [fst SystemTray.manager SystemTray.log SystemTray.set_manager
           SystemTray.set_menu_items SystemTray._start_notification_processor].
      cbn [SystemTrayManager.current_status SystemTrayManager.log
           SystemTray.set_is_created].
      apply update_status_created. exact Hyes.
    + unfold SystemTray.destroy. rewrite Hyes. reflexivity.
    + reflexivity.
Qed.

(** X23. [destroy] clears the tray and is done once.  On a created tray
    it empties the menu, the queue of notifications, the status handlers
    and the click handlers, and sets the status OFFLINE; after it a
    notification or a status update is turned down with a warning, and a
    second [destroy] does nothing.  The notification thread is not
    stopped.  On a tray that is not created [destroy] does nothing. *)
Theorem destroy_clears_the_tray_once (tray : SystemTray.t)
    (n : TrayNotification.t) (status : TrayIconStatus.t)
    (tooltip : option string) :
  let d := SystemTray.destroy tray in
  (SystemTrayManager.is_created (SystemTray.manager tray) = false -> d = tray)
  /\ (SystemTrayManager.is_created (SystemTray.manager tray) = true ->
      SystemTray.menu_items d = []
      /\ SystemTray.click_handlers d = []
      /\ SystemTrayManager.notification_queue (SystemTray.manager d) = []
      /\ SystemTrayManager.status_update_handlers (SystemTray.manager d) = []
      /\ SystemTrayManager.current_status (SystemTray.manager d)
         = TrayIconStatus.OFFLINE
      /\ SystemTray._notification_thread d = SystemTray._notification_thread tray)
  /\ SystemTrayManager.is_created (SystemTray.manager d) = false
  /\ SystemTray.destroy d = d
  /\ SystemTray.show_notification n d
     = SystemTray.log logging.WARNING
         "Cannot show notification - tray not created" d
  /\ SystemTray.update_status status tooltip d
     = SystemTray.log logging.WARNING
         "Cannot update status - tray not created" d.
Proof.
  cbv zeta.
  assert (Hoff : SystemTrayManager.is_created
                   (SystemTray.manager (SystemTray.destroy tray)) = false).
  { unfold SystemTray.destroy.
    destruct (SystemTrayManager.is_created (SystemTray.manager tray)) eqn:E;
      [reflexivity | exact E]. }
  split; [intros Hno; unfold SystemTray.destroy; rewrite Hno; reflexivity |].
  split; [intros Hyes; unfold SystemTray.destroy; rewrite Hyes; repeat split |].
  split; [exact Hoff |].
  split; [unfold SystemTray.destroy at 1; rewrite Hoff; reflexivity |].
  split.
  - unfold SystemTray.show_notification.
    rewrite (proj2 (tray_not_created _ Hoff)). reflexivity.
  - unfold SystemTray.update_status.
    rewrite (proj1 (tray_not_created _ Hoff)). reflexivity.
Qed.



(** ** The further properties on concrete centers and trays *)

Lemma clear_all_dismisses_every_active_notification_witness :
  reachable py0 created_tray full_center
  /\ snd (clear_all_notifications full_center) = 3
  /\ active_notifications (fst (clear_all_notifications full_center)) = []
  /\ dismissed_count (stats (fst (clear_all_notifications full_center))) = 3.
Proof.
  assert (Hreach : reachable py0 created_tray full_center)
    by (eexists; reflexivity).
  destruct (clear_all_dismisses_every_active_notification py0 created_tray
              full_center Hreach) as (Hret & Hact & Hcnt & _).
  split; [exact Hreach |]. split; [rewrite Hret; reflexivity |].
  split; [exact Hact |]. rewrite Hcnt. reflexivity.
Defined.

Lemma dismiss_group_dismisses_exactly_the_group_witness :
  reachable py0 created_tray status_center
  /\ snd (dismiss_group "system_claude" status_center) = 1
  /\ active_notifications (fst (dismiss_group "system_claude" status_center)) = [].
Proof.
  assert (Hreach : reachable py0 created_tray status_center)
    by (eexists; reflexivity).
  destruct (dismiss_group_dismisses_exactly_the_group py0 created_tray
              status_center "system_claude" Hreach) as (Hret & Hact & _).
  split; [exact Hreach |]. split; [rewrite Hret; reflexivity |].
  rewrite Hact. reflexivity.
Defined.

Lemma stats_account_for_every_notification_witness :
  reachable py0 created_tray full_center
  /\ 3 + dismissed_count (stats full_center) <= total_sent (stats full_center).
Proof.
  assert (Hreach : reachable py0 created_tray full_center)
    by (eexists; reflexivity).
  split; [exact Hreach |].
  pose proof (stats_account_for_every_notification py0 created_tray full_center
                Hreach) as H.
  unfold get_notification_stats in H. destruct H as (_ & _ & Hsum & _).
  exact Hsum.
Defined.


Lemma do_not_disturb_without_an_end_witness :
  -1 < 0
  /\ do_not_disturb
       (timer_fire 0 (set_do_not_disturb true (Some (-1)) (init created_tray)))
     = true.
Proof.
  split; [lia |].
  destruct (do_not_disturb_without_an_end (init created_tray) (-1) ltac:(lia))
    as (_ & _ & _ & _ & _ & _ & Hon).
  exact Hon.
Defined.


Lemma display_overwrites_an_active_id_witness :
  processing_thread about_to_overwrite
  = Some (Promoting (queue_entry (plain "a" NotificationPriority.HIGH 2)))
  /\ dict_get "a" (active_notifications about_to_overwrite)
     = Some (plain "a" NotificationPriority.NORMAL 1)
  /\ dict_len (active_notifications (worker_step py0 about_to_overwrite)) = 1
  /\ dismissed_count (stats (worker_step py0 about_to_overwrite)) = 0.
Proof.
  assert (Ht : processing_thread about_to_overwrite
               = Some (Promoting (queue_entry (plain "a" NotificationPriority.HIGH 2))))
    by reflexivity.
  assert (Hold : dict_get "a" (active_notifications about_to_overwrite)
                 = Some (plain "a" NotificationPriority.NORMAL 1))
    by reflexivity.
  destruct (display_overwrites_an_active_id py0 about_to_overwrite _ _ Ht Hold)
    as (_ & Hlen & _ & Hcnt & _).
  split; [exact Ht |]. split; [exact Hold |].
  split; [rewrite Hlen; reflexivity | rewrite Hcnt; reflexivity].
Defined.

Lemma stop_ends_delivery_at_the_loop_head_witness :
  processing_thread three_queued = Some Polling
  /\ processing_thread (worker_step py0 (stop three_queued)) = Some Exited.
Proof.
  split; [reflexivity |].
  destruct (stop_ends_delivery_at_the_loop_head py0 three_queued)
    as (_ & Hhead & _).
  rewrite (Hhead eq_refl). reflexivity.
Defined.

Lemma a_tray_not_created_receives_nothing_witness :
  SystemTrayManager.is_created (system_tray (init uncreated_tray)) = false
  /\ SystemTrayManager.notification_queue
       (system_tray
          (run py0
             [ShowNotification 1 (plain "u" NotificationPriority.URGENT 1);
              WorkerStep; WorkerStep; WorkerStep]
             (init uncreated_tray))) = []
  /\ total_sent
       (stats
          (run py0
             [ShowNotification 1 (plain "u" NotificationPriority.URGENT 1);
              WorkerStep; WorkerStep; WorkerStep]
             (init uncreated_tray))) = 1.
Proof.
  destruct (a_tray_not_created_receives_nothing py0 (init uncreated_tray)
              [ShowNotification 1 (plain "u" NotificationPriority.URGENT 1);
               WorkerStep; WorkerStep; WorkerStep] eq_refl eq_refl)
    as ((_ & _ & Hq & _) & _).
  split; [reflexivity |]. split; [rewrite Hq; reflexivity | reflexivity].
Defined.

Lemma show_notification_raises_only_on_a_tie_witness :
  blocked_by_dnd
    (with_generated_id py0 9 (plain "h" NotificationPriority.HIGH 9)) three_queued
  = false
  /\ snd (show_notification py0 9 (plain "h" NotificationPriority.HIGH 9)
            three_queued) = inr "h".
Proof.
  split; [reflexivity |].
  destruct (show_notification_raises_only_on_a_tie py0 9
              (plain "h" NotificationPriority.HIGH 9) three_queued eq_refl)
    as (_ & _ & Hfree).
  apply Hfree. intros e He. vm_compute in He.
  destruct He as [<- | [<- | [<- | []]]]; discriminate.
Defined.



Lemma requeue_leaves_unfinished_tasks_witness :
  PriorityQueue.unfinished_tasks
    (notification_queue full_center_with_one_queued) = 1
  /\ PriorityQueue.unfinished_tasks
       (notification_queue
          (Nat.iter 4 (requeue_cycle py0) full_center_with_one_queued)) = 5.
Proof.
  split; [reflexivity |].
  assert (Hq : PriorityQueue.queue (notification_queue full_center_with_one_queued)
               = [queue_entry (plain "q" NotificationPriority.NORMAL 10)])
    by reflexivity.
  assert (Hsound : sound_heap
                     (PriorityQueue.queue
                        (notification_queue full_center_with_one_queued))).
  { rewrite Hq. split.
    - repeat constructor. intros [].
    - intros j a p Hj Ha. destruct j as [| [| j]]; [lia | |]; discriminate Ha. }
  destruct (requeue_leaves_unfinished_tasks py0 full_center_with_one_queued 4
              eq_refl eq_refl ltac:(vm_compute; discriminate) Hsound
              ltac:(rewrite Hq; discriminate)) as (Htasks & _).
  rewrite Htasks. reflexivity.
Defined.

Lemma system_helper_sets_the_tray_status_witness :
  SystemTrayManager.is_created (system_tray (init created_tray)) = true
  /\ SystemTrayManager.current_status
       (system_tray
          (fst (SystemNotificationHelper.claude_disconnected py0 1 None
                  (init created_tray)))) = TrayIconStatus.OFFLINE.
Proof.
  split; [reflexivity |].
  destruct (system_helper_sets_the_tray_status py0 1 "browser" None 0 0%float
              (init created_tray)) as (Hcreated & _).
  destruct (Hcreated eq_refl) as (_ & Hoffline). exact Hoffline.
Defined.

Lemma retry_action_names_the_operation_witness :
  (List.length
     (DesktopNotification.tags (plain "x" NotificationPriority.NORMAL 0)) < 2)%nat
  /\ _retry_claude_operation (plain "x" NotificationPriority.NORMAL 0)
       (NotificationAction.make "retry" "Retry" "_retry_claude_operation")
       (init created_tray)
     = log logging.INFO "Retrying Claude operation: unknown" (init created_tray).
Proof.
  split; [simpl; lia |].
  destruct (retry_action_names_the_operation py0 0 "review" []
              (NotificationAction.make "retry" "Retry" "_retry_claude_operation")
              (plain "x" NotificationPriority.NORMAL 0) (init created_tray))
    as (_ & _ & _ & _ & Hfew).
  apply Hfew. simpl. lia.
Defined.

Lemma menu_calls_fail_exactly_on_a_missing_id_witness :
  ~ In "help" (menu_ids (SystemTray.menu_items created_manager))
  /\ snd (SystemTray.remove_menu_item "help" created_manager) = false
  /\ In "agents_idle" (menu_ids (SystemTray.menu_items created_manager))
  /\ snd (SystemTray.remove_menu_item "agents_idle" created_manager) = true.
Proof.
  assert (Hno : ~ In "help" (menu_ids (SystemTray.menu_items created_manager))).
  { vm_compute. intros H. repeat destruct H as [H | H]; try discriminate H.
    exact H. }
  assert (Hyes : In "agents_idle" (menu_ids (SystemTray.menu_items created_manager))).
  { vm_compute. right. right. right. left. reflexivity. }
  destruct (menu_calls_fail_exactly_on_a_missing_id "help" [] created_manager)
    as (Hmiss & _).
  destruct (menu_calls_fail_exactly_on_a_missing_id "agents_idle" []
              created_manager) as (_ & Hhit).
  split; [exact Hno |]. split; [rewrite (proj2 (Hmiss Hno)); reflexivity |].
  split; [exact Hyes |]. destruct (Hhit Hyes) as (_ & Hremoved & _).
  exact Hremoved.
Defined.


Lemma recent_activity_is_never_recorded_witness :
  [("12:00:00", "Analysis finished", @None string)] <> []
  /\ submenu_of "recent_activity"
       (SystemTray.menu_items
          (add_activities [("12:00:00", "Analysis finished", None)]
             created_manager)) = Some [].
Proof.
  split; [discriminate |].
  destruct (recent_activity_is_never_recorded "AgentCODR V4" SystemTray.init
              [("12:00:00", "Analysis finished", None)]) as (_ & Hnever & _).
  destruct (Hnever ltac:(discriminate)) as (_ & Hempty). exact Hempty.
Defined.


Lemma update_agent_status_shows_the_worst_state_witness :
  SystemTrayManager.is_created (SystemTray.manager created_manager) = true
  /\ SystemTrayManager.current_status
       (SystemTray.manager (SystemTray.update_agent_status 3 2 1 created_manager))
     = TrayIconStatus.ERROR.
Proof.
  split; [reflexivity |].
  destruct (update_agent_status_shows_the_worst_state 3 2 1 created_manager)
    as (Hcreated & _).
  rewrite (Hcreated eq_refl). reflexivity.
Defined.

Lemma create_tray_leaves_the_status_witness :
  SystemTrayManager.is_created (SystemTray.manager SystemTray.init) = false
  /\ In (logging.WARNING, "Cannot update status - tray not created")
        (SystemTrayManager.logger (SystemTray.manager created_manager)).
Proof.
  split; [reflexivity |].
  destruct (create_tray_leaves_the_status "AgentCODR V4" SystemTray.init)
    as (_ & _ & _ & _ & Hfresh & _).
  destruct (Hfresh eq_refl) as (_ & Hlog).
  unfold created_manager. rewrite Hlog. right. left. reflexivity.
Defined.

Lemma destroy_clears_the_tray_once_witness :
  SystemTrayManager.is_created (SystemTray.manager created_manager) = true
  /\ SystemTray.menu_items (SystemTray.destroy created_manager) = []
  /\ SystemTrayManager.current_status
       (SystemTray.manager (SystemTray.destroy created_manager))
     = TrayIconStatus.OFFLINE.
Proof.
  split; [reflexivity |].
  destruct (destroy_clears_the_tray_once created_manager
              (TrayNotification.mk "t" "b" None 0 None) TrayIconStatus.IDLE None)
    as (_ & Hcreated & _).
  destruct (Hcreated eq_refl) as (Hmenu & _ & _ & _ & Hstatus & _).
  split; assumption.
Defined.

